(** * TripAdvisor scraper: identity hashing, store gateway, extraction, crawl

    A shallow embedding of [web_scapping/models.py] and the properties its
    specification states about it.

    Python values are modelled as follows.
    - [str] is a list of Unicode code points ([N]); [py "..."] turns an ASCII
      literal of the source into such a list.
    - [bytes] is a list of octets ([N] below 256).
    - a [dict] is an association list in insertion order.
    - an exception is a value of [exn]; code that can raise returns [res].
    - the library calls of the source ([hashlib.sha256], [json.dumps],
      [datetime.strptime], [re.search], [float], [int], the [bs4] selectors
      and the [pymongo] collection) are modelled by the functions of the
      modules named after them; text is Unicode 14, the month names are
      the English ones.
    - [insert_one] raises on a document that BSON cannot encode (an
      integer outside 64 bits, text with a surrogate) and writes nothing;
      the calls of the store raise nothing else.
    - a [while True] loop takes a bound on its turns and returns [None]
      when the bound is reached. *)

From Stdlib Require Import List NArith ZArith Bool Ascii String Lia.
From Stdlib Require Import DecimalString.
From Stdlib Require DecimalPos DecimalZ.
From Stdlib Require Import Permutation Sorted.
Import ListNotations.

Set Implicit Arguments.
Set Warnings "-register-all".

(* ------------------------------------------------------------------ *)
(** ** Python strings *)

Module Str.

Definition str := list N.
Definition bytes := list N.

Definition py (s : string) : str :=
  map (fun a => N_of_ascii a) (list_ascii_of_string s).

Fixpoint eqb (a b : str) : bool :=
  match a, b with
  | [], [] => true
  | x :: a', y :: b' => N.eqb x y && eqb a' b'
  | _, _ => false
  end.

(** Python compares strings by code point, lexicographically. *)
Fixpoint ltb (a b : str) : bool :=
  match a, b with
  | _, [] => false
  | [], _ :: _ => true
  | x :: a', y :: b' => N.ltb x y || (N.eqb x y && ltb a' b')
  end.

Definition leb (a b : str) : bool := negb (ltb b a).

(** [str.isspace] on one code point; also the class [\s] of [re]. *)
Definition isspace (c : N) : bool :=
  existsb (N.eqb c)
    [9; 10; 11; 12; 13; 28; 29; 30; 31; 32; 133; 160; 5760; 8192; 8193; 8194;
     8195; 8196; 8197; 8198; 8199; 8200; 8201; 8202; 8232; 8233; 8239; 8287;
     12288]%N.

(** The first code point of every run of ten decimal digits (category Nd,
    Unicode 14): the class [\d] of [re], and the digits [int] and [float]
    accept. *)
Definition nd_zeros : list N :=
  [48; 1632; 1776; 1984; 2406; 2534; 2662; 2790; 2918; 3046; 3174; 3302; 3430;
   3558; 3664; 3792; 3872; 4160; 4240; 6112; 6160; 6470; 6608; 6784; 6800;
   6992; 7088; 7232; 7248; 42528; 43216; 43264; 43472; 43504; 43600; 44016;
   65296; 66720; 68912; 69734; 69872; 69942; 70096; 70384; 70736; 70864;
   71248; 71360; 71472; 71904; 72016; 72784; 73040; 73120; 92768; 92864;
   93008; 120782; 120792; 120802; 120812; 120822; 123200; 123632; 125264;
   130032]%N.

Definition digit_value (c : N) : option N :=
  match find (fun z => N.leb z c && N.ltb c (z + 10)) nd_zeros with
  | Some z => Some (c - z)%N
  | None => None
  end.

Definition isdigit (c : N) : bool :=
  match digit_value c with Some _ => true | None => false end.

Fixpoint lstrip (s : str) : str :=
  match s with
  | c :: s' => if isspace c then lstrip s' else s
  | [] => []
  end.

(** [s.strip()] *)
Definition strip (s : str) : str := rev (lstrip (rev (lstrip s))).

Fixpoint starts_with (p s : str) : bool :=
  match p, s with
  | [], _ => true
  | x :: p', y :: s' => N.eqb x y && starts_with p' s'
  | _ :: _, [] => false
  end.

(** [s.split(sep, 1)[-1]] for a non-empty [sep]: what follows the first
    occurrence of [sep], or [s] when there is none. *)
Fixpoint after_first (sep s : str) : option str :=
  if starts_with sep s then Some (skipn (List.length sep) s)
  else match s with
       | [] => None
       | _ :: s' => after_first sep s'
       end.

Definition split1_last (sep s : str) : str :=
  match after_first sep s with Some t => t | None => s end.

(** [s.split(sep)[0]] for a non-empty [sep]: what precedes the first
    occurrence of [sep], or [s] when there is none. *)
Fixpoint split_first (sep s : str) : str :=
  if starts_with sep s then []
  else match s with
       | [] => []
       | c :: s' => c :: split_first sep s'
       end.

(** [s.replace(old, empty)] for a non-empty [old]: the occurrences of [old] are
    found from the left, without overlap, and removed.  [fuel] bounds the
    number of steps; [length s] is enough. *)
Fixpoint remove_all_fuel (fuel : nat) (old s : str) : str :=
  match fuel with
  | O => s
  | S fuel' =>
      if starts_with old s then remove_all_fuel fuel' old (skipn (List.length old) s)
      else match s with
           | [] => []
           | c :: s' => c :: remove_all_fuel fuel' old s'
           end
  end.

Definition remove_all (old s : str) : str :=
  remove_all_fuel (S (List.length s)) old s.

(** [s.split()]: the maximal runs of non-whitespace. *)
Fixpoint words_aux (cur : str) (s : str) : list str :=
  match s with
  | [] => match cur with [] => [] | _ => [rev cur] end
  | c :: s' =>
      if isspace c
      then match cur with
           | [] => words_aux [] s'
           | _ => rev cur :: words_aux [] s'
           end
      else words_aux (c :: cur) s'
  end.

Definition words (s : str) : list str := words_aux [] s.

Fixpoint join (sep : str) (l : list str) : str :=
  match l with
  | [] => []
  | [x] => x
  | x :: l' => x ++ sep ++ join sep l'
  end.

(** ASCII lower-casing, enough for the month names of [strptime]. *)
Definition lower_ascii (c : N) : N :=
  if (N.leb 65 c && N.leb c 90)%N then (c + 32)%N else c.

End Str.

Import Str.

(* ------------------------------------------------------------------ *)
(** ** [hashlib.sha256]: SHA-256 (FIPS 180-4) on 32-bit words in [N] *)

Module SHA256.
Local Open Scope N_scope.

Definition wrap (x : N) : N := x mod 2 ^ 32.
Definition add32 (x y : N) : N := wrap (x + y).
Definition rotr (n x : N) : N :=
  N.lor (N.shiftr x n) (wrap (N.shiftl x (32 - n))).
Definition shr (n x : N) : N := N.shiftr x n.
Definition not32 (x : N) : N := N.lxor x 0xffffffff.

Definition Ch (x y z : N) := N.lxor (N.land x y) (N.land (not32 x) z).
Definition Maj (x y z : N) :=
  N.lxor (N.lxor (N.land x y) (N.land x z)) (N.land y z).
Definition bsig0 x := N.lxor (N.lxor (rotr 2 x) (rotr 13 x)) (rotr 22 x).
Definition bsig1 x := N.lxor (N.lxor (rotr 6 x) (rotr 11 x)) (rotr 25 x).
Definition ssig0 x := N.lxor (N.lxor (rotr 7 x) (rotr 18 x)) (shr 3 x).
Definition ssig1 x := N.lxor (N.lxor (rotr 17 x) (rotr 19 x)) (shr 10 x).

(** The round constants: the first 32 bits of the fractional parts of the
    cube roots of the first 64 primes, from [0x428a2f98] to [0xc67178f2]. *)
Definition K : list N :=
  [1116352408; 1899447441; 3049323471; 3921009573;
   961987163; 1508970993; 2453635748; 2870763221;
   3624381080; 310598401; 607225278; 1426881987;
   1925078388; 2162078206; 2614888103; 3248222580;
   3835390401; 4022224774; 264347078; 604807628;
   770255983; 1249150122; 1555081692; 1996064986;
   2554220882; 2821834349; 2952996808; 3210313671;
   3336571891; 3584528711; 113926993; 338241895;
   666307205; 773529912; 1294757372; 1396182291;
   1695183700; 1986661051; 2177026350; 2456956037;
   2730485921; 2820302411; 3259730800; 3345764771;
   3516065817; 3600352804; 4094571909; 275423344;
   430227734; 506948616; 659060556; 883997877;
   958139571; 1322822218; 1537002063; 1747873779;
   1955562222; 2024104815; 2227730452; 2361852424;
   2428436474; 2756734187; 3204031479; 3329325298].

(** Padding: the byte 0x80, zero bytes up to 56 modulo 64, then the length
    of the message in bits as a 64-bit big-endian integer. *)
Definition be_bytes (n : nat) (x : N) : list N :=
  map (fun i => (N.shiftr x (8 * N.of_nat i)) mod 256) (rev (seq 0 n)).

Definition pad (msg : bytes) : bytes :=
  let l := N.of_nat (List.length msg) in
  let k := (64 - ((l + 9) mod 64)) mod 64 in
  msg ++ [0x80] ++ repeat 0 (N.to_nat k) ++ be_bytes 8 (8 * l).

Fixpoint be_word (bs : list N) (acc : N) : N :=
  match bs with
  | [] => acc
  | b :: bs' => be_word bs' (acc * 256 + b)
  end.

(** The big-endian 32-bit words of a byte string, four bytes at a time. *)
Fixpoint to_words (n : nat) (bs : bytes) : list N :=
  match n with
  | O => []
  | S n' => be_word (firstn 4 bs) 0 :: to_words n' (skipn 4 bs)
  end.

(** The message schedule, kept newest first: [ws] holds W(t-1), W(t-2), ... *)
Fixpoint schedule (n : nat) (ws : list N) : list N :=
  match n with
  | O => ws
  | S n' =>
      let wt := add32 (add32 (add32 (ssig1 (nth 1 ws 0)) (nth 6 ws 0))
                             (ssig0 (nth 14 ws 0))) (nth 15 ws 0) in
      schedule n' (wt :: ws)
  end.

Record regs := Regs { ra : N; rb : N; rc : N; rd : N;
                      re : N; rf : N; rg : N; rh : N }.

Definition round (r : regs) (kw : N * N) : regs :=
  let '(k, w) := kw in
  let t1 := add32 (add32 (add32 (add32 (rh r) (bsig1 (re r)))
                                (Ch (re r) (rf r) (rg r))) k) w in
  let t2 := add32 (bsig0 (ra r)) (Maj (ra r) (rb r) (rc r)) in
  Regs (add32 t1 t2) (ra r) (rb r) (rc r) (add32 (rd r) t1) (re r) (rf r) (rg r).

Definition compress (h : regs) (block : bytes) : regs :=
  let w16 := to_words 16 block in
  let ws := rev (schedule 48 (rev w16)) in
  let r := fold_left round (combine K ws) h in
  Regs (add32 (ra h) (ra r)) (add32 (rb h) (rb r)) (add32 (rc h) (rc r))
       (add32 (rd h) (rd r)) (add32 (re h) (re r)) (add32 (rf h) (rf r))
       (add32 (rg h) (rg r)) (add32 (rh h) (rh r)).

Fixpoint blocks (n : nat) (h : regs) (bs : bytes) : regs :=
  match n with
  | O => h
  | S n' => blocks n' (compress h (firstn 64 bs)) (skipn 64 bs)
  end.

(** The initial hash value: the first 32 bits of the fractional parts of
    the square roots of the first 8 primes, from [0x6a09e667] to
    [0x5be0cd19]. *)
Definition init : regs :=
  Regs 1779033703 3144134277 1013904242 2773480762
       1359893119 2600822924 528734635 1541459225.

Definition digest_words (msg : bytes) : list N :=
  let p := pad msg in
  let r := blocks (Nat.div (List.length p) 64) init p in
  [ra r; rb r; rc r; rd r; re r; rf r; rg r; rh r].

Definition hex_digit (d : N) : N := if d <? 10 then 48 + d else 87 + d.

(** [n] lower-case hexadecimal digits of [x], most significant first. *)
Definition hex (n : nat) (x : N) : str :=
  map (fun i => hex_digit ((N.shiftr x (4 * N.of_nat i)) mod 16)) (rev (seq 0 n)).

(** [hashlib.sha256(msg).hexdigest()] *)
Definition hexdigest (msg : bytes) : str :=
  flat_map (hex 8) (digest_words msg).

End SHA256.

(* ------------------------------------------------------------------ *)
(** ** [json.dumps(..., sort_keys=True)] on a flat dict *)

Module Json.
Local Open Scope N_scope.

Inductive value :=
| JStr (s : str)
| JInt (z : Z).

Definition dict := list (str * value).

(** One character of a string literal, with [ensure_ascii=True] (the
    default): the quote and the backslash are escaped, the usual control
    characters have short forms, and everything outside [' '..'~'] becomes
    [\uXXXX], as a surrogate pair above the basic plane. *)
Definition escape_char (c : N) : str :=
  if c =? 34 then [92; 34] else
  if c =? 92 then py "\\" else
  if c =? 8 then py "\b" else
  if c =? 12 then py "\f" else
  if c =? 10 then py "\n" else
  if c =? 13 then py "\r" else
  if c =? 9 then py "\t" else
  if (32 <=? c) && (c <=? 126) then [c] else
  if c <? 0x10000 then py "\u" ++ SHA256.hex 4 c else
  let n := c - 0x10000 in
  let s1 := N.lor 0xd800 (N.land (N.shiftr n 10) 0x3ff) in
  let s2 := N.lor 0xdc00 (N.land n 0x3ff) in
  py "\u" ++ SHA256.hex 4 s1 ++ py "\u" ++ SHA256.hex 4 s2.

Definition dumps_str (s : str) : str := [34] ++ flat_map escape_char s ++ [34].

Definition dumps_int (z : Z) : str := py (NilZero.string_of_int (Z.to_int z)).

Definition dumps_value (v : value) : str :=
  match v with
  | JStr s => dumps_str s
  | JInt z => dumps_int z
  end.

(** [sorted(d.items())]: a stable insertion sort on the keys. *)
Fixpoint insert_item (kv : str * value) (l : dict) : dict :=
  match l with
  | [] => [kv]
  | x :: l' =>
      if Str.ltb (fst x) (fst kv) then x :: insert_item kv l' else kv :: l
  end.

Definition sort_items (d : dict) : dict := fold_right insert_item [] d.

(** The order of the items of a sorted dict. *)
Definition key_lt (x y : str * value) : Prop := Str.ltb (fst x) (fst y) = true.

Definition dumps_item (kv : str * value) : str :=
  dumps_str (fst kv) ++ py ": " ++ dumps_value (snd kv).

(** [json.dumps(d, sort_keys=True)] *)
Definition dumps (d : dict) : str :=
  py "{" ++ Str.join (py ", ") (map dumps_item (sort_items d)) ++ py "}".

End Json.

(** [s.encode()]: UTF-8.  The strings encoded by the source are outputs of
    [json.dumps], which are ASCII. *)
Definition encode (s : str) : bytes :=
  flat_map (fun c =>
    if (c <? 0x80)%N then [c]
    else if (c <? 0x800)%N then
      [N.lor 0xc0 (N.shiftr c 6); N.lor 0x80 (N.land c 0x3f)]
    else if (c <? 0x10000)%N then
      [N.lor 0xe0 (N.shiftr c 12); N.lor 0x80 (N.land (N.shiftr c 6) 0x3f);
       N.lor 0x80 (N.land c 0x3f)]
    else
      [N.lor 0xf0 (N.shiftr c 18); N.lor 0x80 (N.land (N.shiftr c 12) 0x3f);
       N.lor 0x80 (N.land (N.shiftr c 6) 0x3f); N.lor 0x80 (N.land c 0x3f)])%N s.

(* ------------------------------------------------------------------ *)
(** ** [datetime.date] and its [str] *)

Record date := Date { year : N; month : N; day : N }.

Definition dec (n : N) : str := py (NilZero.string_of_uint (N.to_uint n)).

(** [n] in decimal, padded with zeros on the left to [w] digits. *)
Definition zero_pad (w : nat) (n : N) : str :=
  let d := dec n in repeat 48%N (w - List.length d) ++ d.

Definition isoformat (d : date) : str :=
  zero_pad 4 (year d) ++ py "-" ++ zero_pad 2 (month d) ++ py "-"
    ++ zero_pad 2 (day d).

(** [str(d)] for a date that may be [None] *)
Definition str_of_date (d : option date) : str :=
  match d with
  | Some d => isoformat d
  | None => py "None"
  end.

(* ------------------------------------------------------------------ *)
(** ** Exceptions *)

Inductive exn :=
| AttributeError
| KeyError
| TypeError
| ValueError
| OverflowError
| UnicodeEncodeError
| WebDriverException.

Inductive res (A : Type) :=
| Ok (a : A)
| Raise (e : exn).

Arguments Ok {A} a.
Arguments Raise {A} e.

Definition bind {A B : Type} (m : res A) (k : A -> res B) : res B :=
  match m with
  | Ok a => k a
  | Raise e => Raise e
  end.

Declare Scope res_scope.
Delimit Scope res_scope with res.
Notation "x <- m ;; k" := (bind m (fun x => k))
  (at level 61, m at next level, right associativity) : res_scope.

(** [o.attr] on a value that may be [None] *)
Definition not_none {A : Type} (o : option A) : res A :=
  match o with
  | Some a => Ok a
  | None => Raise AttributeError
  end.

(** [d[k]] on a dict *)
Fixpoint lookup {V : Type} (k : str) (d : list (str * V)) : option V :=
  match d with
  | [] => None
  | (k', v) :: d' => if Str.eqb k k' then Some v else lookup k d'
  end.

Definition getitem {V : Type} (d : list (str * V)) (k : str) : res V :=
  match lookup k d with
  | Some v => Ok v
  | None => Raise KeyError
  end.

(* ------------------------------------------------------------------ *)
(** ** The document collection of [pymongo] *)

Module Mongo.

Inductive value :=
| VStr (s : str)
| VInt (z : Z)
| VObjectId (n : N).

Definition document := list (str * value).

Definition value_eqb (a b : value) : bool :=
  match a, b with
  | VStr s, VStr t => Str.eqb s t
  | VInt x, VInt y => Z.eqb x y
  | VObjectId m, VObjectId n => N.eqb m n
  | _, _ => false
  end.

(** [d.get(k)] *)
Fixpoint get (k : str) (d : document) : option value :=
  match d with
  | [] => None
  | (k', v) :: d' => if Str.eqb k k' then Some v else get k d'
  end.

(** A filter [{k1: v1, ...}] selects the documents whose fields [k1], ...
    are present and equal to [v1], ... *)
Definition matches (filter d : document) : bool :=
  forallb (fun kv => match get (fst kv) d with
                     | Some v => value_eqb (snd kv) v
                     | None => false
                     end) filter.

(** The collection: its documents in insertion order, and the next
    [ObjectId] the driver hands out. *)
Record collection := Collection { documents : list document; next_id : N }.

Definition find_one (filter : document) (c : collection) : option document :=
  List.find (matches filter) (documents c).

Definition find (filter : document) (c : collection) : list document :=
  List.filter (matches filter) (documents c).

(** What BSON can hold: an integer of 64 bits, and text that UTF-8 can
    encode, which leaves out the surrogates. *)
Definition int64 (z : Z) : bool := ((- 2 ^ 63 <=? z) && (z <? 2 ^ 63))%Z.

Definition surrogate (c : N) : bool := ((0xD800 <=? c) && (c <=? 0xDFFF))%N.

Definition utf8 (s : str) : bool := forallb (fun c => negb (surrogate c)) s.

Definition encode_value (v : value) : res unit :=
  match v with
  | VStr s => if utf8 s then Ok tt else Raise UnicodeEncodeError
  | VInt z => if int64 z then Ok tt else Raise OverflowError
  | VObjectId _ => Ok tt
  end.

(** The driver encodes the fields of a document in their order, and the
    first value that BSON cannot hold raises.  The keys of the documents of
    the source are ASCII literals.  (A limit on the size of a document,
    which is the server's, and a lost connection are outside the model.) *)
Fixpoint encode_document (d : document) : res unit :=
  match d with
  | [] => Ok tt
  | (_, v) :: d' => bind (encode_value v) (fun _ => encode_document d')
  end.

(** [insert_one] gives the document an [_id] when it has none, encodes it
    and appends it; a document that cannot be encoded raises, and the
    collection is as it was. *)
Definition insert_one (d : document) (c : collection) : res collection :=
  match get (py "_id") d with
  | Some _ =>
      bind (encode_document d)
           (fun _ => Ok (Collection (documents c ++ [d]) (next_id c)))
  | None =>
      let d' := (py "_id", VObjectId (next_id c)) :: d in
      bind (encode_document d')
           (fun _ => Ok (Collection (documents c ++ [d']) (N.succ (next_id c))))
  end.

End Mongo.

(* ------------------------------------------------------------------ *)
(** ** [models.py]: the records *)

Module MongoDocumentType.
Definition BUSINESS : str := py "business".
Definition REVIEW : str := py "review".
End MongoDocumentType.

Record Business := mkBusiness {
  business_name : str;
  business_url : str
}.

Record Review := mkReview {
  business : Business;
  reviewer : str;
  review_date : option date;
  visit_data : option date;
  review_title : str;
  review_text : str;
  review_rating : Z
}.

Module BusinessM.

(** [self.__dict__], in the order [__init__] assigns the attributes *)
Definition __dict__ (self : Business) : Json.dict :=
  [(py "business_name", Json.JStr (business_name self));
   (py "business_url", Json.JStr (business_url self))].

(** [json.dumps(self, default=lambda o: o.__dict__, sort_keys=True)]: the
    object is not serialisable, so [default] is called and its result, the
    attribute dict, is written with sorted keys. *)
Definition get_object_hash (self : Business) : str :=
  let obj_json := Json.dumps (__dict__ self) in
  SHA256.hexdigest (encode obj_json).

Definition to_mongo_document (self : Business) : Mongo.document :=
  [(py "unique_id", Mongo.VStr (get_object_hash self));
   (py "type", Mongo.VStr MongoDocumentType.BUSINESS);
   (py "business_name", Mongo.VStr (business_name self));
   (py "business_url", Mongo.VStr (business_url self))].

End BusinessM.

Module ReviewM.

Definition hash_data (self : Review) : Json.dict :=
  [(py "business", Json.JStr (business_name (business self)));
   (py "reviewer", Json.JStr (reviewer self));
   (py "review_title", Json.JStr (review_title self));
   (py "review_text", Json.JStr (review_text self));
   (py "review_rating", Json.JInt (review_rating self))].

Definition get_object_hash (self : Review) : str :=
  let obj_json := Json.dumps (hash_data self) in
  SHA256.hexdigest (encode obj_json).

Definition to_mongo_document (self : Review) : Mongo.document :=
  [(py "unique_id", Mongo.VStr (get_object_hash self));
   (py "type", Mongo.VStr MongoDocumentType.REVIEW);
   (py "reviewer", Mongo.VStr (reviewer self));
   (py "business_reviewed", Mongo.VStr (business_name (business self)));
   (py "review_date", Mongo.VStr (str_of_date (review_date self)));
   (py "review_title", Mongo.VStr (review_title self));
   (py "review_text", Mongo.VStr (review_text self));
   (py "review_rating", Mongo.VInt (review_rating self));
   (py "visit_data", Mongo.VStr (str_of_date (visit_data self)))].

End ReviewM.

(* ------------------------------------------------------------------ *)
(** ** [TripAdvisorMongoClient] *)

Module TripAdvisorMongoClient.
Import Mongo.

(** The call returns a bool or raises, and leaves the collection; only an
    [insert_one] that returns changes it. *)
Definition insert_business (b : Business) (c : collection)
  : res bool * collection :=
  match find_one [(py "unique_id", VStr (BusinessM.get_object_hash b))] c with
  | Some _ => (Ok false, c)
  | None =>
      match insert_one (BusinessM.to_mongo_document b) c with
      | Ok c' => (Ok true, c')
      | Raise e => (Raise e, c)
      end
  end.

Definition insert_review (r : Review) (c : collection)
  : res bool * collection :=
  match find_one [(py "unique_id", VStr (ReviewM.get_object_hash r))] c with
  | Some _ => (Ok false, c)
  | None =>
      match insert_one (ReviewM.to_mongo_document r) c with
      | Ok c' => (Ok true, c')
      | Raise e => (Raise e, c)
      end
  end.

(** [{k: v for k, v in doc.items() if k not in ['_id', 'unique_id', 'type']}] *)
Definition strip_metadata (doc : document) : document :=
  List.filter
    (fun kv => negb (existsb (Str.eqb (fst kv))
                       [py "_id"; py "unique_id"; py "type"])) doc.

Definition get_businesses (c : collection) : list document :=
  map strip_metadata
    (find [(py "type", VStr MongoDocumentType.BUSINESS)] c).

Definition get_reviews (c : collection) : list document :=
  map strip_metadata
    (find [(py "type", VStr MongoDocumentType.REVIEW)] c).

End TripAdvisorMongoClient.

(* ------------------------------------------------------------------ *)
(** ** The parse tree of [bs4.BeautifulSoup(page_source, 'html.parser')] *)

Module Bs4.

(** A node is a string of text or a tag with its attributes and children.
    The document itself is a tag. *)
Inductive node :=
| Text (s : str)
| Tag (name : str) (attrs : list (str * str)) (children : list node).

Definition attrs_of (n : node) : list (str * str) :=
  match n with
  | Text _ => []
  | Tag _ a _ => a
  end.

Definition name_of (n : node) : option str :=
  match n with
  | Text _ => None
  | Tag t _ _ => Some t
  end.

(** The tags of a subtree in document order, its root first. *)
Fixpoint tags (n : node) : list node :=
  match n with
  | Text _ => []
  | Tag _ _ cs => n :: flat_map tags cs
  end.

(** The tags below [n], in document order. *)
Definition descendants (n : node) : list node :=
  match n with
  | Text _ => []
  | Tag _ _ cs => flat_map tags cs
  end.

(** [n.text] *)
Fixpoint text (n : node) : str :=
  match n with
  | Text s => s
  | Tag _ _ cs => flat_map text cs
  end.

(** [class_=cls]: [class] is a list of tokens; a tag is selected when one
    token equals [cls], or when the tokens joined by single spaces do. *)
Definition has_class (cls : str) (n : node) : bool :=
  match lookup (py "class") (attrs_of n) with
  | None => false
  | Some v =>
      let ws := Str.words v in
      existsb (Str.eqb cls) ws || Str.eqb (Str.join (py " ") ws) cls
  end.

(** [attrs={k: v}]: the attribute is present and equal to [v]. *)
Definition has_attr (k v : str) (n : node) : bool :=
  match lookup k (attrs_of n) with
  | None => false
  | Some v' => Str.eqb v' v
  end.

Definition is_tag (t : str) (n : node) : bool :=
  match name_of n with
  | None => false
  | Some t' => Str.eqb t' t
  end.

(** [n.find_all(t, ...)] with the further conditions [p] *)
Definition find_all (t : str) (p : node -> bool) (n : node) : list node :=
  filter (fun x => is_tag t x && p x) (descendants n).

(** [n.find(t, ...)] *)
Definition find (t : str) (p : node -> bool) (n : node) : option node :=
  List.find (fun x => is_tag t x && p x) (descendants n).

(** [n.t], the first tag [t] below [n] *)
Definition child (t : str) (n : node) : option node :=
  find t (fun _ => true) n.

(** [n.get(k)] *)
Definition get (k : str) (n : node) : option str := lookup k (attrs_of n).

(** [n[k]] *)
Definition item (n : node) (k : str) : res str :=
  getitem (attrs_of n) k.

End Bs4.

(* ------------------------------------------------------------------ *)
(** ** Backtracking matchers

    A matcher returns the ways it can match a prefix of the text, in the
    order a backtracking regular-expression engine tries them, each with
    what it matched and the text that is left. *)

Module Match.

Definition matcher (A : Type) := str -> list (A * str).

Definition ret {A : Type} (a : A) : matcher A := fun s => [(a, s)].

Definition seq {A B : Type} (m : matcher A) (k : A -> matcher B) : matcher B :=
  fun s => flat_map (fun ar => k (fst ar) (snd ar)) (m s).

(** [alt m1 m2] is [m1|m2]. *)
Definition alt {A : Type} (m1 m2 : matcher A) : matcher A :=
  fun s => m1 s ++ m2 s.

(** One character of the class [p]. *)
Definition char (p : N -> bool) : matcher N :=
  fun s => match s with
           | c :: s' => if p c then [(c, s')] else []
           | [] => []
           end.

(** The longest prefix of [s] whose characters are in [p]. *)
Fixpoint span (p : N -> bool) (s : str) : str :=
  match s with
  | c :: s' => if p c then c :: span p s' else []
  | [] => []
  end.

(** [p+] (with [least = 1]) and [p*] (with [least = 0]), greedy: the
    longest run first, then the shorter ones down to [least] characters. *)
Definition greedy (p : N -> bool) (least : nat) : matcher str :=
  fun s =>
    let run := span p s in
    map (fun k => (firstn k s, skipn k s))
        (filter (fun k => Nat.leb least k) (rev (List.seq 0 (S (List.length run))))).

(** A literal, compared with [eq] on characters. *)
Definition lit (eq : N -> N -> bool) (l : str) : matcher str :=
  fun s =>
    if (Nat.leb (List.length l) (List.length s)) &&
       forallb (fun xy => eq (fst xy) (snd xy)) (combine l s)
    then [(firstn (List.length l) s, skipn (List.length l) s)]
    else [].

(** [re.match]: the first way the matcher succeeds at the start of [s]. *)
Definition first {A : Type} (m : matcher A) (s : str) : option (A * str) :=
  hd_error (m s).

(** [re.search]: the first way the matcher succeeds at the leftmost position
    where it succeeds at all. *)
Fixpoint search {A : Type} (m : matcher A) (s : str) : option A :=
  match hd_error (m s) with
  | Some ar => Some (fst ar)
  | None => match s with
            | [] => None
            | _ :: s' => search m s'
            end
  end.

End Match.

(* ------------------------------------------------------------------ *)
(** ** [int] and [float] on digit strings *)

Module Num.
Local Open Scope N_scope.

(** [int(s)] for a string of decimal digits *)
Fixpoint int_digits (acc : N) (s : str) : option N :=
  match s with
  | [] => Some acc
  | c :: s' =>
      match Str.digit_value c with
      | Some d => int_digits (10 * acc + d) s'
      | None => None
      end
  end.

(** A string of digits and dots is a number when it has at least one digit
    and at most one dot; it then denotes [n / 10 ^ k], where [n] is the
    number its digits spell and [k] counts the digits after the dot. *)
Definition decimal (s : str) : option (N * N) :=
  let ip := Match.span Str.isdigit s in
  let rest := skipn (List.length ip) s in
  let fp := match rest with
            | 46 :: r => Some r
            | [] => Some []
            | _ => None
            end in
  match fp with
  | None => None
  | Some fp =>
      if forallb Str.isdigit fp && negb (Nat.eqb (List.length (ip ++ fp)) 0)
      then match int_digits 0 (ip ++ fp) with
           | Some n => Some (n, N.of_nat (List.length fp))
           | None => None
           end
      else None
  end.

(** Division rounded to the nearest integer, ties to the even one. *)
Definition div_half_even (a b : N) : N :=
  let q := a / b in
  let r := a mod b in
  if 2 * r <? b then q
  else if b <? 2 * r then q + 1
  else if N.even q then q else q + 1.

(** [int(float(s))] for [s] denoting [n / 10 ^ k]: the quotient is rounded
    to the nearest binary64 number, [m * 2 ^ (e - 52)] with [m] of 53 bits,
    and the result truncated.  Below one half the result is [0]; from
    [2 ^ 1024] on [float] gives infinity and [int] raises. *)
Definition int_of_float (n k : N) : res Z :=
  let den := 10 ^ k in
  if 2 * n <? den then Ok 0%Z
  else
    let e0 := (Z.of_N (N.log2 n) - Z.of_N (N.log2 den))%Z in
    let ge (e : Z) :=
      if (0 <=? e)%Z then den * 2 ^ Z.to_N e <=? n
      else den <=? n * 2 ^ Z.to_N (- e) in
    let e := if ge e0 then e0 else (e0 - 1)%Z in
    let s := (52 - e)%Z in
    let m := if (0 <=? s)%Z then div_half_even (n * 2 ^ Z.to_N s) den
             else div_half_even n (den * 2 ^ Z.to_N (- s)) in
    if ((1023 <? e)%Z || ((e =? 1023)%Z && (m =? 2 ^ 53)))%bool
    then Raise OverflowError
    else if (0 <=? s)%Z then Ok (Z.of_N (m / 2 ^ Z.to_N s))
         else Ok (Z.of_N (m * 2 ^ Z.to_N (- s))).

(** [int(float(s))] *)
Definition int_float (s : str) : res Z :=
  match decimal s with
  | None => Raise ValueError
  | Some (n, k) => int_of_float n k
  end.

End Num.

(* ------------------------------------------------------------------ *)
(** ** [datetime.strptime(s, fmt).date()] for the two formats of the source

    [strptime] turns the format into a regular expression, matched at the
    start of the text ignoring case: [%b] and [%B] are the alternatives of
    the month names, [%d] is [3[0-1]|[1-2]\d|0[1-9]|[1-9]| [1-9]], [%Y] is
    [\d\d\d\d], and white space in the format is [\s+].  Text left after
    the match, or a date that does not exist, is a [ValueError].  The month
    names are the English ones; a text matches one of them ignoring case
    exactly when its ASCII lower-casing is the name. *)

Module Strptime.
Import Match.
Local Open Scope N_scope.

Definition eq_nocase (p c : N) : bool := N.eqb p (Str.lower_ascii c).

Definition abbreviated : list (string * N) :=
  [("jan", 1); ("feb", 2); ("mar", 3); ("apr", 4); ("may", 5); ("jun", 6);
   ("jul", 7); ("aug", 8); ("sep", 9); ("oct", 10); ("nov", 11);
   ("dec", 12)]%string.

(** The full names, longest first, as the expression lists them. *)
Definition full : list (string * N) :=
  [("september", 9); ("february", 2); ("november", 11); ("december", 12);
   ("january", 1); ("october", 10); ("august", 8); ("march", 3);
   ("april", 4); ("june", 6); ("july", 7); ("may", 5)]%string.

Definition month_name (names : list (string * N)) : matcher N :=
  fold_right (fun nm rest =>
                alt (seq (lit eq_nocase (py (fst nm))) (fun _ => ret (snd nm)))
                    rest)
             (fun _ => []) names.

Definition in_range (lo hi : N) (c : N) : bool := (lo <=? c) && (c <=? hi).

Definition digit_of (c : N) : N :=
  match Str.digit_value c with Some d => d | None => 0 end.

(** [%d] *)
Definition day_of_month : matcher N :=
  alt (seq (char (N.eqb 51)) (fun _ =>
         seq (char (in_range 48 49)) (fun c => ret (30 + (c - 48)))))
 (alt (seq (char (in_range 49 50)) (fun c1 =>
         seq (char Str.isdigit) (fun c2 => ret (10 * (c1 - 48) + digit_of c2))))
 (alt (seq (char (N.eqb 48)) (fun _ =>
         seq (char (in_range 49 57)) (fun c => ret (c - 48))))
 (alt (seq (char (in_range 49 57)) (fun c => ret (c - 48)))
      (seq (char (N.eqb 32)) (fun _ =>
         seq (char (in_range 49 57)) (fun c => ret (c - 48))))))).

(** [%Y] *)
Definition year4 : matcher N :=
  seq (char Str.isdigit) (fun a =>
  seq (char Str.isdigit) (fun b =>
  seq (char Str.isdigit) (fun c =>
  seq (char Str.isdigit) (fun d =>
    ret (1000 * digit_of a + 100 * digit_of b + 10 * digit_of c + digit_of d))))).

Definition spaces : matcher str := greedy Str.isspace 1.

Definition is_leap (y : N) : bool :=
  (y mod 4 =? 0) && (negb (y mod 100 =? 0) || (y mod 400 =? 0)).

Definition days_in_month (y m : N) : N :=
  if m =? 2 then (if is_leap y then 29 else 28)
  else if (m =? 4) || (m =? 6) || (m =? 9) || (m =? 11) then 30
  else 31.

(** [datetime.date(y, m, d)] *)
Definition make_date (y m d : N) : res date :=
  if (1 <=? y) && (y <=? 9999) && (1 <=? m) && (m <=? 12) &&
     (1 <=? d) && (d <=? days_in_month y m)
  then Ok (Date y m d)
  else Raise ValueError.

Definition finish (r : option ((N * N * N) * str)) : res date :=
  match r with
  | Some ((y, m, d), []) => make_date y m d
  | _ => Raise ValueError
  end.

(** [datetime.strptime(s, "%b %Y").date()] *)
Definition month_year (s : str) : res date :=
  finish (first
    (seq (month_name abbreviated) (fun m =>
     seq spaces (fun _ =>
     seq year4 (fun y => ret (y, m, 1))))) s).

(** [datetime.strptime(s, "%B %d, %Y").date()] *)
Definition month_day_year (s : str) : res date :=
  finish (first
    (seq (month_name full) (fun m =>
     seq spaces (fun _ =>
     seq day_of_month (fun d =>
     seq (lit N.eqb (py ",")) (fun _ =>
     seq spaces (fun _ =>
     seq year4 (fun y => ret (y, m, d))))))) ) s).

End Strptime.

(* ------------------------------------------------------------------ *)
(** ** The browser of [selenium]

    The site is a function from addresses to parse trees; an address it
    does not serve makes [get] raise.  The driver holds the page it is on
    and, for the record, the addresses it has loaded. *)

Module Selenium.

Definition site := str -> option Bs4.node.

Record webdriver := WebDriver {
  page_source : Bs4.node;
  visited : list str
}.

(** [driver.get(url)] *)
Definition get (w : site) (url : str) (d : webdriver) : res webdriver :=
  match w url with
  | Some p => Ok (WebDriver p (visited d ++ [url]))
  | None => Raise WebDriverException
  end.

End Selenium.

(* ------------------------------------------------------------------ *)
(** ** [TripAdvisorWebScrapper]

    The scrapper holds a driver and a store client; both are supplied. *)

Module TripAdvisorWebScrapper.
Import Bs4.
Local Open Scope res_scope.

Record scrapper := Scrapper {
  web_driver : Selenium.webdriver;
  trip_advisor_mongo_client : Mongo.collection
}.

Definition TRIP_ADVISOR_URL : str := py "https://www.tripadvisor.com".
Definition next_page_arrow_class : str := py "BrOJk u j z _F wSSLS tIqAi unMkR".
Definition business_class : str := py "alPVI eNNhq PgLKC tnGGX".

(** The loop of [find_next_page_arrow] over the arrows found. *)
Fixpoint first_next_page (arrows : list node) : res (option node) :=
  match arrows with
  | [] => Ok None
  | element :: rest =>
      label <- Bs4.item element (py "aria-label") ;;
      if Str.eqb label (py "Next page") then Ok (Some element)
      else first_next_page rest
  end.

Definition find_next_page_arrow (current_page : node) : res (option node) :=
  first_next_page (find_all (py "a") (has_class next_page_arrow_class) current_page).

(** [for x in l: out.append(f(x))], which the first exception ends *)
Fixpoint for_each {A B : Type} (f : A -> res B) (l : list A) : res (list B) :=
  match l with
  | [] => Ok []
  | x :: l' => y <- f x ;; ys <- for_each f l' ;; Ok (y :: ys)
  end.

Definition business_of_element (element : node) : res Business :=
  d1 <- not_none (child (py "div") element) ;;
  d2 <- not_none (child (py "div") d1) ;;
  let name := Str.strip (Str.split1_last (py ".") (text d2)) in
  a <- not_none (child (py "a") element) ;;
  match Bs4.get (py "href") a with
  | Some href => Ok (mkBusiness name (TRIP_ADVISOR_URL ++ href))
  | None => Raise TypeError
  end.

Definition get_all_business_in_page (current_page : node) : res (list Business) :=
  for_each business_of_element
    (find_all (py "div") (has_class business_class) current_page).

(** What one turn of a [while True] loop ends with. *)
Inductive signal :=
| Next
| Break
| Except (e : exn).

(** [for business in l: businesses.append(business); insert_business(business)]:
    the list and the collection as the loop leaves them, and the exception
    that ended it, when an insert raised. *)
Fixpoint store_businesses (l businesses : list Business) (c : Mongo.collection)
  : list Business * Mongo.collection * option exn :=
  match l with
  | [] => (businesses, c, None)
  | business :: rest =>
      let businesses := businesses ++ [business] in
      match TripAdvisorMongoClient.insert_business business c with
      | (Raise e, c) => (businesses, c, Some e)
      | (Ok _, c) => store_businesses rest businesses c
      end
  end.

(** The body of the loop of [get_and_store_businesses]: the list and the
    scrapper as the turn leaves them, and how it ends. *)
Definition businesses_turn (w : Selenium.site) (businesses : list Business)
  (self : scrapper) : list Business * scrapper * signal :=
  let current_page := Selenium.page_source (web_driver self) in
  match get_all_business_in_page current_page with
  | Raise e => (businesses, self, Except e)
  | Ok found =>
      match store_businesses found businesses (trip_advisor_mongo_client self) with
      | (businesses, c, Some e) =>
          (businesses, Scrapper (web_driver self) c, Except e)
      | (businesses, c, None) =>
          let self := Scrapper (web_driver self) c in
          match find_next_page_arrow current_page with
          | Raise e => (businesses, self, Except e)
          | Ok None => (businesses, self, Break)
          | Ok (Some next_page_arrow) =>
              match Bs4.item next_page_arrow (py "href") with
              | Raise e => (businesses, self, Except e)
              | Ok href =>
                  match Selenium.get w (TRIP_ADVISOR_URL ++ href)
                          (web_driver self) with
                  | Raise e => (businesses, self, Except e)
                  | Ok d =>
                      (businesses, Scrapper d (trip_advisor_mongo_client self),
                       Next)
                  end
              end
          end
      end
  end.

(** [while True: try: ... except Exception: break], at most [fuel] turns;
    [None] when the turns run out. *)
Fixpoint businesses_loop (fuel : nat) (w : Selenium.site)
  (businesses : list Business) (self : scrapper)
  : option (list Business * scrapper) :=
  match fuel with
  | O => None
  | S fuel' =>
      match businesses_turn w businesses self with
      | (businesses, self, Next) => businesses_loop fuel' w businesses self
      | (businesses, self, Break) => Some (businesses, self)
      | (businesses, self, Except _) => Some (businesses, self)
      end
  end.

(** The call returns a list or raises, and leaves the scrapper changed. *)
Definition get_and_store_businesses (fuel : nat) (w : Selenium.site)
  (self : scrapper) (start_url : str)
  : option (res (list Business) * scrapper) :=
  match Selenium.get w start_url (web_driver self) with
  | Raise e => Some (Raise e, self)
  | Ok d =>
      match businesses_loop fuel w []
              (Scrapper d (trip_advisor_mongo_client self)) with
      | None => None
      | Some (businesses, self) => Some (Ok businesses, self)
      end
  end.

(** *** Reviews *)

Definition bullet : str := [32; 8226; 32]%N.

(** [([\d.]+)\s*of] *)
Definition rating_re : Match.matcher str :=
  Match.seq (Match.greedy (fun c => Str.isdigit c || N.eqb c 46) 1) (fun g =>
  Match.seq (Match.greedy Str.isspace 0) (fun _ =>
  Match.seq (Match.lit N.eqb (py "of")) (fun _ => Match.ret g))).

(** [int(float(re.search(r'([\d.]+)\s*of', aria_label).group(1)))] *)
Definition rating_of_label (aria_label : option str) : res Z :=
  match aria_label with
  | None => Raise TypeError
  | Some l =>
      rating_value <- not_none (Match.search rating_re l) ;;
      Num.int_float rating_value
  end.

(** The fields read from one review card, in the order of the [Review]
    constructor's use. *)
Record card_fields := CardFields {
  cf_username : str;
  cf_date : date;
  cf_title : str;
  cf_text : str;
  cf_rating : Z;
  cf_visit_date : date
}.

(** The body of the [try] of [get_all_reviews_in_page]. *)
Definition read_card (card : node) : res card_fields :=
  e_user <- not_none (find (py "a") (has_class (py "BMQDV _F G- wSSLS SwZTJ FGwzt ukgoS")) card) ;;
  let review_username := text e_user in
  e_date <- not_none (find (py "div") (has_class (py "RpeCd")) card) ;;
  let review_date_str := Str.strip (text e_date) in
  let review_date_str := Str.split_first bullet review_date_str in
  review_date <- Strptime.month_year review_date_str ;;
  e_title <- not_none (find (py "div") (has_class (py "biGQs _P fiohW qWPrE ncFvv fOtGX")) card) ;;
  let review_title := Str.strip (text e_title) in
  e_text <- not_none (find (py "div") (has_class (py "biGQs _P pZUbB KxBGd")) card) ;;
  let review_text := Str.strip (text e_text) in
  review_element <- not_none (find (py "svg") (has_class (py "UctUV d H0")) card) ;;
  let aria_label := Bs4.get (py "aria-label") review_element in
  review_rating <- rating_of_label aria_label ;;
  e_visit <- not_none (find (py "div") (has_class (py "TreSq")) card) ;;
  e_visit <- not_none (find (py "div") (has_class (py "biGQs _P pZUbB ncFvv osNWb")) e_visit) ;;
  let review_visit := Str.strip (text e_visit) in
  let visit_date_str := Str.remove_all (py "Written ") review_visit in
  review_visit_date <- Strptime.month_day_year visit_date_str ;;
  Ok (CardFields review_username review_date review_title review_text
                 review_rating review_visit_date).

Definition review_cards (current_page : node) : list node :=
  find_all (py "div")
    (fun n => has_class (py "_c") n && has_attr (py "data-automation") (py "reviewCard") n)
    current_page.

(** The loop over the cards: a card whose [try] raises is skipped; the
    business is read from its dict after the [try]. *)
Fixpoint reviews_of_cards (cards : list node) (business : list (str * str))
  (reviews : list Review) : res (list Review) :=
  match cards with
  | [] => Ok reviews
  | card :: rest =>
      match read_card card with
      | Raise _ => reviews_of_cards rest business reviews
      | Ok f =>
          name <- getitem business (py "business_name") ;;
          url <- getitem business (py "business_url") ;;
          let business_obj := mkBusiness name url in
          reviews_of_cards rest business
            (reviews ++ [mkReview business_obj (cf_username f) (Some (cf_date f))
                           (Some (cf_visit_date f)) (cf_title f) (cf_text f)
                           (cf_rating f)])
      end
  end.

Definition get_all_reviews_in_page (current_page : node)
  (business : list (str * str)) : res (list Review) :=
  reviews_of_cards (review_cards current_page) business [].

(** [for review in l: insert_review(review); reviews.append(review)]: the
    list and the collection as the loop leaves them, and the exception that
    ended it, when an insert raised. *)
Fixpoint store_reviews (l reviews : list Review) (c : Mongo.collection)
  : list Review * Mongo.collection * option exn :=
  match l with
  | [] => (reviews, c, None)
  | review :: rest =>
      match TripAdvisorMongoClient.insert_review review c with
      | (Raise e, c) => (reviews, c, Some e)
      | (Ok _, c) => store_reviews rest (reviews ++ [review]) c
      end
  end.

(** The body of the inner loop of [get_and_store_reviews]; nothing catches
    what it raises. *)
Definition reviews_turn (w : Selenium.site) (business : list (str * str))
  (reviews : list Review) (self : scrapper) : list Review * scrapper * signal :=
  let current_page := Selenium.page_source (web_driver self) in
  match get_all_reviews_in_page current_page business with
  | Raise e => (reviews, self, Except e)
  | Ok found =>
      match store_reviews found reviews (trip_advisor_mongo_client self) with
      | (reviews, c, Some e) => (reviews, Scrapper (web_driver self) c, Except e)
      | (reviews, c, None) =>
          let self := Scrapper (web_driver self) c in
          match find_next_page_arrow current_page with
          | Raise e => (reviews, self, Except e)
          | Ok None => (reviews, self, Break)
          | Ok (Some next_page_arrow) =>
              match Bs4.item next_page_arrow (py "href") with
              | Raise e => (reviews, self, Except e)
              | Ok href =>
                  match Selenium.get w (TRIP_ADVISOR_URL ++ href)
                          (web_driver self) with
                  | Raise e => (reviews, self, Except e)
                  | Ok d =>
                      (reviews, Scrapper d (trip_advisor_mongo_client self), Next)
                  end
              end
          end
      end
  end.

(** The inner [while True], at most [fuel] turns. *)
Fixpoint reviews_loop (fuel : nat) (w : Selenium.site)
  (business : list (str * str)) (reviews : list Review) (self : scrapper)
  : option (res (list Review) * scrapper) :=
  match fuel with
  | O => None
  | S fuel' =>
      match reviews_turn w business reviews self with
      | (reviews, self, Next) => reviews_loop fuel' w business reviews self
      | (reviews, self, Break) => Some (Ok reviews, self)
      | (_, self, Except e) => Some (Raise e, self)
      end
  end.

(** The outer [for business in businesses]; [fuel] bounds the turns of each
    inner loop. *)
Fixpoint reviews_of_businesses (fuel : nat) (w : Selenium.site)
  (businesses : list (list (str * str))) (reviews : list Review)
  (self : scrapper) : option (res (list Review) * scrapper) :=
  match businesses with
  | [] => Some (Ok reviews, self)
  | business :: rest =>
      match getitem business (py "business_url") with
      | Raise e => Some (Raise e, self)
      | Ok url =>
          match Selenium.get w url (web_driver self) with
          | Raise e => Some (Raise e, self)
          | Ok d =>
              match reviews_loop fuel w business reviews
                      (Scrapper d (trip_advisor_mongo_client self)) with
              | None => None
              | Some (Raise e, self) => Some (Raise e, self)
              | Some (Ok reviews, self) =>
                  reviews_of_businesses fuel w rest reviews self
              end
          end
      end
  end.

Definition get_and_store_reviews (fuel : nat) (w : Selenium.site)
  (self : scrapper) (businesses : list (list (str * str)))
  : option (res (list Review) * scrapper) :=
  reviews_of_businesses fuel w businesses [] self.

End TripAdvisorWebScrapper.

(* ------------------------------------------------------------------ *)
(** ** Vocabulary of the specification *)

Module Spec.
Import Mongo.

(** The query on the identity hash alone, and on the hash and the type. *)
Definition by_hash (h : str) : document := [(py "unique_id", VStr h)].

Definition by_hash_and_type (h t : str) : document :=
  [(py "unique_id", VStr h); (py "type", VStr t)].

Definition by_type (t : str) : document := [(py "type", VStr t)].

(** No two documents of the collection have the same identity hash and the
    same type. *)
Definition no_duplicates (c : collection) : Prop :=
  forall h t, List.length (find (by_hash_and_type h t) c) <= 1.

(** The document carries the type discriminator [t]. *)
Definition has_type (t : str) (d : document) : bool :=
  match get (py "type") d with
  | Some (VStr t') => Str.eqb t' t
  | _ => false
  end.

(** The driver can encode the document, and so the record. *)
Definition storable (d : document) : bool :=
  match encode_document d with Ok _ => true | Raise _ => false end.

Definition storable_business (b : Business) : bool :=
  storable (BusinessM.to_mongo_document b).

Definition storable_review (r : Review) : bool :=
  storable (ReviewM.to_mongo_document r).

(** What a successful insert of [d] leaves in the collection. *)
Definition appended (d : document) (c : collection) : collection :=
  Collection (documents c ++ [(py "_id", VObjectId (next_id c)) :: d])
             (N.succ (next_id c)).

(** The keys that [get_businesses] and [get_reviews] remove. *)
Definition metadata_keys : list str := [py "_id"; py "unique_id"; py "type"].

End Spec.

(* ------------------------------------------------------------------ *)
(** ** The required fields of a review card, one markup region each

    This is the specification's reading of a card: every required field is
    read on its own, from its own region, and a card is malformed when some
    field is missing or does not parse. *)

Module Card.
Import Bs4 TripAdvisorWebScrapper.
Local Open Scope res_scope.

Definition region (t cls : string) (card : node) : res node :=
  not_none (find (py t) (has_class (py cls)) card).

Definition reviewer_of (card : node) : res str :=
  e <- region "a" "BMQDV _F G- wSSLS SwZTJ FGwzt ukgoS" card ;;
  Ok (text e).

Definition review_date_of (card : node) : res date :=
  e <- region "div" "RpeCd" card ;;
  Strptime.month_year (Str.split_first bullet (Str.strip (text e))).

Definition title_of (card : node) : res str :=
  e <- region "div" "biGQs _P fiohW qWPrE ncFvv fOtGX" card ;;
  Ok (Str.strip (text e)).

Definition body_of (card : node) : res str :=
  e <- region "div" "biGQs _P pZUbB KxBGd" card ;;
  Ok (Str.strip (text e)).

Definition rating_of (card : node) : res Z :=
  e <- region "svg" "UctUV d H0" card ;;
  rating_of_label (Bs4.get (py "aria-label") e).

Definition visit_date_of (card : node) : res date :=
  outer <- region "div" "TreSq" card ;;
  e <- region "div" "biGQs _P pZUbB ncFvv osNWb" outer ;;
  Strptime.month_day_year
    (Str.remove_all (py "Written ") (Str.strip (text e))).

Definition is_ok {A : Type} (r : res A) : bool :=
  match r with Ok _ => true | Raise _ => false end.

Definition well_formed (card : node) : bool :=
  is_ok (reviewer_of card) && is_ok (review_date_of card)
  && is_ok (title_of card) && is_ok (body_of card)
  && is_ok (rating_of card) && is_ok (visit_date_of card).

Definition malformed (card : node) : bool := negb (well_formed card).

(** The review [r] of [business] carries the fields of [card]. *)
Definition built_from (name url : str) (card : node) (r : Review) : Prop :=
  business r = mkBusiness name url
  /\ reviewer_of card = Ok (reviewer r)
  /\ (exists d, review_date_of card = Ok d /\ review_date r = Some d)
  /\ title_of card = Ok (review_title r)
  /\ body_of card = Ok (review_text r)
  /\ rating_of card = Ok (review_rating r)
  /\ (exists d, visit_date_of card = Ok d /\ visit_data r = Some d).

(** The review the source builds from the fields of a card. *)
Definition review_of (name url : str) (f : card_fields) : Review :=
  mkReview (mkBusiness name url) (cf_username f) (Some (cf_date f))
           (Some (cf_visit_date f)) (cf_title f) (cf_text f) (cf_rating f).

(** The reviews of the cards that can be read, in the order of the cards. *)
Definition readable (name url : str) (cards : list node) : list Review :=
  flat_map (fun card => match read_card card with
                        | Ok f => [review_of name url f]
                        | Raise _ => []
                        end) cards.

(** Neither a digit nor a dot: a character at which [([\d.]+)\s*of] cannot
    start. *)
Definition plain (c : N) : bool := negb (Str.isdigit c || N.eqb c 46).

End Card.

(* ------------------------------------------------------------------ *)
(** ** Sequences of pages

    The navigation controls of a page are its arrows; a next-page link is an
    arrow whose accessible label is ["Next page"]. *)

Module Pages.
Import Bs4 TripAdvisorWebScrapper.

Definition arrows (p : node) : list node :=
  find_all (py "a") (has_class next_page_arrow_class) p.

Definition has_label (a : node) : bool :=
  match Bs4.get (py "aria-label") a with Some _ => true | None => false end.

Definition is_next (a : node) : bool :=
  match Bs4.get (py "aria-label") a with
  | Some l => Str.eqb l (py "Next page")
  | None => false
  end.

Definition next_links (p : node) : list node := filter is_next (arrows p).

(** The pages [ps], with their addresses, are a sequence on the site [w]:
    every page but the last has a next-page link, which leads to the page
    after it, and the last page has none. *)
Inductive linked (w : Selenium.site) : list (str * node) -> Prop :=
| linked_last (u : str) (p : node) :
    w u = Some p ->
    next_links p = [] ->
    linked w [(u, p)]
| linked_next (u : str) (p a : node) (h u' : str) (p' : node)
    (rest : list (str * node)) :
    w u = Some p ->
    hd_error (next_links p) = Some a ->
    Bs4.get (py "href") a = Some h ->
    u' = TRIP_ADVISOR_URL ++ h ->
    linked w ((u', p') :: rest) ->
    linked w ((u, p) :: (u', p') :: rest).

(** A listing page that is processed without an exception: its business
    cards can be read and its arrows carry a label. *)
Definition listing_ok (p : node) : bool :=
  Card.is_ok (get_all_business_in_page p) && forallb has_label (arrows p).

(** A review page that is processed without an exception. *)
Definition controls_ok (p : node) : bool := forallb has_label (arrows p).

Definition businesses_on (p : node) : list Business :=
  match get_all_business_in_page p with
  | Ok l => l
  | Raise _ => []
  end.

Definition reviews_on (business : list (str * str)) (p : node) : list Review :=
  match get_all_reviews_in_page p business with
  | Ok l => l
  | Raise _ => []
  end.

(** The records read from the page can be stored. *)
Definition businesses_storable (p : node) : bool :=
  forallb Spec.storable_business (businesses_on p).

Definition reviews_storable (business : list (str * str)) (p : node) : bool :=
  forallb Spec.storable_review (reviews_on business p).

(** The collection that storing the records leaves. *)
Definition with_businesses (l : list Business) (c : Mongo.collection)
  : Mongo.collection :=
  snd (fst (store_businesses l [] c)).

Definition with_reviews (l : list Review) (c : Mongo.collection)
  : Mongo.collection :=
  snd (fst (store_reviews l [] c)).

Definition last_page (d : node) (ps : list (str * node)) : node :=
  snd (last ps ([], d)).

Definition first_url (ps : list (str * node)) : option str :=
  hd_error (map fst ps).

Definition pages_of (ps : list (str * node)) : list node := map snd ps.

(** The reviews on the review pages [chains] of the [businesses], business
    by business and page by page. *)
Definition all_reviews (businesses : list (list (str * str)))
  (chains : list (list (str * node))) : list Review :=
  flat_map (fun bp => flat_map (reviews_on (fst bp)) (pages_of (snd bp)))
           (combine businesses chains).

(** The business dict [business] names [name] and starts its review pages
    [ps] at its address; the pages are processed without an exception:
    their arrows carry a label and their reviews can be stored. *)
Definition reviewed (w : Selenium.site) (business : list (str * str))
  (name : str) (ps : list (str * node)) : Prop :=
  lookup (py "business_name") business = Some name
  /\ (exists url, lookup (py "business_url") business = Some url
                  /\ first_url ps = Some url)
  /\ linked w ps
  /\ forallb controls_ok (pages_of ps) = true
  /\ forallb (reviews_storable business) (pages_of ps) = true.

End Pages.

(* ------------------------------------------------------------------ *)
(** ** Sample data *)

Module Sample.
Import Mongo.

Definition cafe : Business :=
  mkBusiness (py "Cafe Uno") (py "https://www.tripadvisor.com/Restaurant_Review-cafe-uno").

Definition empty : collection := Collection [] 0.

(** A collection whose only document is typed as a review and carries the
    identity hash of [cafe]. *)
Definition review_with_hash_of_cafe : collection :=
  Collection
    [[(py "_id", VObjectId 0);
      (py "unique_id", VStr (BusinessM.get_object_hash cafe));
      (py "type", VStr MongoDocumentType.REVIEW);
      (py "reviewer", VStr (py "ann"))]]
    1.

(** Markup. *)
Definition el (t : string) (attrs : list (str * str)) (children : list Bs4.node)
  : Bs4.node :=
  Bs4.Tag (py t) attrs children.

Definition review_card (user date title body label visit : str) : Bs4.node :=
  el "div" [(py "class", py "_c"); (py "data-automation", py "reviewCard")]
    [el "a" [(py "class", py "BMQDV _F G- wSSLS SwZTJ FGwzt ukgoS")] [Bs4.Text user];
     el "div" [(py "class", py "RpeCd")] [Bs4.Text date];
     el "div" [(py "class", py "biGQs _P fiohW qWPrE ncFvv fOtGX")] [Bs4.Text title];
     el "div" [(py "class", py "biGQs _P pZUbB KxBGd")] [Bs4.Text body];
     el "svg" [(py "class", py "UctUV d H0"); (py "aria-label", label)] [];
     el "div" [(py "class", py "TreSq")]
       [el "div" [(py "class", py "biGQs _P pZUbB ncFvv osNWb")] [Bs4.Text visit]]].

Definition arrow (label href : str) : Bs4.node :=
  el "a" [(py "class", TripAdvisorWebScrapper.next_page_arrow_class);
          (py "aria-label", label); (py "href", href)] [].

Definition business_card (caption href : str) : Bs4.node :=
  el "div" [(py "class", TripAdvisorWebScrapper.business_class)]
    [el "div" [] [el "div" [] [Bs4.Text caption]];
     el "a" [(py "href", href)] []].

Definition soup (children : list Bs4.node) : Bs4.node :=
  Bs4.Tag (py "[document]") [] [el "html" [] [el "body" [] children]].

Definition good_card : Bs4.node :=
  review_card (py "ann") (py "Jan 2023" ++ TripAdvisorWebScrapper.bullet ++ py "Family")
              (py " Good ") (py "Nice place") (py "4.7 of 5 bubbles")
              (py "Written April 3, 2023").

(** A card whose review date does not parse, and a third card. *)
Definition bad_date_card : Bs4.node :=
  review_card (py "bob") (py "January 2023") (py "Fine") (py "Fine")
              (py "3.0 of 5 bubbles") (py "Written May 1, 2023").

Definition other_card : Bs4.node :=
  review_card (py "cy") (py "Feb 2024") (py "Bad") (py "Cold food")
              (py "1.0 of 5 bubbles") (py "Written February 29, 2024").

Definition reviews_page : Bs4.node :=
  soup [good_card; bad_date_card; other_card].

Definition cafe_dict : list (str * str) :=
  [(py "business_name", py "Cafe Uno"); (py "business_url", py "/cafe-uno")].

(** A listing of two pages: three businesses and a next-page link, then two
    businesses and a link back only. *)
Definition listing_url : str := py "https://www.tripadvisor.com/Restaurants".
Definition listing_url_2 : str := py "https://www.tripadvisor.com/Restaurants-p2".

Definition listing_1 : Bs4.node :=
  soup [business_card (py "1. Cafe Uno") (py "/cafe-uno");
        business_card (py "2. Bar Due") (py "/bar-due");
        business_card (py "3. Cafe Uno") (py "/cafe-uno");
        arrow (py "Next page") (py "/Restaurants-p2")].

Definition listing_2 : Bs4.node :=
  soup [arrow (py "Previous page") (py "/Restaurants");
        business_card (py "4. Osteria Tre") (py "/osteria-tre");
        business_card (py "5. Da Quattro") (py "/da-quattro")].

Definition listing_site : Selenium.site :=
  fun u => if Str.eqb u listing_url then Some listing_1
           else if Str.eqb u listing_url_2 then Some listing_2
           else None.

(** The same listing when the second page fails to load. *)
Definition half_site : Selenium.site :=
  fun u => if Str.eqb u listing_url then Some listing_1 else None.

Definition blank : Selenium.webdriver := Selenium.WebDriver (soup []) [].

Definition fresh : TripAdvisorWebScrapper.scrapper :=
  TripAdvisorWebScrapper.Scrapper blank empty.

(** The review pages of one business: the first links to a second page that
    the site does not serve. *)
Definition cafe_url : str := py "https://www.tripadvisor.com/cafe-uno".

Definition cafe_business : list (str * str) :=
  [(py "business_name", py "Cafe Uno"); (py "business_url", cafe_url)].

Definition cafe_reviews_1 : Bs4.node :=
  soup [good_card; arrow (py "Next page") (py "/cafe-uno-p2")].

Definition broken_site : Selenium.site :=
  fun u => if Str.eqb u cafe_url then Some cafe_reviews_1 else None.

(** A page with a review and an arrow that has no label. *)
Definition unlabelled_page : Bs4.node :=
  soup [good_card;
        el "a" [(py "class", TripAdvisorWebScrapper.next_page_arrow_class);
                (py "href", py "/cafe-uno-p2")] []].

Definition unlabelled_site : Selenium.site :=
  fun u => if Str.eqb u cafe_url then Some unlabelled_page else None.

Definition listing_pages : list (str * Bs4.node) :=
  [(listing_url, listing_1); (listing_url_2, listing_2)].

Definition cafe_listed : Business :=
  mkBusiness (py "Cafe Uno") (py "https://www.tripadvisor.com/cafe-uno").

Definition listed : list Business :=
  [cafe_listed;
   mkBusiness (py "Bar Due") (py "https://www.tripadvisor.com/bar-due");
   cafe_listed;
   mkBusiness (py "Osteria Tre") (py "https://www.tripadvisor.com/osteria-tre");
   mkBusiness (py "Da Quattro") (py "https://www.tripadvisor.com/da-quattro")].

Definition praise : Review :=
  mkReview cafe (py "ann") (Some (Date 2023 1 1)) (Some (Date 2023 4 3))
           (py "Good") (py "Nice place") 4.

(** A review with a rating of [2 ^ 63], which the label
    ["9223372036854775807 of 5 bubbles"] gives. *)
Definition loud : Review :=
  mkReview cafe (py "dee") (Some (Date 2023 1 1)) (Some (Date 2023 4 3))
           (py "Loud") (py "Very loud") 9223372036854775808.

End Sample.

(* ------------------------------------------------------------------ *)
(** ** Further vocabulary: collections, listings, loops *)

Module More.
Import Mongo Spec Bs4 TripAdvisorWebScrapper.

(** No two documents of the collection carry the same identity hash. *)
Definition unique_hashes (c : collection) : Prop :=
  forall h, List.length (Mongo.find (by_hash h) c) <= 1.

(** [c'] holds the documents of [c], unchanged and in their order, and
    then possibly more. *)
Definition extends (c c' : collection) : Prop :=
  exists added, documents c' = documents c ++ added.

(** The collection holds a document with the identity hash [h]. *)
Definition holds (h : str) (c : collection) : Prop :=
  Mongo.find (by_hash h) c <> [].

(** The collection holds the hash of every record of the list. *)
Definition businesses_held (c : collection) (l : list Business) : Prop :=
  Forall (fun b => holds (BusinessM.get_object_hash b) c) l.

Definition reviews_held (c : collection) (l : list Review) : Prop :=
  Forall (fun r => holds (ReviewM.get_object_hash r) c) l.

(** The list that the listing loop leaves: every record of it is held; or
    the loop ended at an insert that raised, and every record but the last
    is held, the last being the one whose insert raised. *)
Definition all_but_unstored (c : collection) (l : list Business) : Prop :=
  businesses_held c l
  \/ exists l0 b e,
      l = l0 ++ [b] /\ businesses_held c l0
      /\ TripAdvisorMongoClient.insert_business b c = (Raise e, c).

(** What [get_businesses] returns for the document of a business, and
    [get_reviews] for the document of a review. *)
Definition listed_business (b : Business) : document :=
  [(py "business_name", VStr (business_name b));
   (py "business_url", VStr (business_url b))].

Definition listed_review (r : Review) : document :=
  [(py "reviewer", VStr (reviewer r));
   (py "business_reviewed", VStr (business_name (business r)));
   (py "review_date", VStr (str_of_date (review_date r)));
   (py "review_title", VStr (review_title r));
   (py "review_text", VStr (review_text r));
   (py "review_rating", VInt (review_rating r));
   (py "visit_data", VStr (str_of_date (visit_data r)))].

(** The business cards of a listing page. *)
Definition business_cards (p : node) : list node :=
  find_all (py "div") (has_class business_class) p.

(** An arrow that carries a label other than ["Next page"]. *)
Definition is_other (a : node) : bool :=
  match Bs4.get (py "aria-label") a with
  | Some l => negb (Str.eqb l (py "Next page"))
  | None => false
  end.

(** A date of the calendar. *)
Definition valid_date (d : date) : Prop :=
  (1 <= year d <= 9999)%N /\ (1 <= month d <= 12)%N
  /\ (1 <= day d <= Strptime.days_in_month (year d) (month d))%N.

(** A string that neither starts nor ends with white space. *)
Definition stripped (s : str) : Prop :=
  (forall c, hd_error s = Some c -> Str.isspace c = false)
  /\ (forall c, hd_error (rev s) = Some c -> Str.isspace c = false).

(** A lower-case hexadecimal digit. *)
Definition is_hex (c : N) : bool :=
  ((48 <=? c) && (c <=? 57) || (97 <=? c) && (c <=? 102))%N.

(** A printable ASCII character. *)
Definition printable (c : N) : bool := ((32 <=? c) && (c <=? 126))%N.

(** What every review read from a page has: both dates, of the calendar,
    the review date on the first of its month; a rating that is not
    negative; a title and a text without white space around them; and the
    name and the address of the business dict. *)
Definition complete_review (dict : list (str * str)) (r : Review) : Prop :=
  (exists d, review_date r = Some d /\ valid_date d /\ day d = 1%N)
  /\ (exists d, visit_data r = Some d /\ valid_date d)
  /\ (0 <= review_rating r)%Z
  /\ stripped (review_title r)
  /\ stripped (review_text r)
  /\ lookup (py "business_name") dict = Some (business_name (business r))
  /\ lookup (py "business_url") dict = Some (business_url (business r)).

(** A site on which the pages in [s] never run out: each is processed
    without an exception (its cards can be read, its arrows carry a label,
    its businesses can be stored) and has a next-page link that leads to a
    page in [s]. *)
Definition endless (w : Selenium.site) (s : node -> Prop) : Prop :=
  forall p, s p ->
    Pages.listing_ok p = true
    /\ Pages.businesses_storable p = true
    /\ exists a h p',
        hd_error (Pages.next_links p) = Some a
        /\ Bs4.get (py "href") a = Some h
        /\ w (TRIP_ADVISOR_URL ++ h) = Some p'
        /\ s p'.

End More.

(* ------------------------------------------------------------------ *)
(** ** More sample data *)

Module Sample2.
Import Sample.

(** A listing whose second card has no link. *)
Definition card_without_link : Bs4.node :=
  el "div" [(py "class", TripAdvisorWebScrapper.business_class)]
    [el "div" [] [el "div" [] [Bs4.Text (py "2. Bar Due")]]].

Definition broken_listing : Bs4.node :=
  soup [business_card (py "1. Cafe Uno") (py "/cafe-uno");
        card_without_link;
        business_card (py "3. Osteria Tre") (py "/osteria-tre");
        arrow (py "Next page") (py "/Restaurants-p2")].

Definition on_broken_listing : TripAdvisorWebScrapper.scrapper :=
  TripAdvisorWebScrapper.Scrapper (Selenium.WebDriver broken_listing []) empty.

(** The site that serves it, and then the second page of the sample
    listing. *)
Definition broken_listing_site : Selenium.site :=
  fun u => if Str.eqb u listing_url then Some broken_listing
           else if Str.eqb u listing_url_2 then Some listing_2
           else None.

Definition broken_listing_pages : list (str * Bs4.node) :=
  [(listing_url, broken_listing); (listing_url_2, listing_2)].

(** A review page with one card, whose rating label names a number of 19
    digits. *)
Definition loud_page : Bs4.node :=
  soup [review_card (py "dee") (py "Jan 2023") (py "Loud") (py "Very loud")
                    (py "9223372036854775807 of 5 bubbles")
                    (py "Written April 3, 2023")].

Definition loud_site : Selenium.site :=
  fun u => if Str.eqb u cafe_url then Some loud_page else None.

(** A listing whose second card names a business with a lone surrogate,
    which UTF-8 cannot encode. *)
Definition surrogate_listing : Bs4.node :=
  soup [business_card (py "1. Cafe Uno") (py "/cafe-uno");
        business_card (py "2. Bar " ++ [0xD83D%N]) (py "/bar-due");
        business_card (py "3. Osteria Tre") (py "/osteria-tre")].

Definition surrogate_site : Selenium.site :=
  fun u => if Str.eqb u listing_url then Some surrogate_listing else None.

(** A listing page whose next-page link leads back to the page itself. *)
Definition looping_listing : Bs4.node :=
  soup [business_card (py "1. Cafe Uno") (py "/cafe-uno");
        arrow (py "Next page") (py "/Restaurants")].

Definition looping_site : Selenium.site :=
  fun u => if Str.eqb u listing_url then Some looping_listing else None.

End Sample2.

(* ------------------------------------------------------------------ *)
(** ** Reading back the text that is hashed *)

Module Unescape.
Local Open Scope N_scope.

(** A character of text that was decoded from bytes: a code point below
    [0x110000] that is not a surrogate ([0xD800] to [0xDFFF]). *)
Definition scalar (c : N) : bool :=
  (c <? 0xD800) || ((0xDFFF <? c) && (c <? 0x110000)).

Definition scalars (s : str) : Prop := forallb scalar s = true.

Definition scalar_business (b : Business) : Prop :=
  scalars (business_name b) /\ scalars (business_url b).

Definition scalar_review (r : Review) : Prop :=
  scalars (business_name (business r)) /\ scalars (reviewer r)
  /\ scalars (review_title r) /\ scalars (review_text r).

(** The value of a lower-case hexadecimal digit. *)
Definition unhex_digit (c : N) : N := if c <? 58 then c - 48 else c - 87.

Definition unhex4 (s : str) : option (N * str) :=
  match s with
  | a :: b :: c :: d :: t =>
      Some (((unhex_digit a * 16 + unhex_digit b) * 16 + unhex_digit c) * 16
            + unhex_digit d, t)
  | _ => None
  end.

(** Reads one character of a string literal as [Json.escape_char] writes
    it, and gives the rest of the text; at the closing quote there is no
    character to read. *)
Definition unescape_char (s : str) : option (N * str) :=
  match s with
  | [] => None
  | c :: t =>
      if c =? 34 then None else
      if c =? 92 then
        match t with
        | [] => None
        | x :: t1 =>
            if x =? 117 then
              match unhex4 t1 with
              | None => None
              | Some (v, t2) =>
                  if (0xD800 <=? v) && (v <=? 0xDBFF) then
                    match t2 with
                    | _ :: _ :: t3 =>
                        match unhex4 t3 with
                        | Some (v2, t4) =>
                            Some (0x10000 + (v - 0xD800) * 1024 + (v2 - 0xDC00), t4)
                        | None => None
                        end
                    | _ => None
                    end
                  else Some (v, t2)
              end
            else
              Some (if x =? 98 then 8 else
                    if x =? 102 then 12 else
                    if x =? 110 then 10 else
                    if x =? 114 then 13 else
                    if x =? 116 then 9 else x, t1)
        end
      else Some (c, t)
  end.

End Unescape.

(* ------------------------------------------------------------------ *)
(** ** Sample names outside ASCII *)

Module Sample3.

(** ["Café"] and ["Cafe"] at the same address. *)
Definition cafe_accent : Business := mkBusiness [67%N; 97%N; 102%N; 233%N] (py "/cafe").
Definition cafe_plain : Business := mkBusiness (py "Cafe") (py "/cafe").

(** A character above the basic plane, and the two surrogates that spell
    it in UTF-16. *)
Definition face : str := [0x1F600%N].
Definition face_surrogates : str := [0xD83D%N; 0xDE00%N].

End Sample3.

(* ------------------------------------------------------------------ *)
(** ** Crawls in parts, and the addresses a crawl loads *)

Module Parts.
Import TripAdvisorWebScrapper.

(** What a crawl gives when it goes on with the list [acc] in hand: a
    returned list follows [acc]; an exception, or a loop that does not
    end, is as it was. *)
Definition continued {A : Type} (acc : list A)
  (o : option (res (list A) * scrapper)) : option (res (list A) * scrapper) :=
  match o with
  | Some (Ok l, s) => Some (Ok (acc ++ l), s)
  | Some (Raise e, s) => Some (Raise e, s)
  | None => None
  end.

(** An address of the site: the site's address followed by a path. *)
Definition on_site (u : str) : Prop := exists path, u = TRIP_ADVISOR_URL ++ path.

(** The address that a business dict of the list gives. *)
Definition address_of (businesses : list (list (str * str))) (u : str) : Prop :=
  exists b, In b businesses /\ lookup (py "business_url") b = Some u.

(** The addresses loaded between two states of the driver. *)
Definition loaded (d d' : Selenium.webdriver) (urls : list str) : Prop :=
  Selenium.visited d' = Selenium.visited d ++ urls.

End Parts.

(* ------------------------------------------------------------------ *)
(** ** What a list of records leaves in a collection *)

Module Firsts.
Import Mongo.

(** The records of [l] whose hash is not in [seen] and is not the hash of
    an earlier record of [l], in the order of [l]. *)
Fixpoint first_of_each {A : Type} (hash : A -> str) (seen : list str)
  (l : list A) : list A :=
  match l with
  | [] => []
  | x :: l' =>
      if existsb (Str.eqb (hash x)) seen then first_of_each hash seen l'
      else x :: first_of_each hash (hash x :: seen) l'
  end.

(** [seen] lists the identity hashes that the collection holds. *)
Definition hashes_of (c : collection) (seen : list str) : Prop :=
  forall h, More.holds h c <-> In h seen.

End Firsts.

(* ================================================================== *)
(** * Properties *)

(* ------------------------------------------------------------------ *)
(** ** Strings: equality and order *)

Module StrFacts.

Lemma eqb_refl (a : str) : Str.eqb a a = true.
Proof.
  induction a as [|x a IH]; simpl; [reflexivity|].
  now rewrite N.eqb_refl, IH.
Qed.

Lemma eqb_eq (a b : str) : Str.eqb a b = true <-> a = b.
Proof.
  split.
  - revert b; induction a as [|x a IH]; intros [|y b]; simpl; try discriminate;
      [reflexivity|].
    intros H. apply andb_true_iff in H as [H1 H2].
    apply N.eqb_eq in H1. apply IH in H2. now subst.
  - intros ->. apply eqb_refl.
Qed.

Lemma eqb_neq (a b : str) : Str.eqb a b = false <-> a <> b.
Proof.
  split.
  - intros H E. apply eqb_eq in E. congruence.
  - intros H. destruct (Str.eqb a b) eqn:E; [|reflexivity].
    apply eqb_eq in E. contradiction.
Qed.

Lemma eqb_sym (a b : str) : Str.eqb a b = Str.eqb b a.
Proof.
  destruct (Str.eqb a b) eqn:E.
  - apply eqb_eq in E. subst. symmetry. apply eqb_refl.
  - symmetry. apply eqb_neq. apply eqb_neq in E. congruence.
Qed.

Lemma ltb_irrefl (a : str) : Str.ltb a a = false.
Proof.
  induction a as [|x a IH]; simpl; [reflexivity|].
  now rewrite N.ltb_irrefl, N.eqb_refl, IH.
Qed.

Lemma ltb_trans (a b c : str) :
  Str.ltb a b = true -> Str.ltb b c = true -> Str.ltb a c = true.
Proof.
  revert b c; induction a as [|x a IH]; intros [|y b] [|z c]; simpl;
    try discriminate; try reflexivity.
  intros H1 H2.
  apply orb_true_iff in H1. apply orb_true_iff in H2. apply orb_true_iff.
  destruct H1 as [H1|H1], H2 as [H2|H2].
  - left. apply N.ltb_lt in H1, H2. apply N.ltb_lt. lia.
  - apply andb_true_iff in H2 as [E _]. apply N.eqb_eq in E. subst. now left.
  - apply andb_true_iff in H1 as [E _]. apply N.eqb_eq in E. subst. now left.
  - apply andb_true_iff in H1 as [E1 L1]. apply andb_true_iff in H2 as [E2 L2].
    apply N.eqb_eq in E1, E2. subst. right.
    rewrite N.eqb_refl. simpl. eapply IH; eassumption.
Qed.

(** The order is total: two strings neither of which is below the other are
    equal. *)
Lemma ltb_total (a b : str) :
  Str.ltb a b = false -> Str.ltb b a = false -> a = b.
Proof.
  revert b; induction a as [|x a IH]; intros [|y b]; simpl;
    try discriminate; try reflexivity.
  intros H1 H2.
  apply orb_false_iff in H1 as [L1 R1]. apply orb_false_iff in H2 as [L2 R2].
  apply N.ltb_ge in L1, L2. assert (x = y) by lia. subst.
  rewrite N.eqb_refl in R1, R2. simpl in R1, R2.
  f_equal. now apply IH.
Qed.

End StrFacts.

(* ------------------------------------------------------------------ *)
(** ** [json.dumps(..., sort_keys=True)] does not depend on insertion order *)

Module JsonFacts.
Import Json.

Lemma insert_item_perm (kv : str * value) (l : dict) :
  Permutation (insert_item kv l) (kv :: l).
Proof.
  induction l as [|x l IH]; simpl; [reflexivity|].
  destruct (Str.ltb (fst x) (fst kv)); [|reflexivity].
  rewrite IH. apply perm_swap.
Qed.

Lemma sort_items_perm (d : dict) : Permutation (sort_items d) d.
Proof.
  induction d as [|kv d IH]; simpl; [reflexivity|].
  rewrite insert_item_perm. now constructor.
Qed.

Lemma insert_item_sorted (kv : str * value) (l : dict) :
  StronglySorted key_lt l ->
  ~ In (fst kv) (map fst l) ->
  StronglySorted key_lt (insert_item kv l).
Proof.
  induction l as [|x l IH]; simpl; intros S NI.
  - repeat constructor.
  - inversion S as [|? ? S' F]; subst.
    destruct (Str.ltb (fst x) (fst kv)) eqn:L.
    + constructor.
      * apply IH; [assumption|]. intros HI. apply NI. now right.
      * eapply Permutation_Forall.
        -- symmetry. apply insert_item_perm.
        -- constructor; assumption.
    + assert (K : key_lt kv x).
      { unfold key_lt. destruct (Str.ltb (fst kv) (fst x)) eqn:L'; [reflexivity|].
        exfalso. apply NI. left. symmetry. now apply StrFacts.ltb_total. }
      constructor; [assumption|].
      constructor; [assumption|].
      eapply Forall_impl; [|exact F].
      intros y Hy. unfold key_lt in *. eapply StrFacts.ltb_trans; eassumption.
Qed.

Lemma sort_items_sorted (d : dict) :
  NoDup (map fst d) -> StronglySorted key_lt (sort_items d).
Proof.
  induction d as [|kv d IH]; simpl; intros ND.
  - constructor.
  - inversion ND as [|? ? NI ND']; subst.
    apply insert_item_sorted; [now apply IH|].
    intros HI. apply NI.
    eapply Permutation_in; [|exact HI].
    apply Permutation_map. apply sort_items_perm.
Qed.

(** Two lists sorted strictly by key with the same elements are equal. *)
Lemma sorted_perm_eq (l1 l2 : dict) :
  StronglySorted key_lt l1 -> StronglySorted key_lt l2 ->
  Permutation l1 l2 -> l1 = l2.
Proof.
  revert l2; induction l1 as [|x l1 IH]; intros l2 S1 S2 P.
  - apply Permutation_nil in P. now subst.
  - destruct l2 as [|y l2].
    + symmetry in P. apply Permutation_nil in P. discriminate.
    + inversion S1 as [|? ? S1' F1]; subst.
      inversion S2 as [|? ? S2' F2]; subst.
      assert (E : x = y).
      { assert (Hx : In x (y :: l2)) by (eapply Permutation_in; [exact P|now left]).
        assert (Hy : In y (x :: l1))
          by (eapply Permutation_in; [symmetry; exact P|now left]).
        destruct Hx as [Hx|Hx]; [now subst|].
        destruct Hy as [Hy|Hy]; [now subst|].
        rewrite Forall_forall in F1, F2.
        specialize (F1 _ Hy). specialize (F2 _ Hx). unfold key_lt in *.
        pose proof (StrFacts.ltb_trans _ _ _ F1 F2) as C.
        rewrite StrFacts.ltb_irrefl in C. discriminate. }
      subst. f_equal. apply IH; try assumption.
      eapply Permutation_cons_inv; exact P.
Qed.

Lemma sort_items_permutation (d d' : dict) :
  NoDup (map fst d) -> Permutation d d' -> sort_items d = sort_items d'.
Proof.
  intros ND P.
  assert (ND' : NoDup (map fst d')).
  { eapply Permutation_NoDup; [|exact ND]. now apply Permutation_map. }
  apply sorted_perm_eq; try now apply sort_items_sorted.
  rewrite sort_items_perm, P. symmetry. apply sort_items_perm.
Qed.

Lemma dumps_permutation (d d' : dict) :
  NoDup (map fst d) -> Permutation d d' -> dumps d = dumps d'.
Proof.
  intros ND P. unfold dumps. now rewrite (sort_items_permutation ND P).
Qed.

End JsonFacts.

(* ------------------------------------------------------------------ *)
(** ** Identity hashes *)

Module HashFacts.

Lemma business_keys_nodup (b : Business) :
  NoDup (map fst (BusinessM.__dict__ b)).
Proof.
  cbv [BusinessM.__dict__ map fst].
  repeat constructor; simpl; intuition discriminate.
Qed.

Lemma review_keys_nodup (r : Review) :
  NoDup (map fst (ReviewM.hash_data r)).
Proof.
  cbv [ReviewM.hash_data map fst].
  repeat constructor; simpl; intuition discriminate.
Qed.

End HashFacts.

(** C3: two records of the same type that agree on the identity fields (both
    fields of a Business; business name, reviewer, title, text and rating of
    a Review) have the same hash, whatever the other fields are, so two
    Reviews that differ only in their dates have the same hash; and the hash
    does not depend on the order in which the hashed dict was filled. *)
Theorem hash_determinism :
  (forall b1 b2 : Business,
      business_name b1 = business_name b2 ->
      business_url b1 = business_url b2 ->
      BusinessM.get_object_hash b1 = BusinessM.get_object_hash b2)
  /\ (forall r1 r2 : Review,
      business_name (business r1) = business_name (business r2) ->
      reviewer r1 = reviewer r2 ->
      review_title r1 = review_title r2 ->
      review_text r1 = review_text r2 ->
      review_rating r1 = review_rating r2 ->
      ReviewM.get_object_hash r1 = ReviewM.get_object_hash r2)
  /\ (forall (r : Review) (d1 d2 : option date),
      ReviewM.get_object_hash
        (mkReview (business r) (reviewer r) d1 d2 (review_title r)
                  (review_text r) (review_rating r))
      = ReviewM.get_object_hash r)
  /\ (forall (b : Business) (d : Json.dict),
      Permutation (BusinessM.__dict__ b) d ->
      SHA256.hexdigest (encode (Json.dumps d)) = BusinessM.get_object_hash b)
  /\ (forall (r : Review) (d : Json.dict),
      Permutation (ReviewM.hash_data r) d ->
      SHA256.hexdigest (encode (Json.dumps d)) = ReviewM.get_object_hash r).
Proof.
  repeat split.
  - intros [n1 u1] [n2 u2]; simpl; intros -> ->. reflexivity.
  - intros r1 r2 Hb Hr Ht Hx Hg.
    unfold ReviewM.get_object_hash, ReviewM.hash_data.
    now rewrite Hb, Hr, Ht, Hx, Hg.
  - intros b d P. unfold BusinessM.get_object_hash.
    now rewrite (JsonFacts.dumps_permutation (HashFacts.business_keys_nodup b) P).
  - intros r d P. unfold ReviewM.get_object_hash.
    now rewrite (JsonFacts.dumps_permutation (HashFacts.review_keys_nodup r) P).
Qed.

(** Two reviews of one business by one reviewer with the same title, text
    and rating, written and visited on different dates and reached through
    different addresses, hash alike. *)
Lemma hash_determinism_witness :
  ReviewM.get_object_hash
    (mkReview (mkBusiness (py "Cafe Uno") (py "/a")) (py "ann")
              (Some (Date 2023 1 1)) (Some (Date 2023 4 3))
              (py "Good") (py "Nice place") 4)
  = ReviewM.get_object_hash
    (mkReview (mkBusiness (py "Cafe Uno") (py "/b")) (py "ann")
              (Some (Date 2022 12 1)) None
              (py "Good") (py "Nice place") 4).
Proof.
  apply (proj1 (proj2 hash_determinism)); reflexivity.
Defined.

(* ------------------------------------------------------------------ *)
(** ** The store gateway *)

Module MongoFacts.
Import Mongo Spec.

Lemma value_eqb_eq (a b : value) : value_eqb a b = true <-> a = b.
Proof.
  destruct a, b; simpl; split; intros H; try discriminate;
    try (apply StrFacts.eqb_eq in H; now subst);
    try (apply Z.eqb_eq in H; now subst);
    try (apply N.eqb_eq in H; now subst);
    inversion H; subst;
    first [apply StrFacts.eqb_refl | apply Z.eqb_refl | apply N.eqb_refl].
Qed.

Lemma matches_by_hash (h : str) (d : document) :
  matches (by_hash h) d = true <-> get (py "unique_id") d = Some (VStr h).
Proof.
  unfold matches, by_hash. cbn [forallb fst snd].
  rewrite andb_true_r.
  destruct (get (py "unique_id") d) as [v|].
  - rewrite value_eqb_eq. split; congruence.
  - split; discriminate.
Qed.

Lemma matches_by_type (t : str) (d : document) :
  matches (by_type t) d = true <-> get (py "type") d = Some (VStr t).
Proof.
  unfold matches, by_type. cbn [forallb fst snd].
  rewrite andb_true_r.
  destruct (get (py "type") d) as [v|].
  - rewrite value_eqb_eq. split; congruence.
  - split; discriminate.
Qed.

Lemma matches_by_hash_and_type (h t : str) (d : document) :
  matches (by_hash_and_type h t) d = matches (by_hash h) d && matches (by_type t) d.
Proof.
  unfold matches, by_hash_and_type, by_hash, by_type. cbn [forallb fst snd].
  now rewrite !andb_true_r.
Qed.

Lemma find_one_none (f : document) (c : collection) :
  find_one f c = None <-> find f c = [].
Proof.
  unfold find_one, find. induction (documents c) as [|d l IH]; simpl.
  - tauto.
  - destruct (matches f d); [split; discriminate|exact IH].
Qed.

Lemma find_in_appended (f d : document) (c : collection) :
  find f (appended d c)
  = find f c ++ (if matches f ((py "_id", VObjectId (next_id c)) :: d)
                 then [(py "_id", VObjectId (next_id c)) :: d] else []).
Proof. unfold appended, find. cbn [documents]. now rewrite filter_app. Qed.

(** [insert_one] on a document without an [_id]. *)
Lemma insert_one_appended (d : document) (c : collection) :
  get (py "_id") d = None ->
  insert_one d c
  = match encode_document d with
    | Ok _ => Ok (appended d c)
    | Raise e => Raise e
    end.
Proof.
  intros H. unfold insert_one. rewrite H. cbn [encode_document encode_value bind].
  destruct (encode_document d); reflexivity.
Qed.

(** Text that UTF-8 can encode. *)
Lemma utf8_below (s : str) :
  Forall (fun c => (c < 0xD800)%N) s -> utf8 s = true.
Proof.
  induction 1 as [|c s Hc _ IH]; [reflexivity|].
  cbn [utf8 forallb]. fold (utf8 s). rewrite IH, andb_true_r.
  unfold surrogate. apply negb_true_iff, andb_false_iff. left.
  apply N.leb_gt. exact Hc.
Qed.

Lemma utf8_app (s t : str) : utf8 (s ++ t) = utf8 s && utf8 t.
Proof. unfold utf8. apply forallb_app. Qed.

Lemma utf8_py (s : string) : utf8 (py s) = true.
Proof.
  apply utf8_below. unfold py. apply Forall_forall. intros c H.
  apply in_map_iff in H as (a & <- & _).
  pose proof (N_ascii_bounded a). lia.
Qed.

Lemma utf8_hexdigest (msg : bytes) : utf8 (SHA256.hexdigest msg) = true.
Proof.
  apply utf8_below. unfold SHA256.hexdigest. apply Forall_forall. intros c H.
  apply in_flat_map in H as (x & _ & H). unfold SHA256.hex in H.
  apply in_map_iff in H as (i & <- & _).
  unfold SHA256.hex_digit.
  assert (M : ((N.shiftr x (4 * N.of_nat i)) mod 16 < 16)%N)
    by (apply N.mod_lt; discriminate).
  destruct (_ <? 10)%N; lia.
Qed.

Lemma utf8_str_of_date (d : option date) : utf8 (str_of_date d) = true.
Proof.
  destruct d as [d|]; [|apply utf8_py].
  unfold str_of_date, isoformat, zero_pad, dec.
  rewrite !utf8_app, !utf8_py, !andb_true_r.
  assert (R : forall n, utf8 (repeat 48%N n) = true)
    by (induction n; [reflexivity|exact IHn]).
  now rewrite !R.
Qed.

(** Which records the driver can encode. *)
Lemma storable_business_fields (b : Business) :
  storable_business b = utf8 (business_name b) && utf8 (business_url b).
Proof.
  unfold storable_business, storable, BusinessM.to_mongo_document.
  cbn [encode_document encode_value bind].
  unfold BusinessM.get_object_hash. cbv zeta.
  rewrite utf8_hexdigest.
  change (utf8 MongoDocumentType.BUSINESS) with true. cbn [bind].
  destruct (utf8 (business_name b)); cbn [bind andb]; [|reflexivity].
  destruct (utf8 (business_url b)); reflexivity.
Qed.

Lemma storable_review_fields (r : Review) :
  storable_review r
  = utf8 (reviewer r) && utf8 (business_name (business r))
    && utf8 (review_title r) && utf8 (review_text r)
    && int64 (review_rating r).
Proof.
  unfold storable_review, storable, ReviewM.to_mongo_document.
  cbn [encode_document encode_value bind].
  unfold ReviewM.get_object_hash. cbv zeta.
  rewrite utf8_hexdigest, !utf8_str_of_date.
  change (utf8 MongoDocumentType.REVIEW) with true. cbn [bind].
  destruct (utf8 (reviewer r)); cbn [bind andb]; [|reflexivity].
  destruct (utf8 (business_name (business r))); cbn [bind andb]; [|reflexivity].
  destruct (utf8 (review_title r)); cbn [bind andb]; [|reflexivity].
  destruct (utf8 (review_text r)); cbn [bind andb]; [|reflexivity].
  destruct (int64 (review_rating r)); reflexivity.
Qed.

(** What the two serialisations carry. *)
Lemma business_document_hash (b : Business) (i : value) :
  get (py "unique_id") ((py "_id", i) :: BusinessM.to_mongo_document b)
  = Some (VStr (BusinessM.get_object_hash b)).
Proof. reflexivity. Qed.

Lemma review_document_hash (r : Review) (i : value) :
  get (py "unique_id") ((py "_id", i) :: ReviewM.to_mongo_document r)
  = Some (VStr (ReviewM.get_object_hash r)).
Proof. reflexivity. Qed.

(** Inserting a document whose hash the collection lacks keeps the hashes
    and types without duplicates. *)
Lemma no_duplicates_insert (d : document) (c : collection) (h : str) :
  get (py "unique_id") ((py "_id", VObjectId (next_id c)) :: d) = Some (VStr h) ->
  find (by_hash h) c = [] ->
  no_duplicates c -> no_duplicates (appended d c).
Proof.
  intros Hh Hnew ND h' t.
  rewrite find_in_appended, length_app.
  destruct (matches (by_hash_and_type h' t) _) eqn:M; simpl.
  - rewrite matches_by_hash_and_type in M. apply andb_true_iff in M as [M _].
    apply matches_by_hash in M. rewrite Hh in M. inversion M; subst h'.
    assert (E : find (by_hash_and_type h t) c = []).
    { unfold find in *.
      destruct (filter (matches (by_hash_and_type h t)) (documents c)) as [|x l] eqn:F;
        [reflexivity|].
      assert (Hx : In x (filter (matches (by_hash_and_type h t)) (documents c)))
        by (rewrite F; now left).
      apply filter_In in Hx as [Hx1 Hx2].
      rewrite matches_by_hash_and_type in Hx2. apply andb_true_iff in Hx2 as [Hx2 _].
      assert (In x (filter (matches (by_hash h)) (documents c)))
        by (apply filter_In; auto).
      rewrite Hnew in *. contradiction. }
    rewrite E. simpl. lia.
  - specialize (ND h' t). lia.
Qed.

Lemma insert_business_by_hash (b : Business) (c : collection) :
  TripAdvisorMongoClient.insert_business b c
  = match find (by_hash (BusinessM.get_object_hash b)) c with
    | _ :: _ => (Ok false, c)
    | [] =>
        match encode_document (BusinessM.to_mongo_document b) with
        | Ok _ => (Ok true, appended (BusinessM.to_mongo_document b) c)
        | Raise e => (Raise e, c)
        end
    end.
Proof.
  unfold TripAdvisorMongoClient.insert_business.
  change [(py "unique_id", VStr (BusinessM.get_object_hash b))]
    with (by_hash (BusinessM.get_object_hash b)).
  destruct (find_one _ c) eqn:F.
  - destruct (find _ c) eqn:G; [|reflexivity].
    apply find_one_none in G. congruence.
  - apply find_one_none in F. rewrite F.
    rewrite insert_one_appended by reflexivity.
    destruct (encode_document _); reflexivity.
Qed.

Lemma insert_review_by_hash (r : Review) (c : collection) :
  TripAdvisorMongoClient.insert_review r c
  = match find (by_hash (ReviewM.get_object_hash r)) c with
    | _ :: _ => (Ok false, c)
    | [] =>
        match encode_document (ReviewM.to_mongo_document r) with
        | Ok _ => (Ok true, appended (ReviewM.to_mongo_document r) c)
        | Raise e => (Raise e, c)
        end
    end.
Proof.
  unfold TripAdvisorMongoClient.insert_review.
  change [(py "unique_id", VStr (ReviewM.get_object_hash r))]
    with (by_hash (ReviewM.get_object_hash r)).
  destruct (find_one _ c) eqn:F.
  - destruct (find _ c) eqn:G; [|reflexivity].
    apply find_one_none in G. congruence.
  - apply find_one_none in F. rewrite F.
    rewrite insert_one_appended by reflexivity.
    destruct (encode_document _); reflexivity.
Qed.

(** An insert of a record that can be stored. *)
Lemma insert_business_storable (b : Business) (c : collection) :
  storable_business b = true ->
  TripAdvisorMongoClient.insert_business b c
  = match find (by_hash (BusinessM.get_object_hash b)) c with
    | _ :: _ => (Ok false, c)
    | [] => (Ok true, appended (BusinessM.to_mongo_document b) c)
    end.
Proof.
  intros S. rewrite insert_business_by_hash.
  unfold storable_business, storable in S.
  destruct (encode_document _); [reflexivity|discriminate].
Qed.

Lemma insert_review_storable (r : Review) (c : collection) :
  storable_review r = true ->
  TripAdvisorMongoClient.insert_review r c
  = match find (by_hash (ReviewM.get_object_hash r)) c with
    | _ :: _ => (Ok false, c)
    | [] => (Ok true, appended (ReviewM.to_mongo_document r) c)
    end.
Proof.
  intros S. rewrite insert_review_by_hash.
  unfold storable_review, storable in S.
  destruct (encode_document _); [reflexivity|discriminate].
Qed.

End MongoFacts.

Import Mongo Spec TripAdvisorMongoClient.

(** C1, as the code has it: [insert_business] and [insert_review] query the
    collection for a document with the record's identity hash, whatever its
    type; when there is one they return [False] and leave the collection as
    it is.  Otherwise, for a record whose document the driver can encode,
    they append the serialised document, which carries the hash and the
    type, and return [True]; a document that cannot be encoded makes
    [insert_one] raise, and the collection is as it was.  A business can be
    encoded when its name and address hold no surrogate, a review when its
    texts hold none and its rating is in 64 bits.  So an insert keeps a
    collection free of two documents with the same hash and type. *)
Theorem insert_if_absent_by_hash :
  (forall (b : Business) (c : collection),
      insert_business b c
      = match find (by_hash (BusinessM.get_object_hash b)) c with
        | _ :: _ => (Ok false, c)
        | [] =>
            if storable_business b
            then (Ok true, appended (BusinessM.to_mongo_document b) c)
            else (Raise UnicodeEncodeError, c)
        end)
  /\ (forall (r : Review) (c : collection),
      insert_review r c
      = match find (by_hash (ReviewM.get_object_hash r)) c with
        | _ :: _ => (Ok false, c)
        | [] =>
            if storable_review r
            then (Ok true, appended (ReviewM.to_mongo_document r) c)
            else (Raise (if utf8 (reviewer r)
                            && utf8 (business_name (business r))
                            && utf8 (review_title r) && utf8 (review_text r)
                         then OverflowError else UnicodeEncodeError), c)
        end)
  /\ (forall b : Business,
      storable_business b = utf8 (business_name b) && utf8 (business_url b))
  /\ (forall r : Review,
      storable_review r
      = utf8 (reviewer r) && utf8 (business_name (business r))
        && utf8 (review_title r) && utf8 (review_text r)
        && int64 (review_rating r))
  /\ (forall (b : Business) (c : collection),
      matches (by_hash_and_type (BusinessM.get_object_hash b)
                                MongoDocumentType.BUSINESS)
              ((py "_id", VObjectId (next_id c)) :: BusinessM.to_mongo_document b)
      = true)
  /\ (forall (r : Review) (c : collection),
      matches (by_hash_and_type (ReviewM.get_object_hash r)
                                MongoDocumentType.REVIEW)
              ((py "_id", VObjectId (next_id c)) :: ReviewM.to_mongo_document r)
      = true)
  /\ (forall (b : Business) (c : collection),
      no_duplicates c -> no_duplicates (snd (insert_business b c)))
  /\ (forall (r : Review) (c : collection),
      no_duplicates c -> no_duplicates (snd (insert_review r c))).
Proof.
  pose proof MongoFacts.insert_business_by_hash as B.
  pose proof MongoFacts.insert_review_by_hash as R.
  split; [|split; [|split; [|split; [|split; [|split; [|split]]]]]].
  - intros b c. rewrite B. destruct (find _ c); [|reflexivity].
    pose proof (MongoFacts.storable_business_fields b) as S.
    unfold storable_business, storable in *.
    unfold BusinessM.to_mongo_document in *.
    cbn [encode_document encode_value bind] in *.
    unfold BusinessM.get_object_hash in *. cbv zeta in *.
    rewrite MongoFacts.utf8_hexdigest in *.
    change (utf8 MongoDocumentType.BUSINESS) with true in *. cbn [bind] in *.
    destruct (utf8 (business_name b)); cbn [bind]; [|reflexivity].
    destruct (utf8 (business_url b)); reflexivity.
  - intros r c. rewrite R. destruct (find _ c); [|reflexivity].
    unfold storable_review, storable, ReviewM.to_mongo_document.
    cbn [encode_document encode_value bind].
    unfold ReviewM.get_object_hash. cbv zeta.
    rewrite MongoFacts.utf8_hexdigest, !MongoFacts.utf8_str_of_date.
    change (utf8 MongoDocumentType.REVIEW) with true. cbn [bind].
    destruct (utf8 (reviewer r)); cbn [bind andb]; [|reflexivity].
    destruct (utf8 (business_name (business r))); cbn [bind andb]; [|reflexivity].
    destruct (utf8 (review_title r)); cbn [bind andb]; [|reflexivity].
    destruct (utf8 (review_text r)); cbn [bind andb]; [|reflexivity].
    destruct (int64 (review_rating r)); reflexivity.
  - exact MongoFacts.storable_business_fields.
  - exact MongoFacts.storable_review_fields.
  - intros b c. rewrite MongoFacts.matches_by_hash_and_type.
    apply andb_true_iff. split.
    + apply MongoFacts.matches_by_hash. reflexivity.
    + apply MongoFacts.matches_by_type. reflexivity.
  - intros r c. rewrite MongoFacts.matches_by_hash_and_type.
    apply andb_true_iff. split.
    + apply MongoFacts.matches_by_hash. reflexivity.
    + apply MongoFacts.matches_by_type. reflexivity.
  - intros b c ND. rewrite B.
    destruct (find _ c) eqn:F; [|exact ND].
    destruct (encode_document _); cbn [snd]; [|exact ND].
    apply (@MongoFacts.no_duplicates_insert (BusinessM.to_mongo_document b) c
             (BusinessM.get_object_hash b)); auto.
  - intros r c ND. rewrite R.
    destruct (find _ c) eqn:F; [|exact ND].
    destruct (encode_document _); cbn [snd]; [|exact ND].
    apply (@MongoFacts.no_duplicates_insert (ReviewM.to_mongo_document r) c
             (ReviewM.get_object_hash r)); auto.
Qed.

(** The empty collection has no duplicates, and keeps none when [cafe] is
    inserted. *)
Lemma insert_if_absent_by_hash_witness :
  no_duplicates Sample.empty
  /\ no_duplicates (snd (insert_business Sample.cafe Sample.empty)).
Proof.
  assert (E : no_duplicates Sample.empty) by (intros h t; simpl; lia).
  split; [exact E|].
  apply (proj1 (proj2 (proj2 (proj2 (proj2 (proj2 (proj2
           insert_if_absent_by_hash))))))).
  exact E.
Defined.

(** C1, as stated, fails: the collection holds one document with the hash
    of [cafe], typed as a review.  No document has that hash and the type
    ["business"], and yet [insert_business] returns [False] and writes
    nothing. *)
Lemma insert_ignores_type :
  find_one (by_hash_and_type (BusinessM.get_object_hash Sample.cafe)
                             MongoDocumentType.BUSINESS)
           Sample.review_with_hash_of_cafe = None
  /\ insert_business Sample.cafe Sample.review_with_hash_of_cafe
     = (Ok false, Sample.review_with_hash_of_cafe).
Proof. split; vm_compute; reflexivity. Qed.

(** C4, for a record that the driver can encode: on a collection without
    the record's hash, the first insert returns [True] and a second insert
    of a record with that hash returns [False] and leaves the collection as
    the first left it, with exactly one document of that hash; and
    whenever an insert returns [False] the collection is unchanged. *)
Theorem insert_twice :
  (forall (b b' : Business) (c : collection),
      storable_business b = true ->
      BusinessM.get_object_hash b' = BusinessM.get_object_hash b ->
      find (by_hash (BusinessM.get_object_hash b)) c = [] ->
      let c1 := snd (insert_business b c) in
      fst (insert_business b c) = Ok true
      /\ insert_business b' c1 = (Ok false, c1)
      /\ List.length (find (by_hash (BusinessM.get_object_hash b)) c1) = 1)
  /\ (forall (r r' : Review) (c : collection),
      storable_review r = true ->
      ReviewM.get_object_hash r' = ReviewM.get_object_hash r ->
      find (by_hash (ReviewM.get_object_hash r)) c = [] ->
      let c1 := snd (insert_review r c) in
      fst (insert_review r c) = Ok true
      /\ insert_review r' c1 = (Ok false, c1)
      /\ List.length (find (by_hash (ReviewM.get_object_hash r)) c1) = 1)
  /\ (forall (b : Business) (c : collection),
      fst (insert_business b c) = Ok false -> snd (insert_business b c) = c)
  /\ (forall (r : Review) (c : collection),
      fst (insert_review r c) = Ok false -> snd (insert_review r c) = c).
Proof.
  pose proof MongoFacts.insert_business_by_hash as B.
  pose proof MongoFacts.insert_review_by_hash as R.
  split; [|split; [|split]].
  - intros b b' c S Hh Hnew c1. subst c1.
    rewrite (@MongoFacts.insert_business_storable b c S), Hnew. cbn [fst snd].
    assert (F : find (by_hash (BusinessM.get_object_hash b))
                  (appended (BusinessM.to_mongo_document b) c)
                = [(py "_id", VObjectId (next_id c)) :: BusinessM.to_mongo_document b]).
    { rewrite MongoFacts.find_in_appended, Hnew. cbn [app].
      rewrite (proj2 (MongoFacts.matches_by_hash _ _)
                 (MongoFacts.business_document_hash b _)).
      reflexivity. }
    split; [reflexivity|]. split.
    + rewrite (B b'), Hh, F. reflexivity.
    + rewrite F. reflexivity.
  - intros r r' c S Hh Hnew c1. subst c1.
    rewrite (@MongoFacts.insert_review_storable r c S), Hnew. cbn [fst snd].
    assert (F : find (by_hash (ReviewM.get_object_hash r))
                  (appended (ReviewM.to_mongo_document r) c)
                = [(py "_id", VObjectId (next_id c)) :: ReviewM.to_mongo_document r]).
    { rewrite MongoFacts.find_in_appended, Hnew. cbn [app].
      rewrite (proj2 (MongoFacts.matches_by_hash _ _)
                 (MongoFacts.review_document_hash r _)).
      reflexivity. }
    split; [reflexivity|]. split.
    + rewrite (R r'), Hh, F. reflexivity.
    + rewrite F. reflexivity.
  - intros b c. rewrite (B b c).
    destruct (find _ c); cbn [fst snd]; [|reflexivity].
    destruct (encode_document _); cbn [fst snd]; [discriminate|reflexivity].
  - intros r c. rewrite (R r c).
    destruct (find _ c); cbn [fst snd]; [|reflexivity].
    destruct (encode_document _); cbn [fst snd]; [discriminate|reflexivity].
Qed.

(** Inserting [cafe] twice into the empty collection, and then the review
    [praise] and a copy of it with other dates. *)
Lemma insert_twice_witness :
  (let c1 := snd (insert_business Sample.cafe Sample.empty) in
   fst (insert_business Sample.cafe Sample.empty) = Ok true
   /\ insert_business Sample.cafe c1 = (Ok false, c1)
   /\ List.length (find (by_hash (BusinessM.get_object_hash Sample.cafe)) c1) = 1)
  /\ (let c1 := snd (insert_review Sample.praise Sample.empty) in
      fst (insert_review Sample.praise Sample.empty) = Ok true
      /\ insert_review
           (mkReview Sample.cafe (py "ann") None None (py "Good")
                     (py "Nice place") 4) c1 = (Ok false, c1)
      /\ List.length (find (by_hash (ReviewM.get_object_hash Sample.praise)) c1) = 1).
Proof.
  split.
  - apply (proj1 insert_twice Sample.cafe Sample.cafe Sample.empty);
      vm_compute; reflexivity.
  - apply (proj1 (proj2 insert_twice) Sample.praise
             (mkReview Sample.cafe (py "ann") None None (py "Good")
                       (py "Nice place") 4) Sample.empty);
      vm_compute; reflexivity.
Defined.

(** C4, as stated, fails: a review whose rating is beyond 64 bits, as
    [int(float("9223372036854775807"))] is, is not in the empty collection,
    and yet its insert raises [OverflowError] and writes nothing; so does
    a second insert. *)
Lemma insert_of_large_rating_raises :
  find (by_hash (ReviewM.get_object_hash Sample.loud)) Sample.empty = []
  /\ review_rating Sample.loud = (2 ^ 63)%Z
  /\ insert_review Sample.loud Sample.empty = (Raise OverflowError, Sample.empty)
  /\ insert_review Sample.loud (snd (insert_review Sample.loud Sample.empty))
     = (Raise OverflowError, Sample.empty).
Proof.
  split; [vm_compute; reflexivity|]. split; [vm_compute; reflexivity|].
  split; vm_compute; reflexivity.
Qed.

Module StripFacts.

Lemma has_type_matches (t : str) (d : document) :
  matches (by_type t) d = has_type t d.
Proof.
  unfold matches, by_type, has_type. cbn [forallb fst snd].
  rewrite andb_true_r.
  destruct (get (py "type") d) as [[s| |]|]; simpl; try reflexivity.
  apply StrFacts.eqb_sym.
Qed.

Lemma get_strip_metadata_kept (k : str) (d : document) :
  ~ In k metadata_keys -> get k (strip_metadata d) = get k d.
Proof.
  intros NI. unfold strip_metadata.
  induction d as [|[k' v] d IH]; [reflexivity|].
  cbn [filter fst get].
  destruct (Str.eqb k k') eqn:E.
  - apply StrFacts.eqb_eq in E. subst k'.
    assert (X : existsb (Str.eqb k) [py "_id"; py "unique_id"; py "type"] = false).
    { destruct (existsb _ _) eqn:X; [|reflexivity].
      apply existsb_exists in X as (x & Hx & Ex).
      apply StrFacts.eqb_eq in Ex. subst x. contradiction. }
    rewrite X. cbn [negb get]. now rewrite StrFacts.eqb_refl.
  - destruct (negb _); [|exact IH].
    cbn [get]. rewrite E. exact IH.
Qed.

Lemma get_strip_metadata_removed (k : str) (d : document) :
  In k metadata_keys -> get k (strip_metadata d) = None.
Proof.
  intros HI. unfold strip_metadata.
  induction d as [|[k' v] d IH]; [reflexivity|].
  cbn [filter fst].
  destruct (existsb (Str.eqb k') [py "_id"; py "unique_id"; py "type"]) eqn:X;
    cbn [negb]; [exact IH|].
  cbn [get]. destruct (Str.eqb k k') eqn:E; [|exact IH].
  apply StrFacts.eqb_eq in E. subst k'.
  assert (existsb (Str.eqb k) [py "_id"; py "unique_id"; py "type"] = true).
  { apply existsb_exists. exists k. split; [exact HI|apply StrFacts.eqb_refl]. }
  congruence.
Qed.

End StripFacts.

(** C9: [get_businesses] and [get_reviews] return, in the order of the
    collection, the documents whose [type] is the requested one, each
    without the keys [_id], [unique_id] and [type] and with every other key
    bound as before. *)
Theorem list_by_type_strips_metadata :
  (forall c : collection,
      get_businesses c
      = map strip_metadata
          (filter (has_type MongoDocumentType.BUSINESS) (documents c)))
  /\ (forall c : collection,
      get_reviews c
      = map strip_metadata
          (filter (has_type MongoDocumentType.REVIEW) (documents c)))
  /\ (forall (d : document) (k : str),
      In k metadata_keys -> get k (strip_metadata d) = None)
  /\ (forall (d : document) (k : str),
      ~ In k metadata_keys -> get k (strip_metadata d) = get k d)
  /\ (forall d : document,
      strip_metadata d
      = filter (fun kv => negb (existsb (Str.eqb (fst kv)) metadata_keys)) d).
Proof.
  split; [|split; [|split; [|split]]].
  - intros c. unfold get_businesses, find. f_equal.
    apply filter_ext. intros d.
    exact (StripFacts.has_type_matches MongoDocumentType.BUSINESS d).
  - intros c. unfold get_reviews, find. f_equal.
    apply filter_ext. intros d.
    exact (StripFacts.has_type_matches MongoDocumentType.REVIEW d).
  - intros d k. apply StripFacts.get_strip_metadata_removed.
  - intros d k. apply StripFacts.get_strip_metadata_kept.
  - reflexivity.
Qed.

(** In the stored document of [cafe] the key [business_name] survives the
    stripping and keeps its value. *)
Lemma list_by_type_strips_metadata_witness :
  get (py "business_name")
      (strip_metadata ((py "_id", VObjectId 0) :: BusinessM.to_mongo_document Sample.cafe))
  = Some (VStr (py "Cafe Uno"))
  /\ get (py "unique_id")
      (strip_metadata ((py "_id", VObjectId 0) :: BusinessM.to_mongo_document Sample.cafe))
  = None.
Proof.
  split.
  - rewrite (proj1 (proj2 (proj2 (proj2 list_by_type_strips_metadata)))).
    + reflexivity.
    + cbv [metadata_keys]. simpl. intuition discriminate.
  - apply (proj1 (proj2 (proj2 list_by_type_strips_metadata))).
    cbv [metadata_keys]. simpl. tauto.
Defined.
(* ------------------------------------------------------------------ *)
(** ** [int(float(s))] truncates *)

Module NumFacts.
Import Num.
Local Open Scope N_scope.

Lemma div_half_even_cases (a b : N) :
  b <> 0 ->
  div_half_even a b = a / b
  \/ (div_half_even a b = a / b + 1 /\ b <= 2 * (a mod b)).
Proof.
  intros Hb. unfold div_half_even.
  destruct (2 * (a mod b) <? b) eqn:E1; [now left|].
  apply N.ltb_ge in E1.
  destruct (b <? 2 * (a mod b)) eqn:E2; [right; split; [reflexivity|lia]|].
  destruct (N.even (a / b)); [now left|right; split; [reflexivity|lia]].
Qed.

(** Rounding [n * 2 ^ s / den] to the nearest integer and dropping [s] bits
    gives the integer part of [n / den], as long as [den] is below
    [2 ^ (s + 1)]: the rounding cannot reach the next integer. *)
Lemma round_then_shift (n den s : N) :
  den <> 0 -> den < 2 ^ (s + 1) ->
  div_half_even (n * 2 ^ s) den / 2 ^ s = n / den.
Proof.
  intros Hd Hlt.
  assert (Hp : 2 ^ s <> 0) by (apply N.pow_nonzero; lia).
  assert (Q : n * 2 ^ s / den / 2 ^ s = n / den).
  { rewrite N.Div0.div_div.
    rewrite N.Div0.div_mul_cancel_r by assumption. reflexivity. }
  destruct (div_half_even_cases (n * 2 ^ s) Hd) as [E|[E Hr]]; rewrite E.
  - exact Q.
  - set (a := n * 2 ^ s) in *. set (q := a / den) in *.
    assert (Ha : a = den * q + a mod den) by (apply N.div_mod; assumption).
    assert (Hm : a mod den < den) by (apply N.mod_lt; assumption).
    rewrite <- Q. fold q.
    assert (Hq : q = 2 ^ s * (q / 2 ^ s) + q mod 2 ^ s)
      by (apply N.div_mod; assumption).
    assert (Hqm : q mod 2 ^ s < 2 ^ s) by (apply N.mod_lt; assumption).
    assert (Hlt' : q mod 2 ^ s + 1 < 2 ^ s).
    { destruct (N.lt_ge_cases (q mod 2 ^ s + 1) (2 ^ s)) as [|G]; [assumption|].
      exfalso.
      set (j := q / 2 ^ s) in *.
      assert (Hq1 : q + 1 = 2 ^ s * (j + 1)) by lia.
      assert (Hn : n < (j + 1) * den).
      { apply (N.mul_lt_mono_pos_r (2 ^ s)); [lia|].
        fold a.
        replace ((j + 1) * den * 2 ^ s) with (den * (2 ^ s * (j + 1))) by lia.
        rewrite <- Hq1. lia. }
      assert (H2 : 2 * a + den >= 2 * den * (q + 1)) by lia.
      rewrite Hq1 in H2.
      assert (Hpow : 2 ^ (s + 1) = 2 * 2 ^ s)
        by (rewrite N.add_1_r, N.pow_succ_r'; reflexivity).
      assert (H3 : den + 2 * 2 ^ s * n >= 2 * 2 ^ s * ((j + 1) * den))
        by (unfold a in H2; lia).
      assert (H4 : 2 * 2 ^ s * ((j + 1) * den) >= 2 * 2 ^ s * (n + 1))
        by (apply N.le_ge, N.mul_le_mono_l; lia).
      lia. }
    rewrite Hq at 1.
    replace (2 ^ s * (q / 2 ^ s) + q mod 2 ^ s + 1)
      with ((q mod 2 ^ s + 1) + (q / 2 ^ s) * 2 ^ s) by lia.
    rewrite N.div_add by assumption.
    rewrite (N.div_small _ _ Hlt'). reflexivity.
Qed.

(** Below [2 ^ 53], that is up to fifteen digits, [int(float(s))] is the
    integer part of the number [s] denotes. *)
Lemma int_of_float_truncates (n k : N) :
  n < 2 ^ 53 -> int_of_float n k = Ok (Z.of_N (n / 10 ^ k)).
Proof.
  intros Hn. unfold int_of_float. cbv zeta.
  set (den := 10 ^ k).
  assert (Hd : den <> 0) by (apply N.pow_nonzero; lia).
  destruct (2 * n <? den) eqn:Hsmall.
  - apply N.ltb_lt in Hsmall. rewrite N.div_small by lia. reflexivity.
  - apply N.ltb_ge in Hsmall.
    assert (Hn0 : 0 < n) by lia.
    assert (Hd0 : 0 < den) by lia.
    pose proof (N.log2_spec n Hn0) as [La Ua].
    pose proof (N.log2_spec den Hd0) as [Lb Ub].
    set (a := N.log2 n) in *. set (b := N.log2 den) in *.
    assert (Ha53 : a < 53).
    { apply (N.pow_lt_mono_r_iff 2); [lia|]. lia. }
    set (e0 := (Z.of_N a - Z.of_N b)%Z).
    set (g := if (0 <=? e0)%Z then den * 2 ^ Z.to_N e0 <=? n
              else den <=? n * 2 ^ Z.to_N (- e0)).
    set (e := if g then e0 else (e0 - 1)%Z).
    assert (He : (e <= 52)%Z) by (unfold e, e0; destruct g; lia).
    (* the chosen exponent is not above the quotient *)
    assert (P : if (0 <=? e)%Z then den * 2 ^ Z.to_N e <= n
                else den <= n * 2 ^ Z.to_N (- e)).
    { unfold e. destruct g eqn:G.
      - unfold g in G. destruct (0 <=? e0)%Z; now apply N.leb_le in G.
      - destruct (0 <=? e0 - 1)%Z eqn:S1.
        + apply Z.leb_le in S1.
          replace (Z.to_N (e0 - 1)) with (a - b - 1) by (unfold e0; lia).
          assert (X : 2 ^ a = 2 ^ (b + 1) * 2 ^ (a - b - 1)).
          { rewrite <- N.pow_add_r. f_equal. unfold e0 in S1. lia. }
          rewrite N.add_1_r in X.
          assert (den * 2 ^ (a - b - 1) <= 2 ^ N.succ b * 2 ^ (a - b - 1))
            by (apply N.mul_le_mono_r; lia).
          lia.
        + apply Z.leb_gt in S1.
          replace (Z.to_N (- (e0 - 1))) with (b + 1 - a) by (unfold e0; lia).
          assert (X : 2 ^ (b + 1) = 2 ^ a * 2 ^ (b + 1 - a)).
          { rewrite <- N.pow_add_r. f_equal. unfold e0 in S1. lia. }
          rewrite N.add_1_r in X.
          assert (2 ^ a * 2 ^ (b + 1 - a) <= n * 2 ^ (b + 1 - a))
            by (apply N.mul_le_mono_r; lia).
          lia. }
    assert (Hs : (0 <= 52 - e)%Z) by lia.
    assert (Hs' : (0 <=? 52 - e)%Z = true) by (apply Z.leb_le; lia).
    rewrite Hs'.
    assert (Hov : ((1023 <? e)%Z
                   || ((e =? 1023)%Z
                       && (div_half_even (n * 2 ^ Z.to_N (52 - e)) den =? 2 ^ 53)))%bool
                  = false).
    { apply orb_false_iff. split.
      - apply Z.ltb_ge. lia.
      - apply andb_false_iff. left. apply Z.eqb_neq. lia. }
    rewrite Hov. f_equal. f_equal.
    apply round_then_shift; [assumption|].
    (* den < 2 ^ (53 - e) *)
    destruct (0 <=? e)%Z eqn:S0.
    + apply Z.leb_le in S0.
      assert (X : 2 ^ 53 = 2 ^ (Z.to_N (52 - e) + 1) * 2 ^ Z.to_N e).
      { rewrite <- N.pow_add_r. f_equal. lia. }
      destruct (N.lt_ge_cases den (2 ^ (Z.to_N (52 - e) + 1))) as [|G]; [assumption|].
      exfalso.
      assert (2 ^ (Z.to_N (52 - e) + 1) * 2 ^ Z.to_N e <= den * 2 ^ Z.to_N e)
        by (apply N.mul_le_mono_r; assumption).
      lia.
    + apply Z.leb_gt in S0.
      assert (X : 2 ^ (Z.to_N (52 - e) + 1) = 2 ^ 53 * 2 ^ Z.to_N (- e)).
      { rewrite <- N.pow_add_r. f_equal. lia. }
      rewrite X.
      assert (Hp : 0 < 2 ^ Z.to_N (- e)).
      { apply N.neq_0_lt_0, N.pow_nonzero. lia. }
      assert (n * 2 ^ Z.to_N (- e) < 2 ^ 53 * 2 ^ Z.to_N (- e))
        by (apply N.mul_lt_mono_pos_r; assumption).
      lia.
Qed.

End NumFacts.

(* ------------------------------------------------------------------ *)
(** ** Extraction of reviews *)

Module CardFacts.
Import Bs4 TripAdvisorWebScrapper Card.
Local Open Scope res_scope.

Lemma read_card_fields (card : node) :
  read_card card
  = (u <- reviewer_of card ;;
     d <- review_date_of card ;;
     t <- title_of card ;;
     x <- body_of card ;;
     g <- rating_of card ;;
     v <- visit_date_of card ;;
     Ok (CardFields u d t x g v)).
Proof.
  unfold read_card, reviewer_of, review_date_of, title_of, body_of, rating_of,
    visit_date_of, region.
  repeat match goal with
         | |- context [not_none ?x] => destruct (not_none x); cbn [bind]; try reflexivity
         | |- context [Strptime.month_year ?x] => destruct (Strptime.month_year x); cbn [bind]; try reflexivity
         | |- context [rating_of_label ?x] => destruct (rating_of_label x); cbn [bind]; try reflexivity
         end.
Qed.

Lemma read_card_ok (card : node) :
  well_formed card = true -> exists f, read_card card = Ok f.
Proof.
  unfold well_formed. rewrite read_card_fields.
  destruct (reviewer_of card), (review_date_of card), (title_of card),
    (body_of card), (rating_of card), (visit_date_of card);
    cbn; try discriminate.
  intros _. eexists. reflexivity.
Qed.

Lemma read_card_raise (card : node) :
  well_formed card = false -> exists e, read_card card = Raise e.
Proof.
  unfold well_formed. rewrite read_card_fields.
  destruct (reviewer_of card), (review_date_of card), (title_of card),
    (body_of card), (rating_of card), (visit_date_of card);
    cbn; try discriminate; intros _; eexists; reflexivity.
Qed.

Lemma read_card_built (name url : str) (card : node) (f : card_fields) :
  read_card card = Ok f -> built_from name url card (review_of name url f).
Proof.
  rewrite read_card_fields. unfold built_from, review_of.
  destruct (reviewer_of card), (review_date_of card), (title_of card),
    (body_of card), (rating_of card), (visit_date_of card);
    cbn; try discriminate.
  intros H. inversion H; subst; cbn.
  repeat split; eauto.
Qed.

Lemma reviews_of_cards_readable (cards : list node) (business : list (str * str))
  (name url : str) (acc : list Review) :
  lookup (py "business_name") business = Some name ->
  lookup (py "business_url") business = Some url ->
  reviews_of_cards cards business acc = Ok (acc ++ readable name url cards).
Proof.
  intros Hn Hu. revert acc.
  induction cards as [|card rest IH]; intros acc; cbn [reviews_of_cards readable flat_map].
  - now rewrite app_nil_r.
  - destruct (read_card card) as [f|e].
    + unfold getitem. rewrite Hn, Hu. cbn [bind].
      rewrite IH. unfold readable, review_of. now rewrite <- app_assoc.
    + apply IH.
Qed.

Lemma readable_length (name url : str) (cards : list node) :
  List.length (readable name url cards)
  = List.length cards - List.length (filter malformed cards).
Proof.
  assert (H : List.length (readable name url cards)
              + List.length (filter malformed cards) = List.length cards).
  { induction cards as [|card rest IH]; [reflexivity|].
    cbn [readable flat_map filter]. fold (readable name url rest).
    unfold malformed at 1.
    destruct (well_formed card) eqn:W.
    - apply read_card_ok in W as [f ->]. cbn. lia.
    - apply read_card_raise in W as [e ->]. cbn. lia. }
  lia.
Qed.

Lemma readable_built (name url : str) (cards : list node) :
  Forall2 (built_from name url) (filter well_formed cards)
          (readable name url cards).
Proof.
  induction cards as [|card rest IH]; [constructor|].
  cbn [readable flat_map filter]. fold (readable name url rest).
  destruct (well_formed card) eqn:W.
  - destruct (read_card_ok _ W) as [f Hf]. rewrite Hf. cbn.
    constructor; [now apply read_card_built|exact IH].
  - apply read_card_raise in W as [e ->]. exact IH.
Qed.

(** No match of the rating expression starts at a plain character. *)
Lemma rating_re_plain (c : N) (s : str) :
  plain c = true -> rating_re (c :: s) = [].
Proof.
  unfold plain. intros H. apply negb_true_iff in H.
  unfold rating_re, Match.seq, Match.greedy. cbn [Match.span].
  rewrite H. reflexivity.
Qed.

(** A search passes over a prefix in which no match starts. *)
Lemma search_skips {A : Type} (m : Match.matcher A) (pre s : str) :
  (forall a b : str, pre = a ++ b -> b <> [] -> m (b ++ s) = []) ->
  Match.search m (pre ++ s) = Match.search m s.
Proof.
  induction pre as [|c pre IH]; intros H; [reflexivity|].
  assert (E : m ((c :: pre) ++ s) = []) by (apply (H []); [reflexivity|discriminate]).
  cbn [app] in E |- *. cbn [Match.search]. rewrite E. cbn [hd_error].
  apply IH. intros a b Hab Hb. apply (H (c :: a) b); [now rewrite Hab|exact Hb].
Qed.

Lemma search_rating_plain_prefix (pre s : str) :
  forallb plain pre = true ->
  Match.search rating_re (pre ++ s) = Match.search rating_re s.
Proof.
  induction pre as [|c pre IH]; [reflexivity|].
  cbn [forallb app]. intros H. apply andb_true_iff in H as [Hc Hp].
  cbn [Match.search]. rewrite (@rating_re_plain c _ Hc). cbn [hd_error].
  now apply IH.
Qed.

End CardFacts.

Import Bs4 TripAdvisorWebScrapper Card.

(** C5: on a page with N review cards of which M are malformed (some
    required field missing or unparsable), and for a business dict that has
    its name and address, [get_all_reviews_in_page] returns, without
    raising, N - M reviews: those of the well-formed cards, in order. *)
Theorem per_record_isolation (page : node) (business : list (str * str))
  (name url : str) :
  lookup (py "business_name") business = Some name ->
  lookup (py "business_url") business = Some url ->
  exists reviews : list Review,
    get_all_reviews_in_page page business = Ok reviews
    /\ List.length reviews
       = List.length (review_cards page)
         - List.length (filter malformed (review_cards page))
    /\ Forall2 (built_from name url)
               (filter well_formed (review_cards page)) reviews.
Proof.
  intros Hn Hu. exists (readable name url (review_cards page)).
  split; [|split].
  - unfold get_all_reviews_in_page.
    now rewrite (CardFacts.reviews_of_cards_readable _ _ [] Hn Hu).
  - apply CardFacts.readable_length.
  - apply CardFacts.readable_built.
Qed.

(** A page with three cards, the second with a review date that does not
    parse: two reviews are returned. *)
Lemma per_record_isolation_witness :
  List.length (review_cards Sample.reviews_page) = 3
  /\ List.length (filter malformed (review_cards Sample.reviews_page)) = 1
  /\ exists reviews : list Review,
      get_all_reviews_in_page Sample.reviews_page Sample.cafe_dict = Ok reviews
      /\ List.length reviews
         = List.length (review_cards Sample.reviews_page)
           - List.length (filter malformed (review_cards Sample.reviews_page))
      /\ Forall2 (built_from (py "Cafe Uno") (py "/cafe-uno"))
                 (filter well_formed (review_cards Sample.reviews_page)) reviews.
Proof.
  split; [vm_compute; reflexivity|].
  split; [vm_compute; reflexivity|].
  apply (@per_record_isolation Sample.reviews_page Sample.cafe_dict
           (py "Cafe Uno") (py "/cafe-uno")); reflexivity.
Defined.

(** C7: the review date ["Jan 2023"] is read as 1 January 2023 and the visit
    date ["Written April 3, 2023"] as 3 April 2023, also inside a card; a
    card whose review date or visit date does not parse is skipped and the
    loop goes on with the next card; and the extraction of a page returns
    for every page, whatever its dates. *)
Theorem date_parsing :
  Strptime.month_year (py "Jan 2023") = Ok (Date 2023 1 1)
  /\ Strptime.month_day_year
       (Str.remove_all (py "Written ") (py "Written April 3, 2023"))
     = Ok (Date 2023 4 3)
  /\ review_date_of Sample.good_card = Ok (Date 2023 1 1)
  /\ visit_date_of Sample.good_card = Ok (Date 2023 4 3)
  /\ (forall (card e : node) (x : exn),
      region "div" "RpeCd" card = Ok e ->
      Strptime.month_year (Str.split_first bullet (Str.strip (text e))) = Raise x ->
      forall rest business reviews,
        reviews_of_cards (card :: rest) business reviews
        = reviews_of_cards rest business reviews)
  /\ (forall (card outer e : node) (x : exn),
      region "div" "TreSq" card = Ok outer ->
      region "div" "biGQs _P pZUbB ncFvv osNWb" outer = Ok e ->
      Strptime.month_day_year
        (Str.remove_all (py "Written ") (Str.strip (text e))) = Raise x ->
      forall rest business reviews,
        reviews_of_cards (card :: rest) business reviews
        = reviews_of_cards rest business reviews)
  /\ (forall (page : node) (business : list (str * str)) (name url : str),
      lookup (py "business_name") business = Some name ->
      lookup (py "business_url") business = Some url ->
      exists reviews, get_all_reviews_in_page page business = Ok reviews).
Proof.
  split; [vm_compute; reflexivity|].
  split; [vm_compute; reflexivity|].
  split; [vm_compute; reflexivity|].
  split; [vm_compute; reflexivity|].
  split; [|split].
  - intros card e x He Hx rest business reviews.
    assert (W : well_formed card = false).
    { unfold well_formed, review_date_of. rewrite He. cbn [bind]. rewrite Hx.
      cbn [is_ok]. now rewrite andb_false_r. }
    apply CardFacts.read_card_raise in W as [e' E].
    cbn [reviews_of_cards]. now rewrite E.
  - intros card outer e x Ho He Hx rest business reviews.
    assert (W : well_formed card = false).
    { unfold well_formed, visit_date_of. rewrite Ho. cbn [bind]. rewrite He.
      cbn [bind]. rewrite Hx. cbn [is_ok]. now rewrite andb_false_r. }
    apply CardFacts.read_card_raise in W as [e' E].
    cbn [reviews_of_cards]. now rewrite E.
  - intros page business name url Hn Hu. eexists.
    unfold get_all_reviews_in_page.
    apply (CardFacts.reviews_of_cards_readable _ _ [] Hn Hu).
Qed.

(** The card dated ["January 2023"] is skipped: the review date has no
    short month name. *)
Lemma date_parsing_witness :
  region "div" "RpeCd" Sample.bad_date_card
    = Ok (Sample.el "div" [(py "class", py "RpeCd")] [Text (py "January 2023")])
  /\ Strptime.month_year (Str.split_first bullet (Str.strip (py "January 2023")))
     = Raise ValueError
  /\ reviews_of_cards [Sample.bad_date_card; Sample.other_card] Sample.cafe_dict []
     = reviews_of_cards [Sample.other_card] Sample.cafe_dict [].
Proof.
  split; [vm_compute; reflexivity|].
  split; [vm_compute; reflexivity|].
  apply (proj1 (proj2 (proj2 (proj2 (proj2 date_parsing))))
           Sample.bad_date_card
           (Sample.el "div" [(py "class", py "RpeCd")] [Text (py "January 2023")])
           ValueError);
    vm_compute; reflexivity.
Defined.

(** C8, as the code has it: the rating is read at the first place of the
    label where digits and dots are followed by optional white space and
    [of].  When no such match starts before ["4.7 of 5 bubbles"] in the
    label, as when no digit and no dot comes before it, the rating is [4].
    The value is truncated, not rounded: a numeral of up to fifteen digits
    gives its integer part. *)
Theorem rating_truncation :
  (forall pre post : str,
      (forall a b : str,
          pre = a ++ b -> b <> [] ->
          rating_re (b ++ py "4.7 of 5 bubbles" ++ post) = []) ->
      rating_of_label (Some (pre ++ py "4.7 of 5 bubbles" ++ post)) = Ok 4%Z)
  /\ (forall pre post : str,
      forallb plain pre = true ->
      rating_of_label (Some (pre ++ py "4.7 of 5 bubbles" ++ post)) = Ok 4%Z)
  /\ (forall (s : str) (n k : N),
      Num.decimal s = Some (n, k) ->
      (n < 2 ^ 53)%N ->
      Num.int_float s = Ok (Z.of_N (n / 10 ^ k))).
Proof.
  split; [|split].
  - intros pre post H. unfold rating_of_label.
    rewrite (@CardFacts.search_skips _ rating_re pre _ H).
    vm_compute. reflexivity.
  - intros pre post H. unfold rating_of_label.
    rewrite (CardFacts.search_rating_plain_prefix _ _ H).
    vm_compute. reflexivity.
  - intros s n k D Hn. unfold Num.int_float. rewrite D.
    now apply NumFacts.int_of_float_truncates.
Qed.

Lemma rating_truncation_witness :
  rating_of_label (Some (py "Rated " ++ py "4.7 of 5 bubbles" ++ py " by ann"))
  = Ok 4%Z
  /\ Num.int_float (py "4.7") = Ok (Z.of_N (47 / 10 ^ 1)).
Proof.
  split.
  - apply (proj1 (proj2 rating_truncation) (py "Rated ") (py " by ann")).
    vm_compute. reflexivity.
  - apply (proj2 (proj2 rating_truncation) (py "4.7") 47%N 1%N).
    + vm_compute. reflexivity.
    + vm_compute. reflexivity.
Defined.

(** C8, as stated, fails: the label ["14.7 of 5 bubbles"] contains
    ["4.7 of 5 bubbles"], and its rating is [14]; so does
    ["1 of 4.7 of 5 bubbles"], and its rating is [1]. *)
Lemma rating_of_longer_number :
  rating_of_label (Some (py "1" ++ py "4.7 of 5 bubbles")) = Ok 14%Z
  /\ rating_of_label (Some (py "1 of " ++ py "4.7 of 5 bubbles")) = Ok 1%Z.
Proof. split; vm_compute; reflexivity. Qed.

(* ------------------------------------------------------------------ *)
(** ** The crawl loops on a sequence of pages *)

Module CrawlFacts.
Import Pages.

Lemma first_next_page_labelled (l : list node) :
  forallb has_label l = true ->
  first_next_page l = Ok (hd_error (filter is_next l)).
Proof.
  induction l as [|a l IH]; [reflexivity|].
  cbn [forallb first_next_page filter]. intros H.
  apply andb_true_iff in H as [Ha Hl].
  unfold has_label, is_next, Bs4.get in *. unfold Bs4.item, getitem.
  destruct (lookup (py "aria-label") (attrs_of a)) as [lbl|]; [|discriminate].
  cbn [bind]. destruct (Str.eqb lbl (py "Next page")); [reflexivity|].
  now apply IH.
Qed.

Lemma find_next_page_arrow_labelled (p : node) :
  forallb has_label (arrows p) = true ->
  find_next_page_arrow p = Ok (hd_error (next_links p)).
Proof. apply first_next_page_labelled. Qed.

Lemma linked_head (w : Selenium.site) (u : str) (p : node)
  (rest : list (str * node)) :
  linked w ((u, p) :: rest) -> w u = Some p.
Proof. intros H; inversion H; assumption. Qed.

Lemma linked_functional (w : Selenium.site) (l1 : list (str * node)) :
  linked w l1 -> forall l2, linked w l2 -> first_url l1 = first_url l2 -> l1 = l2.
Proof.
  induction 1 as [u p Hw Hn|u p a h u' p' rest Hw Ha Hh Hu Hl IH];
    intros l2 H2 E; inversion H2 as [v q Hw2 Hn2|v q a2 h2 v' q' rest2 Hw2 Ha2 Hh2 Hv Hl2];
    subst; cbn in E; inversion E; subst; rewrite Hw in Hw2; inversion Hw2; subst.
  - reflexivity.
  - rewrite Hn in Ha2. discriminate.
  - rewrite Hn2 in Ha. discriminate.
  - rewrite Ha in Ha2. inversion Ha2; subst. rewrite Hh in Hh2. inversion Hh2; subst.
    f_equal. apply IH; [exact Hl2|reflexivity].
Qed.

Lemma linked_suffix (w : Selenium.site) (a : list (str * node)) (x : str * node)
  (b : list (str * node)) :
  linked w (a ++ x :: b) -> linked w (x :: b).
Proof.
  induction a as [|y a IH]; [trivial|].
  intros H. apply IH. inversion H; subst.
  - destruct a; discriminate.
  - assumption.
Qed.

(** No address occurs twice in a sequence: no page is loaded again. *)
Lemma linked_nodup (w : Selenium.site) (ps : list (str * node)) :
  linked w ps -> NoDup (map fst ps).
Proof.
  induction ps as [|[u p] rest IH]; intros H; [constructor|].
  cbn [map fst]. constructor.
  - intros HI. apply in_map_iff in HI as ([u2 p2] & E & HI). cbn in E. subst u2.
    apply in_split in HI as (a & b & ->).
    pose proof (linked_suffix ((u, p) :: a) (u, p2) b H) as S.
    pose proof (linked_functional H S eq_refl) as F.
    apply (f_equal (@List.length _)) in F.
    cbn [List.length] in F. rewrite length_app in F. cbn [List.length] in F. lia.
  - destruct rest as [|x rest]; [constructor|].
    apply IH. apply (linked_suffix [(u, p)] x rest H).
Qed.

(** The loops that store what a page gave. *)
Lemma store_businesses_cons (b : Business) (l acc : list Business)
  (c : Mongo.collection) :
  store_businesses (b :: l) acc c
  = match TripAdvisorMongoClient.insert_business b c with
    | (Raise e, c1) => (acc ++ [b], c1, Some e)
    | (Ok _, c1) => store_businesses l (acc ++ [b]) c1
    end.
Proof. reflexivity. Qed.

Lemma store_reviews_cons (r : Review) (l acc : list Review)
  (c : Mongo.collection) :
  store_reviews (r :: l) acc c
  = match TripAdvisorMongoClient.insert_review r c with
    | (Raise e, c1) => (acc, c1, Some e)
    | (Ok _, c1) => store_reviews l (acc ++ [r]) c1
    end.
Proof. reflexivity. Qed.

(** The list in hand does not bear on what the loop does. *)
Lemma store_businesses_acc (l : list Business) :
  forall (acc : list Business) (c : Mongo.collection),
    store_businesses l acc c
    = let '(l1, c1, s) := store_businesses l [] c in (acc ++ l1, c1, s).
Proof.
  induction l as [|b l IH]; intros acc c.
  - cbn [store_businesses]. now rewrite app_nil_r.
  - rewrite !store_businesses_cons.
    destruct (TripAdvisorMongoClient.insert_business b c) as [[r|e] c1];
      [|reflexivity].
    rewrite (IH (acc ++ [b])), (IH ([] ++ [b])).
    destruct (store_businesses l [] c1) as [[l1 c2] s]. cbn [app].
    now rewrite <- app_assoc.
Qed.

Lemma store_reviews_acc (l : list Review) :
  forall (acc : list Review) (c : Mongo.collection),
    store_reviews l acc c
    = let '(l1, c1, s) := store_reviews l [] c in (acc ++ l1, c1, s).
Proof.
  induction l as [|r l IH]; intros acc c.
  - cbn [store_reviews]. now rewrite app_nil_r.
  - rewrite !store_reviews_cons.
    destruct (TripAdvisorMongoClient.insert_review r c) as [[x|e] c1];
      [|now rewrite app_nil_r].
    rewrite (IH (acc ++ [r])), (IH ([] ++ [r])).
    destruct (store_reviews l [] c1) as [[l1 c2] s]. cbn [app].
    now rewrite <- app_assoc.
Qed.

(** An insert of a record that can be stored does not raise. *)
Lemma insert_business_returns (b : Business) (c : Mongo.collection) :
  Spec.storable_business b = true ->
  exists r, fst (TripAdvisorMongoClient.insert_business b c) = Ok r.
Proof.
  intros S. rewrite (@MongoFacts.insert_business_storable b c S).
  destruct (Mongo.find _ c); eexists; reflexivity.
Qed.

Lemma insert_review_returns (r : Review) (c : Mongo.collection) :
  Spec.storable_review r = true ->
  exists x, fst (TripAdvisorMongoClient.insert_review r c) = Ok x.
Proof.
  intros S. rewrite (@MongoFacts.insert_review_storable r c S).
  destruct (Mongo.find _ c); eexists; reflexivity.
Qed.

(** Records that can be stored are stored, all of them, and appended. *)
Lemma store_businesses_storable (l : list Business) :
  forallb Spec.storable_business l = true ->
  forall (acc : list Business) (c : Mongo.collection),
    store_businesses l acc c = (acc ++ l, with_businesses l c, None).
Proof.
  unfold with_businesses.
  induction l as [|b l IH]; intros S acc c.
  - cbn [store_businesses fst snd]. now rewrite app_nil_r.
  - cbn [forallb] in S. apply andb_true_iff in S as [Sb Sl].
    rewrite !store_businesses_cons.
    destruct (@insert_business_returns b c Sb) as [r E].
    destruct (TripAdvisorMongoClient.insert_business b c) as [[x|e] c1];
      [|discriminate].
    rewrite (IH Sl (acc ++ [b]) c1), (IH Sl ([] ++ [b]) c1). cbn [fst snd].
    now rewrite <- app_assoc.
Qed.

Lemma store_reviews_storable (l : list Review) :
  forallb Spec.storable_review l = true ->
  forall (acc : list Review) (c : Mongo.collection),
    store_reviews l acc c = (acc ++ l, with_reviews l c, None).
Proof.
  unfold with_reviews.
  induction l as [|r l IH]; intros S acc c.
  - cbn [store_reviews fst snd]. now rewrite app_nil_r.
  - cbn [forallb] in S. apply andb_true_iff in S as [Sr Sl].
    rewrite !store_reviews_cons.
    destruct (@insert_review_returns r c Sr) as [x E].
    destruct (TripAdvisorMongoClient.insert_review r c) as [[y|e] c1];
      [|discriminate].
    rewrite (IH Sl (acc ++ [r]) c1), (IH Sl ([] ++ [r]) c1). cbn [fst snd].
    now rewrite <- app_assoc.
Qed.

Lemma with_businesses_app (l1 l2 : list Business) (c : Mongo.collection) :
  forallb Spec.storable_business l1 = true ->
  with_businesses (l1 ++ l2) c = with_businesses l2 (with_businesses l1 c).
Proof.
  unfold with_businesses. revert c.
  induction l1 as [|b l1 IH]; intros c S; [reflexivity|].
  cbn [forallb] in S. apply andb_true_iff in S as [Sb Sl].
  cbn [app]. rewrite !store_businesses_cons.
  destruct (@insert_business_returns b c Sb) as [r E].
  destruct (TripAdvisorMongoClient.insert_business b c) as [[x|e] c1];
    [|discriminate].
  rewrite (store_businesses_acc (l1 ++ l2) ([] ++ [b])).
  rewrite (store_businesses_acc l1 ([] ++ [b])).
  specialize (IH c1 Sl).
  destruct (store_businesses (l1 ++ l2) [] c1) as [[x1 y1] z1].
  destruct (store_businesses l1 [] c1) as [[x2 y2] z2].
  cbn [fst snd] in *. exact IH.
Qed.

Lemma with_reviews_app (l1 l2 : list Review) (c : Mongo.collection) :
  forallb Spec.storable_review l1 = true ->
  with_reviews (l1 ++ l2) c = with_reviews l2 (with_reviews l1 c).
Proof.
  unfold with_reviews. revert c.
  induction l1 as [|r l1 IH]; intros c S; [reflexivity|].
  cbn [forallb] in S. apply andb_true_iff in S as [Sr Sl].
  cbn [app]. rewrite !store_reviews_cons.
  destruct (@insert_review_returns r c Sr) as [x E].
  destruct (TripAdvisorMongoClient.insert_review r c) as [[y|e] c1];
    [|discriminate].
  rewrite (store_reviews_acc (l1 ++ l2) ([] ++ [r])).
  rewrite (store_reviews_acc l1 ([] ++ [r])).
  specialize (IH c1 Sl).
  destruct (store_reviews (l1 ++ l2) [] c1) as [[x1 y1] z1].
  destruct (store_reviews l1 [] c1) as [[x2 y2] z2].
  cbn [fst snd] in *. exact IH.
Qed.

(** The loop of [get_and_store_businesses], started on the first page of a
    sequence whose pages raise nothing. *)
Lemma businesses_loop_linked (w : Selenium.site) (ps : list (str * node)) :
  linked w ps ->
  forallb listing_ok (pages_of ps) = true ->
  forallb businesses_storable (pages_of ps) = true ->
  forall (fuel : nat) (acc : list Business) (d0 : node) (vis : list str)
         (c : Mongo.collection),
    List.length ps <= fuel ->
    businesses_loop fuel w acc
      (Scrapper (Selenium.WebDriver (snd (hd ([], d0) ps)) vis) c)
    = Some (acc ++ flat_map businesses_on (pages_of ps),
            Scrapper (Selenium.WebDriver (last_page d0 ps) (vis ++ map fst (tl ps)))
                     (with_businesses (flat_map businesses_on (pages_of ps)) c)).
Proof.
  induction 1 as [u p Hw Hn|u p a h u' p' rest Hw Ha Hh Hu Hl IH];
    intros Hok Hst fuel acc d0 vis c Hf.
  - destruct fuel as [|fuel]; [cbn in Hf; lia|].
    cbn [pages_of map forallb snd] in Hok, Hst.
    rewrite andb_true_r in Hok, Hst.
    apply andb_true_iff in Hok as [Hb Hlab].
    destruct (get_all_business_in_page p) as [found|] eqn:G; [|discriminate].
    assert (Bp : businesses_on p = found)
      by (unfold businesses_on; now rewrite G).
    unfold businesses_storable in Hst. rewrite Bp in Hst.
    cbn [businesses_loop hd snd]. unfold businesses_turn.
    cbn [web_driver Selenium.page_source trip_advisor_mongo_client].
    cbn [pages_of map flat_map snd]. rewrite G, Bp.
    rewrite (@store_businesses_storable _ Hst).
    rewrite (find_next_page_arrow_labelled _ Hlab), Hn. cbn [hd_error].
    unfold last_page. cbn [last snd tl map]. now rewrite !app_nil_r.
  - destruct fuel as [|fuel]; [cbn in Hf; lia|].
    assert (Hok' : forallb listing_ok (pages_of ((u', p') :: rest)) = true).
    { cbn [pages_of map forallb] in *. apply andb_true_iff in Hok. tauto. }
    assert (Hst' : forallb businesses_storable (pages_of ((u', p') :: rest))
                   = true).
    { cbn [pages_of map forallb] in *. apply andb_true_iff in Hst. tauto. }
    cbn [pages_of map forallb snd] in Hok, Hst.
    apply andb_true_iff in Hok as [Hok _]. apply andb_true_iff in Hst as [Hst _].
    apply andb_true_iff in Hok as [Hb Hlab].
    destruct (get_all_business_in_page p) as [found|] eqn:G; [|discriminate].
    assert (Bp : businesses_on p = found)
      by (unfold businesses_on; now rewrite G).
    unfold businesses_storable in Hst. rewrite Bp in Hst.
    cbn [businesses_loop hd snd]. unfold businesses_turn.
    cbn [web_driver Selenium.page_source trip_advisor_mongo_client].
    pose proof (IH Hok' Hst' fuel) as IH'.
    cbn [pages_of map flat_map snd] in *. rewrite G, Bp.
    rewrite (@store_businesses_storable _ Hst).
    rewrite (find_next_page_arrow_labelled _ Hlab), Ha.
    unfold Bs4.item, getitem. unfold Bs4.get in Hh. rewrite Hh.
    unfold Selenium.get. rewrite <- Hu, (linked_head Hl).
    cbn [web_driver Selenium.visited trip_advisor_mongo_client].
    specialize (IH' (acc ++ found) d0 (vis ++ [u'])
                    (with_businesses found c)).
    cbn [hd snd] in IH'. rewrite IH' by (cbn [List.length] in Hf |- *; lia).
    unfold last_page. cbn [tl map fst last].
    rewrite <- !app_assoc, (@with_businesses_app found _ _ Hst). reflexivity.
Qed.

(** The loop of [get_and_store_reviews] on the review pages of one
    business. *)
Lemma reviews_loop_linked (w : Selenium.site) (business : list (str * str))
  (name url : str) (ps : list (str * node)) :
  lookup (py "business_name") business = Some name ->
  lookup (py "business_url") business = Some url ->
  linked w ps ->
  forallb controls_ok (pages_of ps) = true ->
  forallb (reviews_storable business) (pages_of ps) = true ->
  forall (fuel : nat) (acc : list Review) (d0 : node) (vis : list str)
         (c : Mongo.collection),
    List.length ps <= fuel ->
    reviews_loop fuel w business acc
      (Scrapper (Selenium.WebDriver (snd (hd ([], d0) ps)) vis) c)
    = Some (Ok (acc ++ flat_map (reviews_on business) (pages_of ps)),
            Scrapper (Selenium.WebDriver (last_page d0 ps) (vis ++ map fst (tl ps)))
                     (with_reviews (flat_map (reviews_on business) (pages_of ps)) c)).
Proof.
  intros Hname Hurl.
  assert (R : forall p, get_all_reviews_in_page p business
                        = Ok (reviews_on business p)).
  { intros p. unfold reviews_on, get_all_reviews_in_page.
    now rewrite (CardFacts.reviews_of_cards_readable _ _ [] Hname Hurl). }
  induction 1 as [u p Hw Hn|u p a h u' p' rest Hw Ha Hh Hu Hl IH];
    intros Hok Hst fuel acc d0 vis c Hf.
  - destruct fuel as [|fuel]; [cbn in Hf; lia|].
    cbn [pages_of map forallb snd] in Hok, Hst.
    rewrite andb_true_r in Hok, Hst.
    cbn [reviews_loop hd snd]. unfold reviews_turn.
    cbn [web_driver Selenium.page_source trip_advisor_mongo_client].
    cbn [pages_of map flat_map snd]. rewrite R.
    rewrite (@store_reviews_storable _ Hst).
    rewrite (find_next_page_arrow_labelled _ Hok), Hn. cbn [hd_error].
    unfold last_page. cbn [last snd tl map]. now rewrite !app_nil_r.
  - destruct fuel as [|fuel]; [cbn in Hf; lia|].
    cbn [pages_of map forallb snd] in Hok, Hst.
    apply andb_true_iff in Hok as [Hlab Hok'].
    apply andb_true_iff in Hst as [Hst Hst'].
    cbn [reviews_loop hd snd]. unfold reviews_turn.
    cbn [web_driver Selenium.page_source trip_advisor_mongo_client].
    pose proof (IH Hok' Hst' fuel) as IH'.
    cbn [pages_of map flat_map snd] in *. rewrite R.
    rewrite (@store_reviews_storable _ Hst).
    rewrite (find_next_page_arrow_labelled _ Hlab), Ha.
    unfold Bs4.item, getitem. unfold Bs4.get in Hh. rewrite Hh.
    unfold Selenium.get. rewrite <- Hu, (linked_head Hl).
    cbn [web_driver Selenium.visited trip_advisor_mongo_client].
    specialize (IH' (acc ++ reviews_on business p) d0 (vis ++ [u'])
                    (with_reviews (reviews_on business p) c)).
    cbn [hd snd] in IH'. rewrite IH' by (cbn [List.length] in Hf |- *; lia).
    unfold last_page. cbn [tl map fst last].
    rewrite <- !app_assoc, (@with_reviews_app (reviews_on business p) _ _ Hst).
    reflexivity.
Qed.

(** The outer loop of [get_and_store_reviews] over businesses whose review
    pages are sequences. *)
Lemma reviews_of_businesses_linked (w : Selenium.site) (fuel : nat)
  (businesses : list (list (str * str))) (chains : list (list (str * node))) :
  Forall2 (fun b ps => (exists name, reviewed w b name ps)
                       /\ List.length ps <= fuel) businesses chains ->
  forall (acc : list Review) (self : scrapper),
  exists self' : scrapper,
    reviews_of_businesses fuel w businesses acc self
    = Some (Ok (acc ++ all_reviews businesses chains), self').
Proof.
  induction 1
    as [|b ps bs pss [[name (Hn & (url & Hu & Hs) & Hl & Hok & Hst)] Hf] _ IH];
    intros acc self.
  - exists self. cbn. now rewrite app_nil_r.
  - destruct ps as [|[u p] rest]; [inversion Hl|].
    cbn in Hs. inversion Hs; subst u.
    cbn [reviews_of_businesses]. unfold getitem. rewrite Hu.
    unfold Selenium.get. rewrite (linked_head Hl).
    destruct self as [[src vis] c].
    cbn [web_driver Selenium.visited trip_advisor_mongo_client].
    pose proof (@reviews_loop_linked w b name url _ Hn Hu Hl Hok Hst fuel acc p
                  (vis ++ [url]) c Hf) as L.
    cbn [hd snd] in L. rewrite L.
    destruct (IH (acc ++ flat_map (reviews_on b) (pages_of ((url, p) :: rest)))
                 (Scrapper
                    (Selenium.WebDriver (last_page p ((url, p) :: rest))
                       ((vis ++ [url]) ++ map fst (tl ((url, p) :: rest))))
                    (with_reviews
                       (flat_map (reviews_on b) (pages_of ((url, p) :: rest))) c)))
      as [self' E].
    exists self'. rewrite E. unfold all_reviews. cbn [combine flat_map fst snd].
    now rewrite <- app_assoc.
Qed.

(** What the loop appends: every record, or, when an insert raises, the
    records up to the one whose insert raised, that one included for
    businesses and left out for reviews. *)
Lemma store_businesses_appended (l : list Business) (c : Mongo.collection) :
  (exists c', store_businesses l [] c = (l, c', None))
  \/ (exists pre b post e c',
         l = pre ++ b :: post
         /\ store_businesses l [] c = (pre ++ [b], c', Some e)).
Proof.
  revert c. induction l as [|b l IH]; intros c.
  - left. now exists c.
  - rewrite store_businesses_cons.
    destruct (TripAdvisorMongoClient.insert_business b c) as [[x|e] c1].
    + rewrite store_businesses_acc.
      destruct (IH c1) as [[c' E]|(pre & b' & post & e & c' & Hl & E)]; rewrite E.
      * left. now exists c'.
      * right. exists (b :: pre), b', post, e, c'. split; [now rewrite Hl|reflexivity].
    + right. exists [], b, l, e, c1. split; reflexivity.
Qed.

Lemma store_reviews_appended (l : list Review) (c : Mongo.collection) :
  (exists c', store_reviews l [] c = (l, c', None))
  \/ (exists pre r post e c',
         l = pre ++ r :: post
         /\ store_reviews l [] c = (pre, c', Some e)).
Proof.
  revert c. induction l as [|r l IH]; intros c.
  - left. now exists c.
  - rewrite store_reviews_cons.
    destruct (TripAdvisorMongoClient.insert_review r c) as [[x|e] c1].
    + rewrite store_reviews_acc.
      destruct (IH c1) as [[c' E]|(pre & r' & post & e & c' & Hl & E)]; rewrite E.
      * left. now exists c'.
      * right. exists (r :: pre), r', post, e, c'. split; [now rewrite Hl|reflexivity].
    + right. exists [], r, l, e, c1. split; reflexivity.
Qed.

Lemma listing_pages_storable :
  forallb businesses_storable (pages_of Sample.listing_pages) = true.
Proof. vm_compute. reflexivity. Qed.

Lemma listing_pages_linked : linked Sample.listing_site Sample.listing_pages.
Proof.
  eapply linked_next with (a := Sample.arrow (py "Next page") (py "/Restaurants-p2"));
    [reflexivity|vm_compute; reflexivity|reflexivity|vm_compute; reflexivity|].
  apply linked_last; [reflexivity|vm_compute; reflexivity].
Qed.

End CrawlFacts.

Import Pages.

(** C6, as the code has it: on a sequence of pages in which every page but
    the last has a link labelled ["Next page"], leading to the page after
    it, and whose pages are processed without an exception (the business
    cards can be read, the arrows carry a label, the records can be
    stored), the pagination loop returns, having loaded the pages once
    each, in the order of the links, and stands on the last page: so for
    [get_and_store_businesses] on listing pages, and so for
    [get_and_store_reviews] on the review pages of a business.  No address
    occurs twice in such a sequence.  On a page whose arrows carry a label,
    the link followed is the first arrow whose label is ["Next page"],
    wherever it stands among the arrows. *)
Theorem pagination_visits_each_page_once :
  (forall (w : Selenium.site) (ps : list (str * node)) (self : scrapper)
          (start : str),
      linked w ps ->
      first_url ps = Some start ->
      forallb listing_ok (pages_of ps) = true ->
      forallb businesses_storable (pages_of ps) = true ->
      forall fuel : nat,
        List.length ps <= fuel ->
        exists (businesses : list Business) (self' : scrapper),
          get_and_store_businesses fuel w self start = Some (Ok businesses, self')
          /\ Selenium.visited (web_driver self')
             = Selenium.visited (web_driver self) ++ map fst ps
          /\ Selenium.page_source (web_driver self')
             = last_page (Selenium.page_source (web_driver self)) ps)
  /\ (forall (w : Selenium.site) (business : list (str * str)) (name : str)
             (ps : list (str * node)) (self : scrapper),
      reviewed w business name ps ->
      forall fuel : nat,
        List.length ps <= fuel ->
        exists (reviews : list Review) (self' : scrapper),
          get_and_store_reviews fuel w self [business] = Some (Ok reviews, self')
          /\ Selenium.visited (web_driver self')
             = Selenium.visited (web_driver self) ++ map fst ps
          /\ Selenium.page_source (web_driver self')
             = last_page (Selenium.page_source (web_driver self)) ps)
  /\ (forall (w : Selenium.site) (ps : list (str * node)),
      linked w ps -> NoDup (map fst ps))
  /\ (forall p : node,
      forallb has_label (arrows p) = true ->
      find_next_page_arrow p = Ok (hd_error (filter is_next (arrows p)))).
Proof.
  split; [|split; [|split]].
  - intros w ps self start Hl Hs Hok Hst fuel Hf.
    destruct ps as [|[u p] rest]; [inversion Hl|].
    cbn in Hs. inversion Hs; subst u.
    unfold get_and_store_businesses, Selenium.get.
    rewrite (CrawlFacts.linked_head Hl).
    pose proof (CrawlFacts.businesses_loop_linked Hl Hok Hst []
                  (Selenium.page_source (web_driver self))
                  (Selenium.visited (web_driver self) ++ [start])
                  (trip_advisor_mongo_client self) Hf) as L.
    cbn [hd snd] in L. rewrite L.
    eexists. eexists. split; [reflexivity|].
    cbn [web_driver Selenium.visited Selenium.page_source tl map fst].
    split; [now rewrite <- app_assoc|reflexivity].
  - intros w business name ps self (Hn & (url & Hu & Hs) & Hl & Hok & Hst) fuel Hf.
    destruct ps as [|[u p] rest]; [inversion Hl|].
    cbn in Hs. inversion Hs; subst u.
    unfold get_and_store_reviews. cbn [reviews_of_businesses].
    unfold getitem. rewrite Hu. unfold Selenium.get.
    rewrite (CrawlFacts.linked_head Hl).
    pose proof (@CrawlFacts.reviews_loop_linked w business name url _ Hn Hu Hl Hok
                  Hst fuel [] (Selenium.page_source (web_driver self))
                  (Selenium.visited (web_driver self) ++ [url])
                  (trip_advisor_mongo_client self) Hf) as L.
    cbn [hd snd] in L. rewrite L.
    eexists. eexists. split; [reflexivity|].
    cbn [web_driver Selenium.visited Selenium.page_source tl map fst].
    split; [now rewrite <- app_assoc|reflexivity].
  - intros w ps. apply CrawlFacts.linked_nodup.
  - intros p. apply CrawlFacts.find_next_page_arrow_labelled.
Qed.

(** The listing of two pages: both are loaded, once each, and the crawl
    ends on the second, whose only arrow, the first on the page, is
    labelled ["Previous page"]. *)
Lemma pagination_visits_each_page_once_witness :
  exists (businesses : list Business) (self' : scrapper),
    get_and_store_businesses 2 Sample.listing_site Sample.fresh Sample.listing_url
    = Some (Ok businesses, self')
    /\ Selenium.visited (web_driver self')
       = [] ++ [Sample.listing_url; Sample.listing_url_2]
    /\ Selenium.page_source (web_driver self')
       = last_page (Selenium.page_source Sample.blank) Sample.listing_pages.
Proof.
  apply (proj1 pagination_visits_each_page_once Sample.listing_site
           Sample.listing_pages Sample.fresh Sample.listing_url
           CrawlFacts.listing_pages_linked eq_refl eq_refl
           CrawlFacts.listing_pages_storable 2).
  cbn. lia.
Defined.

(** C6, as stated, fails: in the sequence of two pages below only the last
    page lacks a link labelled ["Next page"], and the crawl loads the first
    page only; its second card cannot be read, which ends the loop with an
    empty list. *)
Lemma pagination_stops_at_an_unreadable_card :
  linked Sample2.broken_listing_site Sample2.broken_listing_pages
  /\ next_links (last_page Sample.listing_1 Sample2.broken_listing_pages) = []
  /\ exists self' : scrapper,
      get_and_store_businesses 2 Sample2.broken_listing_site Sample.fresh
        Sample.listing_url = Some (Ok [], self')
      /\ Selenium.visited (web_driver self') = [Sample.listing_url].
Proof.
  split; [|split].
  - eapply linked_next
      with (a := Sample.arrow (py "Next page") (py "/Restaurants-p2"));
      [reflexivity|vm_compute; reflexivity|reflexivity|vm_compute; reflexivity|].
    apply linked_last; [reflexivity|vm_compute; reflexivity].
  - vm_compute. reflexivity.
  - eexists. split; vm_compute; reflexivity.
Qed.

(** C10, as the code has it: when no insert raises, every record read from
    a page is appended to the list, whatever the inserts return.  So the
    list a crawl returns holds every record read from every page, whatever
    the collection held before: for the listing crawl on a sequence of
    pages, and for the review crawl over businesses whose review pages
    are sequences, when the pages are processed without an exception and
    the records can be stored.  On the sample listing the same business is
    listed twice: it is twice in the returned list and once in the
    collection; a second crawl returns the same list and writes nothing. *)
Theorem returned_list_keeps_every_record :
  (forall (found acc l : list Business) (c c' : collection),
      store_businesses found acc c = (l, c', None) -> l = acc ++ found)
  /\ (forall (found acc l : list Review) (c c' : collection),
      store_reviews found acc c = (l, c', None) -> l = acc ++ found)
  /\ (forall (w : Selenium.site) (ps : list (str * node)) (self : scrapper)
          (start : str) (fuel : nat),
      linked w ps ->
      first_url ps = Some start ->
      forallb listing_ok (pages_of ps) = true ->
      forallb businesses_storable (pages_of ps) = true ->
      List.length ps <= fuel ->
      exists self' : scrapper,
        get_and_store_businesses fuel w self start
        = Some (Ok (flat_map businesses_on (pages_of ps)), self')
        /\ trip_advisor_mongo_client self'
           = with_businesses (flat_map businesses_on (pages_of ps))
                             (trip_advisor_mongo_client self))
  /\ (forall (w : Selenium.site) (fuel : nat)
             (businesses : list (list (str * str)))
             (chains : list (list (str * node))) (self : scrapper),
      Forall2 (fun b ps => (exists name, reviewed w b name ps)
                           /\ List.length ps <= fuel) businesses chains ->
      exists self' : scrapper,
        get_and_store_reviews fuel w self businesses
        = Some (Ok (all_reviews businesses chains), self'))
  /\ (exists self' : scrapper,
        get_and_store_businesses 2 Sample.listing_site Sample.fresh
          Sample.listing_url = Some (Ok Sample.listed, self')
        /\ List.length (documents (trip_advisor_mongo_client self')) = 4
        /\ List.length
             (Mongo.find (by_hash (BusinessM.get_object_hash Sample.cafe_listed))
                   (trip_advisor_mongo_client self')) = 1
        /\ exists self'' : scrapper,
            get_and_store_businesses 2 Sample.listing_site self'
              Sample.listing_url = Some (Ok Sample.listed, self'')
            /\ trip_advisor_mongo_client self'' = trip_advisor_mongo_client self').
Proof.
  split; [|split; [|split; [|split]]].
  - intros found acc l c c' H.
    rewrite CrawlFacts.store_businesses_acc in H.
    destruct (CrawlFacts.store_businesses_appended found c)
      as [[c1 E]|(pre & b & post & e & c1 & Hf & E)];
      rewrite E in H; inversion H; reflexivity.
  - intros found acc l c c' H.
    rewrite CrawlFacts.store_reviews_acc in H.
    destruct (CrawlFacts.store_reviews_appended found c)
      as [[c1 E]|(pre & r & post & e & c1 & Hf & E)];
      rewrite E in H; inversion H; reflexivity.
  - intros w ps self start fuel Hl Hs Hok Hst Hf.
    destruct ps as [|[u p] rest]; [inversion Hl|].
    cbn in Hs. inversion Hs; subst u.
    unfold get_and_store_businesses, Selenium.get.
    rewrite (CrawlFacts.linked_head Hl).
    pose proof (CrawlFacts.businesses_loop_linked Hl Hok Hst []
                  (Selenium.page_source (web_driver self))
                  (Selenium.visited (web_driver self) ++ [start])
                  (trip_advisor_mongo_client self) Hf) as L.
    cbn [hd snd] in L. rewrite L.
    eexists. split; reflexivity.
  - intros w fuel businesses chains self H.
    apply (CrawlFacts.reviews_of_businesses_linked H [] self).
  - eexists. split; [vm_compute; reflexivity|].
    split; [vm_compute; reflexivity|].
    split; [vm_compute; reflexivity|].
    eexists. split; vm_compute; reflexivity.
Qed.

(** The crawl of the sample listing returns the records of both pages. *)
Lemma returned_list_keeps_every_record_witness :
  exists self' : scrapper,
    get_and_store_businesses 2 Sample.listing_site Sample.fresh Sample.listing_url
    = Some (Ok (flat_map businesses_on (pages_of Sample.listing_pages)), self')
    /\ trip_advisor_mongo_client self'
       = with_businesses (flat_map businesses_on (pages_of Sample.listing_pages))
                         (trip_advisor_mongo_client Sample.fresh).
Proof.
  apply (proj1 (proj2 (proj2 returned_list_keeps_every_record))
           Sample.listing_site
           Sample.listing_pages Sample.fresh Sample.listing_url 2
           CrawlFacts.listing_pages_linked eq_refl eq_refl
           CrawlFacts.listing_pages_storable).
  cbn. lia.
Defined.

(** C10, as stated, fails: the review of the page below is read, with the
    rating [2 ^ 63] that its label gives; its insert raises
    [OverflowError], neither [True] nor [False], and the crawl raises with
    it: no list is returned, and nothing is stored. *)
Lemma large_rating_ends_the_review_crawl :
  (exists r : Review,
      get_all_reviews_in_page Sample2.loud_page Sample.cafe_business = Ok [r]
      /\ review_rating r = (2 ^ 63)%Z)
  /\ exists self' : scrapper,
      get_and_store_reviews 2 Sample2.loud_site Sample.fresh
        [Sample.cafe_business] = Some (Raise OverflowError, self')
      /\ documents (trip_advisor_mongo_client self') = [].
Proof.
  split.
  - eexists. split; vm_compute; reflexivity.
  - eexists. split; vm_compute; reflexivity.
Qed.

(** C2 fails for the review crawl: nothing catches what a page raises.
    When the second review page fails to load, [get_and_store_reviews]
    raises, after storing the review of the first page, and returns no
    list; so it does when an arrow has no label.  The listing crawl on a
    site whose second page fails to load returns the three businesses of
    the first page, as it returns what it has whenever a turn of its loop
    raises. *)
Theorem reviews_crawl_propagates :
  (exists self' : scrapper,
      get_and_store_reviews 2 Sample.broken_site Sample.fresh
        [Sample.cafe_business] = Some (Raise WebDriverException, self')
      /\ List.length (documents (trip_advisor_mongo_client self')) = 1)
  /\ (exists self' : scrapper,
      get_and_store_reviews 2 Sample.unlabelled_site Sample.fresh
        [Sample.cafe_business] = Some (Raise KeyError, self'))
  /\ (exists (l : list Business) (self' : scrapper),
      get_and_store_businesses 2 Sample.half_site Sample.fresh
        Sample.listing_url = Some (Ok l, self')
      /\ List.length l = 3)
  /\ (forall (fuel : nat) (w : Selenium.site) (businesses l : list Business)
             (self self' : scrapper) (e : exn),
      businesses_turn w businesses self = (l, self', Except e) ->
      businesses_loop (S fuel) w businesses self = Some (l, self')).
Proof.
  split; [|split; [|split]].
  - eexists. split; vm_compute; reflexivity.
  - eexists. vm_compute; reflexivity.
  - eexists. eexists. split; vm_compute; reflexivity.
  - intros fuel w businesses l self self' e H.
    cbn [businesses_loop]. now rewrite H.
Qed.

(* ------------------------------------------------------------------ *)
(** ** Known answers of the library models *)

Module KnownAnswers.

(** FIPS 180-4, the one-block and the two-block message. *)
Lemma sha256_abc :
  SHA256.hexdigest (py "abc")
  = py "ba7816bf8f01cfea414140de5dae2223b00361a396177a9cb410ff61f20015ad".
Proof. vm_compute. reflexivity. Qed.

Lemma sha256_two_blocks :
  SHA256.hexdigest
    (py "abcdbcdecdefdefgefghfghighijhijkijkljklmklmnlmnomnopnopq")
  = py "248d6a61d20638b8e5c026930c3e6039a33ce45964ff2167f6ecedd419db06c1".
Proof. vm_compute. reflexivity. Qed.

(** Keys are written in sorted order; a bullet is escaped. *)
Lemma dumps_sorted_and_escaped :
  Json.dumps [(py "b", Json.JStr [8226]%N); (py "a", Json.JInt (-12))]
  = [123; 34; 97; 34; 58; 32; 45; 49; 50; 44; 32; 34; 98; 34; 58; 32; 34; 92;
     117; 50; 48; 50; 50; 34; 125]%N.
Proof. vm_compute. reflexivity. Qed.

(** [float] rounds to the nearest double before [int] truncates. *)
Lemma int_float_samples :
  map (fun s => Num.int_float (py s))
      ["4.7"; "4."; ".7"; "."; "4.7.1"; "0.99999999999999999999";
       "9007199254740993"]%string
  = [Ok 4; Ok 4; Ok 0; Raise ValueError; Raise ValueError; Ok 1;
     Ok 9007199254740992]%Z.
Proof. vm_compute. reflexivity. Qed.

Lemma strptime_samples :
  map Strptime.month_year [py "jAN  2023"; py "Sept 2023"; py "Jan 2023 "; py "May 0000"]
  = [Ok (Date 2023 1 1); Raise ValueError; Raise ValueError; Raise ValueError]
  /\ map Strptime.month_day_year
       [py "april 03, 2023"; py "February 29, 2023"; py "February 29, 2024";
        py "April 3,2023"]
     = [Ok (Date 2023 4 3); Raise ValueError; Ok (Date 2024 2 29);
        Raise ValueError].
Proof. split; vm_compute; reflexivity. Qed.

End KnownAnswers.
(* ================================================================== *)
(** * Further properties of the code *)

(* ------------------------------------------------------------------ *)
(** ** The store under inserts *)

Module StoreFacts.
Import More.

Lemma find_appended (f d : document) (c : collection) :
  Mongo.find f (appended d c)
  = Mongo.find f c
    ++ (if matches f ((py "_id", VObjectId (next_id c)) :: d)
        then [(py "_id", VObjectId (next_id c)) :: d] else []).
Proof. unfold appended, Mongo.find. cbn [documents]. now rewrite filter_app. Qed.

Lemma extends_refl (c : collection) : extends c c.
Proof. exists []. now rewrite app_nil_r. Qed.

Lemma extends_trans (c1 c2 c3 : collection) :
  extends c1 c2 -> extends c2 c3 -> extends c1 c3.
Proof.
  intros [a Ha] [b Hb]. exists (a ++ b). now rewrite Hb, Ha, app_assoc.
Qed.

Lemma extends_appended (d : document) (c : collection) : extends c (appended d c).
Proof. eexists. reflexivity. Qed.

Lemma insert_business_extends (b : Business) (c : collection) :
  extends c (snd (insert_business b c)).
Proof.
  rewrite MongoFacts.insert_business_by_hash.
  destruct (Mongo.find _ c); cbn [snd]; [|apply extends_refl].
  destruct (encode_document _); cbn [snd];
    [apply extends_appended|apply extends_refl].
Qed.

Lemma insert_review_extends (r : Review) (c : collection) :
  extends c (snd (insert_review r c)).
Proof.
  rewrite MongoFacts.insert_review_by_hash.
  destruct (Mongo.find _ c); cbn [snd]; [|apply extends_refl].
  destruct (encode_document _); cbn [snd];
    [apply extends_appended|apply extends_refl].
Qed.

(** A hash that the collection holds stays held. *)
Lemma holds_extends (h : str) (c c' : collection) :
  extends c c' -> holds h c -> holds h c'.
Proof.
  intros [a Ha] H. unfold holds, Mongo.find in *. rewrite Ha, filter_app.
  destruct (filter _ (documents c)); [contradiction|discriminate].
Qed.

(** After an insert that returns, the collection holds the hash. *)
Lemma holds_insert_business (b : Business) (c c' : collection) (x : bool) :
  insert_business b c = (Ok x, c') -> holds (BusinessM.get_object_hash b) c'.
Proof.
  rewrite MongoFacts.insert_business_by_hash. unfold holds.
  destruct (Mongo.find _ c) eqn:F.
  - destruct (encode_document _); intros H; inversion H; subst.
    rewrite find_appended, F.
    rewrite (proj2 (MongoFacts.matches_by_hash _ _)
               (MongoFacts.business_document_hash b _)).
    discriminate.
  - intros H; inversion H; subst. rewrite F. discriminate.
Qed.

Lemma holds_insert_review (r : Review) (c c' : collection) (x : bool) :
  insert_review r c = (Ok x, c') -> holds (ReviewM.get_object_hash r) c'.
Proof.
  rewrite MongoFacts.insert_review_by_hash. unfold holds.
  destruct (Mongo.find _ c) eqn:F.
  - destruct (encode_document _); intros H; inversion H; subst.
    rewrite find_appended, F.
    rewrite (proj2 (MongoFacts.matches_by_hash _ _)
               (MongoFacts.review_document_hash r _)).
    discriminate.
  - intros H; inversion H; subst. rewrite F. discriminate.
Qed.

(** The insert of a record whose hash is held returns [False], whatever
    the record holds. *)
Lemma insert_business_held (b : Business) (c : collection) :
  holds (BusinessM.get_object_hash b) c -> insert_business b c = (Ok false, c).
Proof.
  intros H. rewrite MongoFacts.insert_business_by_hash. unfold holds in H.
  destruct (Mongo.find _ c); [contradiction|reflexivity].
Qed.

Lemma insert_review_held (r : Review) (c : collection) :
  holds (ReviewM.get_object_hash r) c -> insert_review r c = (Ok false, c).
Proof.
  intros H. rewrite MongoFacts.insert_review_by_hash. unfold holds in H.
  destruct (Mongo.find _ c); [contradiction|reflexivity].
Qed.

(** An insert that raises writes nothing. *)
Lemma insert_business_raised (b : Business) (c c' : collection) (e : exn) :
  insert_business b c = (Raise e, c') -> c' = c.
Proof.
  rewrite MongoFacts.insert_business_by_hash.
  destruct (Mongo.find _ c); [|intros H; inversion H; reflexivity].
  destruct (encode_document _); intros H; inversion H; reflexivity.
Qed.

Lemma insert_review_raised (r : Review) (c c' : collection) (e : exn) :
  insert_review r c = (Raise e, c') -> c' = c.
Proof.
  rewrite MongoFacts.insert_review_by_hash.
  destruct (Mongo.find _ c); [|intros H; inversion H; reflexivity].
  destruct (encode_document _); intros H; inversion H; reflexivity.
Qed.

(** How the loop over the businesses of a page ends: with every business
    appended and its hash held; or, at the business whose insert raised,
    with the businesses up to it appended, and the hashes of those before
    it held. *)
Lemma store_businesses_outcome (l : list Business) :
  forall (c : collection) (l1 : list Business) (c1 : collection)
         (s : option exn),
    store_businesses l [] c = (l1, c1, s) ->
    extends c c1
    /\ match s with
       | None => l1 = l /\ businesses_held c1 l
       | Some e =>
           exists pre b post,
             l = pre ++ b :: post /\ l1 = pre ++ [b]
             /\ businesses_held c1 pre
             /\ insert_business b c1 = (Raise e, c1)
       end.
Proof.
  unfold businesses_held.
  induction l as [|b l IH]; intros c l1 c1 s H.
  - inversion H; subst. split; [apply extends_refl|]. split; constructor.
  - rewrite CrawlFacts.store_businesses_cons in H.
    destruct (insert_business b c) as [[x|e] c0] eqn:I.
    + pose proof (holds_insert_business _ _ I) as Hb.
      pose proof (insert_business_extends b c) as E0.
      rewrite I in E0. cbn [snd] in E0.
      rewrite CrawlFacts.store_businesses_acc in H.
      destruct (store_businesses l [] c0) as [[l1' c1'] s'] eqn:S.
      inversion H; subst.
      destruct (IH _ _ _ _ S) as [E M].
      split; [exact (extends_trans E0 E)|].
      destruct s as [e|].
      * destruct M as (pre & b' & post & Hl & Hl1 & Hh & Hr).
        exists (b :: pre), b', post.
        split; [now rewrite Hl|]. split; [now rewrite Hl1|].
        split; [|exact Hr].
        constructor; [exact (holds_extends E Hb)|exact Hh].
      * destruct M as [Hl Hh]. split; [now rewrite Hl|].
        constructor; [exact (holds_extends E Hb)|exact Hh].
    + inversion H; subst.
      pose proof (insert_business_raised _ _ I) as Ec. subst c1.
      split; [apply extends_refl|].
      exists [], b, l. split; [reflexivity|]. split; [reflexivity|].
      split; [constructor|exact I].
Qed.

Lemma store_reviews_outcome (l : list Review) :
  forall (c : collection) (l1 : list Review) (c1 : collection)
         (s : option exn),
    store_reviews l [] c = (l1, c1, s) ->
    extends c c1
    /\ match s with
       | None => l1 = l /\ reviews_held c1 l
       | Some e =>
           exists pre r post,
             l = pre ++ r :: post /\ l1 = pre
             /\ reviews_held c1 pre
             /\ insert_review r c1 = (Raise e, c1)
       end.
Proof.
  unfold reviews_held.
  induction l as [|r l IH]; intros c l1 c1 s H.
  - inversion H; subst. split; [apply extends_refl|]. split; constructor.
  - rewrite CrawlFacts.store_reviews_cons in H.
    destruct (insert_review r c) as [[x|e] c0] eqn:I.
    + pose proof (holds_insert_review _ _ I) as Hr.
      pose proof (insert_review_extends r c) as E0.
      rewrite I in E0. cbn [snd] in E0.
      rewrite CrawlFacts.store_reviews_acc in H.
      destruct (store_reviews l [] c0) as [[l1' c1'] s'] eqn:S.
      inversion H; subst.
      destruct (IH _ _ _ _ S) as [E M].
      split; [exact (extends_trans E0 E)|].
      destruct s as [e|].
      * destruct M as (pre & r' & post & Hl & Hl1 & Hh & Hx).
        exists (r :: pre), r', post.
        split; [now rewrite Hl|]. split; [now rewrite Hl1|].
        split; [|exact Hx].
        constructor; [exact (holds_extends E Hr)|exact Hh].
      * destruct M as [Hl Hh]. split; [now rewrite Hl|].
        constructor; [exact (holds_extends E Hr)|exact Hh].
    + inversion H; subst.
      pose proof (insert_review_raised _ _ I) as Ec. subst c1.
      split; [apply extends_refl|].
      exists [], r, l. split; [reflexivity|]. split; [reflexivity|].
      split; [constructor|exact I].
Qed.

(** Records whose hashes are held: nothing is written, nothing raises. *)
Lemma store_businesses_held (l : list Business) :
  forall (acc : list Business) (c : collection),
    businesses_held c l -> store_businesses l acc c = (acc ++ l, c, None).
Proof.
  unfold businesses_held.
  induction l as [|b l IH]; intros acc c H.
  - cbn [store_businesses]. now rewrite app_nil_r.
  - inversion H as [|? ? Hb Hl]; subst.
    rewrite CrawlFacts.store_businesses_cons, (insert_business_held Hb).
    rewrite (IH _ _ Hl). now rewrite <- app_assoc.
Qed.

Lemma store_reviews_held (l : list Review) :
  forall (acc : list Review) (c : collection),
    reviews_held c l -> store_reviews l acc c = (acc ++ l, c, None).
Proof.
  unfold reviews_held.
  induction l as [|r l IH]; intros acc c H.
  - cbn [store_reviews]. now rewrite app_nil_r.
  - inversion H as [|? ? Hr Hl]; subst.
    rewrite CrawlFacts.store_reviews_cons, (insert_review_held Hr).
    rewrite (IH _ _ Hl). now rewrite <- app_assoc.
Qed.

(** The loop that ended at an insert that raised ends there again. *)
Lemma store_businesses_replay (pre : list Business) (b : Business)
  (post : list Business) (e : exn) :
  forall (acc : list Business) (c : collection),
    businesses_held c pre ->
    insert_business b c = (Raise e, c) ->
    store_businesses (pre ++ b :: post) acc c = (acc ++ pre ++ [b], c, Some e).
Proof.
  unfold businesses_held.
  induction pre as [|x pre IH]; intros acc c H I.
  - cbn [app]. rewrite CrawlFacts.store_businesses_cons, I. reflexivity.
  - inversion H as [|? ? Hx Hp]; subst. cbn [app].
    rewrite CrawlFacts.store_businesses_cons, (insert_business_held Hx).
    rewrite (IH _ _ Hp I). now rewrite <- app_assoc.
Qed.

(** Inserting a document whose hash the collection lacks keeps the hashes
    unique. *)
Lemma unique_hashes_appended (d : document) (c : collection) (h : str) :
  Mongo.get (py "unique_id") ((py "_id", VObjectId (next_id c)) :: d)
  = Some (VStr h) ->
  Mongo.find (by_hash h) c = [] ->
  unique_hashes c -> unique_hashes (appended d c).
Proof.
  intros Hh Hnew U h'. rewrite find_appended, length_app.
  destruct (matches (by_hash h') _) eqn:M; cbn [List.length].
  - apply MongoFacts.matches_by_hash in M. rewrite Hh in M.
    inversion M; subst h'. rewrite Hnew. cbn [List.length]. lia.
  - specialize (U h'). lia.
Qed.

Lemma unique_hashes_insert_business (b : Business) (c : collection) :
  unique_hashes c -> unique_hashes (snd (insert_business b c)).
Proof.
  intros U. rewrite MongoFacts.insert_business_by_hash.
  destruct (Mongo.find _ c) eqn:F; cbn [snd]; [|exact U].
  destruct (encode_document _); cbn [snd]; [|exact U].
  eapply unique_hashes_appended; eauto.
  apply MongoFacts.business_document_hash.
Qed.

Lemma unique_hashes_insert_review (r : Review) (c : collection) :
  unique_hashes c -> unique_hashes (snd (insert_review r c)).
Proof.
  intros U. rewrite MongoFacts.insert_review_by_hash.
  destruct (Mongo.find _ c) eqn:F; cbn [snd]; [|exact U].
  destruct (encode_document _); cbn [snd]; [|exact U].
  eapply unique_hashes_appended; eauto.
  apply MongoFacts.review_document_hash.
Qed.

(** A relation between the collection before and after that holds across
    every insert holds across every crawl, however the crawl ends. *)
Section Across.

Variable R : collection -> collection -> Prop.
Hypothesis R_refl : forall c, R c c.
Hypothesis R_trans : forall c1 c2 c3, R c1 c2 -> R c2 c3 -> R c1 c3.
Hypothesis R_business : forall b c, R c (snd (insert_business b c)).
Hypothesis R_review : forall r c, R c (snd (insert_review r c)).

Lemma store_businesses_across (l : list Business) :
  forall (acc : list Business) (c : collection),
    R c (snd (fst (store_businesses l acc c))).
Proof.
  induction l as [|b l IH]; intros acc c; [apply R_refl|].
  rewrite CrawlFacts.store_businesses_cons.
  pose proof (R_business b c) as Rb.
  destruct (insert_business b c) as [[x|e] c0]; cbn [snd] in Rb.
  - eapply R_trans; [exact Rb|apply IH].
  - exact Rb.
Qed.

Lemma store_reviews_across (l : list Review) :
  forall (acc : list Review) (c : collection),
    R c (snd (fst (store_reviews l acc c))).
Proof.
  induction l as [|r l IH]; intros acc c; [apply R_refl|].
  rewrite CrawlFacts.store_reviews_cons.
  pose proof (R_review r c) as Rr.
  destruct (insert_review r c) as [[x|e] c0]; cbn [snd] in Rr.
  - eapply R_trans; [exact Rr|apply IH].
  - exact Rr.
Qed.

Lemma businesses_turn_across (w : Selenium.site) (acc l : list Business)
  (self self' : scrapper) (s : signal) :
  businesses_turn w acc self = (l, self', s) ->
  R (trip_advisor_mongo_client self) (trip_advisor_mongo_client self').
Proof.
  unfold businesses_turn.
  destruct (get_all_business_in_page _) as [found|e].
  2:{ intros H; inversion H; subst. apply R_refl. }
  pose proof (store_businesses_across found acc (trip_advisor_mongo_client self))
    as Rs.
  destruct (store_businesses found acc _) as [[l1 c1] [e|]]; cbn [fst snd] in Rs.
  { intros H; inversion H; subst. exact Rs. }
  destruct (find_next_page_arrow _) as [[a|]|e];
    try (intros H; inversion H; subst; exact Rs).
  destruct (Bs4.item a _) as [href|e];
    try (intros H; inversion H; subst; exact Rs).
  cbn [web_driver].
  destruct (Selenium.get _ _ _) as [d|e];
    intros H; inversion H; subst; exact Rs.
Qed.

Lemma businesses_loop_across (fuel : nat) (w : Selenium.site)
  (acc l : list Business) (self self' : scrapper) :
  businesses_loop fuel w acc self = Some (l, self') ->
  R (trip_advisor_mongo_client self) (trip_advisor_mongo_client self').
Proof.
  revert acc self; induction fuel as [|fuel IH]; intros acc self; [discriminate|].
  cbn [businesses_loop].
  destruct (businesses_turn w acc self) as [[l1 s1] sg] eqn:T.
  pose proof (businesses_turn_across _ _ _ T) as R1.
  destruct sg; intros H.
  - eapply R_trans; [exact R1|eapply IH; exact H].
  - inversion H; subst. exact R1.
  - inversion H; subst. exact R1.
Qed.

Lemma get_and_store_businesses_across (fuel : nat) (w : Selenium.site)
  (self self' : scrapper) (start : str) (r : res (list Business)) :
  get_and_store_businesses fuel w self start = Some (r, self') ->
  R (trip_advisor_mongo_client self) (trip_advisor_mongo_client self').
Proof.
  unfold get_and_store_businesses.
  destruct (Selenium.get w start (web_driver self)) as [d|e].
  - destruct (businesses_loop _ _ _ _) as [[l s]|] eqn:L; [|discriminate].
    intros H; inversion H; subst.
    apply (businesses_loop_across _ _ _ _ L).
  - intros H; inversion H; subst. apply R_refl.
Qed.

Lemma reviews_turn_across (w : Selenium.site) (business : list (str * str))
  (acc l : list Review) (self self' : scrapper) (s : signal) :
  reviews_turn w business acc self = (l, self', s) ->
  R (trip_advisor_mongo_client self) (trip_advisor_mongo_client self').
Proof.
  unfold reviews_turn.
  destruct (get_all_reviews_in_page _ _) as [found|e].
  2:{ intros H; inversion H; subst. apply R_refl. }
  pose proof (store_reviews_across found acc (trip_advisor_mongo_client self))
    as Rs.
  destruct (store_reviews found acc _) as [[l1 c1] [e|]]; cbn [fst snd] in Rs.
  { intros H; inversion H; subst. exact Rs. }
  destruct (find_next_page_arrow _) as [[a|]|e];
    try (intros H; inversion H; subst; exact Rs).
  destruct (Bs4.item a _) as [href|e];
    try (intros H; inversion H; subst; exact Rs).
  cbn [web_driver].
  destruct (Selenium.get _ _ _) as [d|e];
    intros H; inversion H; subst; exact Rs.
Qed.

Lemma reviews_loop_across (fuel : nat) (w : Selenium.site)
  (business : list (str * str)) (acc : list Review) (self self' : scrapper)
  (r : res (list Review)) :
  reviews_loop fuel w business acc self = Some (r, self') ->
  R (trip_advisor_mongo_client self) (trip_advisor_mongo_client self').
Proof.
  revert acc self; induction fuel as [|fuel IH]; intros acc self; [discriminate|].
  cbn [reviews_loop].
  destruct (reviews_turn w business acc self) as [[l1 s1] sg] eqn:T.
  pose proof (reviews_turn_across _ _ _ _ T) as R1.
  destruct sg; intros H.
  - eapply R_trans; [exact R1|eapply IH; exact H].
  - inversion H; subst. exact R1.
  - inversion H; subst. exact R1.
Qed.

Lemma reviews_of_businesses_across (fuel : nat) (w : Selenium.site)
  (businesses : list (list (str * str))) (acc : list Review)
  (self self' : scrapper) (r : res (list Review)) :
  reviews_of_businesses fuel w businesses acc self = Some (r, self') ->
  R (trip_advisor_mongo_client self) (trip_advisor_mongo_client self').
Proof.
  revert acc self; induction businesses as [|b bs IH]; intros acc self.
  - cbn [reviews_of_businesses]. intros H; inversion H; subst. apply R_refl.
  - cbn [reviews_of_businesses].
    destruct (getitem b _) as [url|e];
      [|intros H; inversion H; subst; apply R_refl].
    destruct (Selenium.get w url (web_driver self)) as [d|e];
      [|intros H; inversion H; subst; apply R_refl].
    destruct (reviews_loop _ _ _ _ _) as [[[l|e] s]|] eqn:L; [| |discriminate].
    + intros H. apply reviews_loop_across in L. cbn [trip_advisor_mongo_client] in L.
      eapply R_trans; [exact L|eapply IH; exact H].
    + intros H; inversion H; subst.
      apply reviews_loop_across in L. exact L.
Qed.

End Across.

End StoreFacts.
(** What the listing crawl returns and stores on a sequence of pages that
    raise nothing. *)
Lemma get_and_store_businesses_linked (w : Selenium.site)
  (ps : list (str * node)) (self : scrapper) (start : str) (fuel : nat) :
  linked w ps ->
  first_url ps = Some start ->
  forallb listing_ok (pages_of ps) = true ->
  forallb businesses_storable (pages_of ps) = true ->
  List.length ps <= fuel ->
  get_and_store_businesses fuel w self start
  = Some (Ok (flat_map businesses_on (pages_of ps)),
          Scrapper (Selenium.WebDriver
                      (last_page (Selenium.page_source (web_driver self)) ps)
                      (Selenium.visited (web_driver self) ++ map fst ps))
                   (with_businesses (flat_map businesses_on (pages_of ps))
                                    (trip_advisor_mongo_client self))).
Proof.
  intros Hl Hs Hok Hst Hf.
  destruct ps as [|[u p] rest]; [inversion Hl|].
  cbn in Hs. inversion Hs; subst u.
  unfold get_and_store_businesses, Selenium.get.
  rewrite (CrawlFacts.linked_head Hl).
  pose proof (CrawlFacts.businesses_loop_linked Hl Hok Hst []
                (Selenium.page_source (web_driver self))
                (Selenium.visited (web_driver self) ++ [start])
                (trip_advisor_mongo_client self) Hf) as L.
  cbn [hd snd] in L. rewrite L. cbn [tl map fst app].
  now rewrite <- app_assoc.
Qed.

Import More.

(** X1: a business whose insert returned [True] is what [get_businesses]
    returns last, as its name and address, and a review whose insert
    returned [True] is what [get_reviews] returns last, with its dates as
    text; an insert of one type leaves the listing of the other type as
    it was, and an insert that returns [False] or raises leaves the
    collection as it was. *)
Theorem listing_after_insert :
  (forall (b : Business) (c c' : collection),
      insert_business b c = (Ok true, c') ->
      get_businesses c' = get_businesses c ++ [listed_business b]
      /\ get_reviews c' = get_reviews c)
  /\ (forall (r : Review) (c c' : collection),
      insert_review r c = (Ok true, c') ->
      get_reviews c' = get_reviews c ++ [listed_review r]
      /\ get_businesses c' = get_businesses c)
  /\ (forall (b : Business) (c : collection),
      fst (insert_business b c) = Ok true \/ snd (insert_business b c) = c)
  /\ (forall (r : Review) (c : collection),
      fst (insert_review r c) = Ok true \/ snd (insert_review r c) = c).
Proof.
  split; [|split; [|split]].
  - intros b c c'. rewrite MongoFacts.insert_business_by_hash.
    destruct (Mongo.find _ c); [|discriminate].
    destruct (encode_document _); [|discriminate].
    intros H; inversion H; subst.
    unfold get_businesses, get_reviews.
    rewrite !StoreFacts.find_appended.
    replace (matches [(py "type", VStr MongoDocumentType.BUSINESS)] _)
      with true by reflexivity.
    replace (matches [(py "type", VStr MongoDocumentType.REVIEW)] _)
      with false by reflexivity.
    rewrite map_app, app_nil_r. split; reflexivity.
  - intros r c c'. rewrite MongoFacts.insert_review_by_hash.
    destruct (Mongo.find _ c); [|discriminate].
    destruct (encode_document _); [|discriminate].
    intros H; inversion H; subst.
    unfold get_businesses, get_reviews.
    rewrite !StoreFacts.find_appended.
    replace (matches [(py "type", VStr MongoDocumentType.BUSINESS)] _)
      with false by reflexivity.
    replace (matches [(py "type", VStr MongoDocumentType.REVIEW)] _)
      with true by reflexivity.
    rewrite map_app, app_nil_r. split; reflexivity.
  - intros b c. rewrite MongoFacts.insert_business_by_hash.
    destruct (Mongo.find _ c); [|now right].
    destruct (encode_document _); [now left|now right].
  - intros r c. rewrite MongoFacts.insert_review_by_hash.
    destruct (Mongo.find _ c); [|now right].
    destruct (encode_document _); [now left|now right].
Qed.

Lemma listing_after_insert_witness :
  exists c' : collection,
    insert_business Sample.cafe Sample.empty = (Ok true, c')
    /\ get_businesses c' = get_businesses Sample.empty ++ [listed_business Sample.cafe]
    /\ get_reviews c' = get_reviews Sample.empty.
Proof.
  eexists. split; [vm_compute; reflexivity|].
  eapply (proj1 listing_after_insert Sample.cafe Sample.empty).
  vm_compute. reflexivity.
Defined.

(** X2: a crawl, however it ends, leaves every document that was in the
    collection where it was and as it was; it can only add documents at
    the end. *)
Theorem crawl_only_appends :
  (forall (fuel : nat) (w : Selenium.site) (self self' : scrapper)
          (start : str) (r : res (list Business)),
      get_and_store_businesses fuel w self start = Some (r, self') ->
      extends (trip_advisor_mongo_client self) (trip_advisor_mongo_client self'))
  /\ (forall (fuel : nat) (w : Selenium.site) (self self' : scrapper)
             (businesses : list (list (str * str))) (r : res (list Review)),
      get_and_store_reviews fuel w self businesses = Some (r, self') ->
      extends (trip_advisor_mongo_client self) (trip_advisor_mongo_client self')).
Proof.
  split.
  - intros fuel w self self' start r H.
    exact (StoreFacts.get_and_store_businesses_across extends
             StoreFacts.extends_refl StoreFacts.extends_trans
             StoreFacts.insert_business_extends _ _ _ _ H).
  - intros fuel w self self' businesses r H.
    exact (StoreFacts.reviews_of_businesses_across extends
             StoreFacts.extends_refl StoreFacts.extends_trans
             StoreFacts.insert_review_extends _ _ _ _ _ H).
Qed.

(** The review crawl that fails on its second page has kept the document
    it started with. *)
Lemma crawl_only_appends_witness :
  exists (r : res (list Review)) (self' : scrapper),
    get_and_store_reviews 2 Sample.broken_site
      (Scrapper Sample.blank Sample.review_with_hash_of_cafe)
      [Sample.cafe_business] = Some (r, self')
    /\ extends Sample.review_with_hash_of_cafe (trip_advisor_mongo_client self').
Proof.
  eexists. eexists. split.
  - vm_compute. reflexivity.
  - eapply (proj2 crawl_only_appends 2 Sample.broken_site
              (Scrapper Sample.blank Sample.review_with_hash_of_cafe) _
              [Sample.cafe_business]).
    vm_compute. reflexivity.
Defined.

(** X3: a crawl, however it ends, keeps the identity hashes of the
    collection unique; so a collection that starts empty never holds two
    documents with the same identity hash. *)
Theorem crawl_keeps_hashes_unique :
  (forall (fuel : nat) (w : Selenium.site) (self self' : scrapper)
          (start : str) (r : res (list Business)),
      get_and_store_businesses fuel w self start = Some (r, self') ->
      unique_hashes (trip_advisor_mongo_client self) ->
      unique_hashes (trip_advisor_mongo_client self'))
  /\ (forall (fuel : nat) (w : Selenium.site) (self self' : scrapper)
             (businesses : list (list (str * str))) (r : res (list Review)),
      get_and_store_reviews fuel w self businesses = Some (r, self') ->
      unique_hashes (trip_advisor_mongo_client self) ->
      unique_hashes (trip_advisor_mongo_client self'))
  /\ (forall n : N, unique_hashes (Collection [] n)).
Proof.
  split; [|split].
  - intros fuel w self self' start r H.
    refine (StoreFacts.get_and_store_businesses_across
              (fun c c' => unique_hashes c -> unique_hashes c')
              _ _ _ _ _ _ _ H); auto.
    intros b c. apply StoreFacts.unique_hashes_insert_business.
  - intros fuel w self self' businesses r H.
    refine (StoreFacts.reviews_of_businesses_across
              (fun c c' => unique_hashes c -> unique_hashes c')
              _ _ _ _ _ _ _ _ H); auto.
    intros rv c. apply StoreFacts.unique_hashes_insert_review.
  - intros n h. cbn. lia.
Qed.

(** The listing crawl from the empty collection, which lists one business
    twice. *)
Lemma crawl_keeps_hashes_unique_witness :
  exists (r : res (list Business)) (self' : scrapper),
    get_and_store_businesses 2 Sample.listing_site Sample.fresh
      Sample.listing_url = Some (r, self')
    /\ unique_hashes (trip_advisor_mongo_client self').
Proof.
  eexists. eexists. split.
  - vm_compute. reflexivity.
  - eapply (proj1 crawl_keeps_hashes_unique 2 Sample.listing_site
              Sample.fresh _ Sample.listing_url).
    + vm_compute. reflexivity.
    + exact (proj2 (proj2 crawl_keeps_hashes_unique) 0%N).
Defined.

(* ------------------------------------------------------------------ *)
(** ** A crawl run again *)

Module ReplayFacts.

(** The list in hand does not bear on what a turn and the loop do. *)
Lemma businesses_turn_acc (w : Selenium.site) (acc : list Business)
  (self : scrapper) :
  businesses_turn w acc self
  = let '(l, s, sg) := businesses_turn w [] self in (acc ++ l, s, sg).
Proof.
  unfold businesses_turn.
  destruct (get_all_business_in_page _) as [found|e];
    [|now rewrite app_nil_r].
  rewrite (CrawlFacts.store_businesses_acc found acc).
  destruct (store_businesses found [] _) as [[l1 c1] [e|]]; [reflexivity|].
  destruct (find_next_page_arrow _) as [[a|]|e]; try reflexivity.
  destruct (Bs4.item a _) as [href|e]; try reflexivity.
  destruct (Selenium.get _ _ _) as [d|e]; reflexivity.
Qed.

Lemma businesses_loop_acc (fuel : nat) (w : Selenium.site) :
  forall (acc : list Business) (self : scrapper),
    businesses_loop fuel w acc self
    = match businesses_loop fuel w [] self with
      | Some (l, s) => Some (acc ++ l, s)
      | None => None
      end.
Proof.
  induction fuel as [|fuel IH]; intros acc self; [reflexivity|].
  cbn [businesses_loop]. rewrite (businesses_turn_acc w acc self).
  destruct (businesses_turn w [] self) as [[l1 s1] sg].
  destruct sg; cbn [app]; try reflexivity.
  rewrite (IH (acc ++ l1) s1), (IH l1 s1).
  destruct (businesses_loop fuel w [] s1) as [[l s]|]; [|reflexivity].
  now rewrite app_assoc.
Qed.

(** A turn run again on the same page, with the collection that the
    crawl left: the collection the turn left, when it ended the loop, and
    one that holds its documents and more, when it did not.  The turn
    ends as it did and writes nothing. *)
Lemma businesses_turn_replay (w : Selenium.site) (p : node) (vis : list str)
  (c : collection) (l : list Business) (s1 : scrapper) (sg : signal) :
  businesses_turn w [] (Scrapper (Selenium.WebDriver p vis) c) = (l, s1, sg) ->
  forall (c2 : collection) (vis2 : list str),
    match sg with
    | Next => extends (trip_advisor_mongo_client s1) c2
    | _ => c2 = trip_advisor_mongo_client s1
    end ->
    exists vis2' : list str,
      businesses_turn w [] (Scrapper (Selenium.WebDriver p vis2) c2)
      = (l, Scrapper (Selenium.WebDriver
                        (Selenium.page_source (web_driver s1)) vis2') c2, sg).
Proof.
  unfold businesses_turn.
  cbn [web_driver Selenium.page_source trip_advisor_mongo_client].
  destruct (get_all_business_in_page p) as [found|e].
  2:{ intros H c2 vis2 Hc; inversion H; subst.
      cbn [trip_advisor_mongo_client web_driver Selenium.page_source] in *.
      subst c2. now exists vis2. }
  destruct (store_businesses found [] c) as [[l1 c1] s] eqn:S.
  destruct (StoreFacts.store_businesses_outcome _ _ S) as [E M].
  destruct s as [e|].
  { destruct M as (pre & b & post & Hf & Hl1 & Hh & Hr).
    intros H c2 vis2 Hc; inversion H; subst.
    cbn [trip_advisor_mongo_client web_driver Selenium.page_source] in *.
    subst c2. rewrite (@StoreFacts.store_businesses_replay pre b post e [] c1 Hh Hr).
    now exists vis2. }
  destruct M as [Hl1 Hh]. subst l1.
  assert (K : forall c2, extends c1 c2 ->
                         store_businesses found [] c2 = (found, c2, None)).
  { intros c2 Hc. apply (@StoreFacts.store_businesses_held found [] c2).
    unfold businesses_held in *. eapply Forall_impl; [|exact Hh].
    intros b. apply (StoreFacts.holds_extends Hc). }
  destruct (find_next_page_arrow p) as [[a|]|e].
  - destruct (Bs4.item a (py "href")) as [href|e].
    + cbn [web_driver]. unfold Selenium.get. cbn [Selenium.visited].
      destruct (w (TRIP_ADVISOR_URL ++ href)) as [p'|].
      * intros H c2 vis2 Hc; inversion H; subst.
        cbn [trip_advisor_mongo_client web_driver Selenium.page_source] in *.
        rewrite (K c2 Hc). eexists. reflexivity.
      * intros H c2 vis2 Hc; inversion H; subst.
        cbn [trip_advisor_mongo_client web_driver Selenium.page_source] in *.
        subst c2. rewrite (K c1 (StoreFacts.extends_refl c1)). now exists vis2.
    + intros H c2 vis2 Hc; inversion H; subst.
      cbn [trip_advisor_mongo_client web_driver Selenium.page_source] in *.
      subst c2. rewrite (K c1 (StoreFacts.extends_refl c1)). now exists vis2.
  - intros H c2 vis2 Hc; inversion H; subst.
    cbn [trip_advisor_mongo_client web_driver Selenium.page_source] in *.
    subst c2. rewrite (K c1 (StoreFacts.extends_refl c1)). now exists vis2.
  - intros H c2 vis2 Hc; inversion H; subst.
    cbn [trip_advisor_mongo_client web_driver Selenium.page_source] in *.
    subst c2. rewrite (K c1 (StoreFacts.extends_refl c1)). now exists vis2.
Qed.

(** The loop run again on the page it started on, with the collection it
    left: it returns the same list and writes nothing. *)
Lemma businesses_loop_replay (fuel : nat) (w : Selenium.site) :
  forall (p : node) (vis : list str) (c : collection) (l : list Business)
         (s' : scrapper),
    businesses_loop fuel w [] (Scrapper (Selenium.WebDriver p vis) c)
    = Some (l, s') ->
    forall vis2 : list str,
    exists vis2' : list str,
      businesses_loop fuel w []
        (Scrapper (Selenium.WebDriver p vis2) (trip_advisor_mongo_client s'))
      = Some (l, Scrapper (Selenium.WebDriver
                             (Selenium.page_source (web_driver s')) vis2')
                          (trip_advisor_mongo_client s')).
Proof.
  induction fuel as [|fuel IH]; intros p vis c l s' H vis2; [discriminate|].
  cbn [businesses_loop] in H |- *.
  destruct (businesses_turn w [] (Scrapper (Selenium.WebDriver p vis) c))
    as [[l1 s1] sg] eqn:T.
  destruct sg.
  - rewrite businesses_loop_acc in H.
    destruct (businesses_loop fuel w [] s1) as [[dl sf]|] eqn:L; [|discriminate].
    inversion H; subst.
    pose proof (StoreFacts.businesses_loop_across extends
                  StoreFacts.extends_refl StoreFacts.extends_trans
                  StoreFacts.insert_business_extends _ _ _ _ L) as E.
    destruct (businesses_turn_replay _ _ _ _ T (trip_advisor_mongo_client s')
                vis2 E) as [va Ta].
    rewrite Ta. rewrite businesses_loop_acc.
    destruct s1 as [[p1 vis1] c1].
    cbn [web_driver Selenium.page_source].
    destruct (IH _ _ _ _ _ L va) as [vb Lb]. rewrite Lb. now exists vb.
  - inversion H; subst.
    destruct (businesses_turn_replay _ _ _ _ T (trip_advisor_mongo_client s')
                vis2 eq_refl) as [va Ta].
    rewrite Ta. now exists va.
  - inversion H; subst.
    destruct (businesses_turn_replay _ _ _ _ T (trip_advisor_mongo_client s')
                vis2 eq_refl) as [va Ta].
    rewrite Ta. now exists va.
Qed.

Lemma get_and_store_businesses_replay (fuel : nat) (w : Selenium.site)
  (self self1 : scrapper) (start : str) (l : list Business) :
  get_and_store_businesses fuel w self start = Some (Ok l, self1) ->
  exists self2 : scrapper,
    get_and_store_businesses fuel w self1 start = Some (Ok l, self2)
    /\ trip_advisor_mongo_client self2 = trip_advisor_mongo_client self1.
Proof.
  unfold get_and_store_businesses, Selenium.get.
  destruct (w start) as [p|]; [|discriminate].
  destruct (businesses_loop fuel w [] _) as [[l1 s1]|] eqn:L; [|discriminate].
  intros H; inversion H; subst.
  destruct (businesses_loop_replay _ _ _ _ _ L
              (Selenium.visited (web_driver self1) ++ [start])) as [v2 L2].
  rewrite L2. eexists. split; reflexivity.
Qed.

(** On a sequence of pages whose cards can be read and whose arrows carry
    a label the loop returns, whether the records can be stored or not. *)
Lemma businesses_loop_linked_returns (w : Selenium.site)
  (ps : list (str * node)) :
  linked w ps ->
  forallb listing_ok (pages_of ps) = true ->
  forall (fuel : nat) (acc : list Business) (d0 : node) (vis : list str)
         (c : collection),
    List.length ps <= fuel ->
    exists (l : list Business) (s' : scrapper),
      businesses_loop fuel w acc
        (Scrapper (Selenium.WebDriver (snd (hd ([], d0) ps)) vis) c)
      = Some (l, s').
Proof.
  induction 1 as [u p Hw Hn|u p a h u' p' rest Hw Ha Hh Hu Hl IH];
    intros Hok fuel acc d0 vis c Hf.
  - destruct fuel as [|fuel]; [cbn in Hf; lia|].
    cbn [pages_of map forallb snd] in Hok. rewrite andb_true_r in Hok.
    apply andb_true_iff in Hok as [Hb Hlab].
    destruct (get_all_business_in_page p) as [found|] eqn:G; [|discriminate].
    cbn [businesses_loop hd snd]. unfold businesses_turn.
    cbn [web_driver Selenium.page_source trip_advisor_mongo_client].
    rewrite G.
    destruct (store_businesses found acc c) as [[l1 c1] [e|]];
      [eexists; eexists; reflexivity|].
    rewrite (CrawlFacts.find_next_page_arrow_labelled _ Hlab), Hn.
    cbn [hd_error]. eexists; eexists; reflexivity.
  - destruct fuel as [|fuel]; [cbn in Hf; lia|].
    assert (Hok' : forallb listing_ok (pages_of ((u', p') :: rest)) = true).
    { cbn [pages_of map forallb] in *. apply andb_true_iff in Hok. tauto. }
    cbn [pages_of map forallb snd] in Hok.
    apply andb_true_iff in Hok as [Hok _].
    apply andb_true_iff in Hok as [Hb Hlab].
    destruct (get_all_business_in_page p) as [found|] eqn:G; [|discriminate].
    cbn [businesses_loop hd snd]. unfold businesses_turn.
    cbn [web_driver Selenium.page_source trip_advisor_mongo_client].
    rewrite G.
    destruct (store_businesses found acc c) as [[l1 c1] [e|]];
      [eexists; eexists; reflexivity|].
    rewrite (CrawlFacts.find_next_page_arrow_labelled _ Hlab), Ha.
    unfold Bs4.item, getitem. unfold Bs4.get in Hh. rewrite Hh.
    cbn [web_driver]. unfold Selenium.get. rewrite <- Hu, (CrawlFacts.linked_head Hl).
    cbn [web_driver Selenium.visited trip_advisor_mongo_client].
    apply (IH Hok' fuel l1 d0 (vis ++ [u']) c1).
    cbn [List.length] in Hf |- *. lia.
Qed.

End ReplayFacts.

(** X4: storing records whose hashes were stored before writes nothing and
    raises nothing; so a second listing crawl over the same sequence of
    pages returns the same list and leaves the collection as the first
    crawl left it.  So it is on any site, however the first crawl ended:
    a crawl that an insert ended ends at that insert again. *)
Theorem stored_again_writes_nothing :
  (forall (l l' acc acc' l1 : list Business) (c c1 : collection),
      store_businesses l acc c = (l1, c1, None) ->
      incl l' l ->
      store_businesses l' acc' c1 = (acc' ++ l', c1, None))
  /\ (forall (l l' acc acc' l1 : list Review) (c c1 : collection),
      store_reviews l acc c = (l1, c1, None) ->
      (forall r', In r' l' ->
                  exists r, In r l
                            /\ ReviewM.get_object_hash r' = ReviewM.get_object_hash r) ->
      store_reviews l' acc' c1 = (acc' ++ l', c1, None))
  /\ (forall (w : Selenium.site) (ps : list (str * node)) (self : scrapper)
             (start : str) (fuel : nat),
      linked w ps ->
      first_url ps = Some start ->
      forallb listing_ok (pages_of ps) = true ->
      List.length ps <= fuel ->
      exists (l : list Business) (self1 self2 : scrapper),
        get_and_store_businesses fuel w self start = Some (Ok l, self1)
        /\ get_and_store_businesses fuel w self1 start = Some (Ok l, self2)
        /\ trip_advisor_mongo_client self2 = trip_advisor_mongo_client self1)
  /\ (forall (fuel : nat) (w : Selenium.site) (self self1 : scrapper)
             (start : str) (l : list Business),
      get_and_store_businesses fuel w self start = Some (Ok l, self1) ->
      exists self2 : scrapper,
        get_and_store_businesses fuel w self1 start = Some (Ok l, self2)
        /\ trip_advisor_mongo_client self2 = trip_advisor_mongo_client self1).
Proof.
  split; [|split; [|split]].
  - intros l l' acc acc' l1 c c1 H Hi.
    rewrite CrawlFacts.store_businesses_acc in H.
    destruct (store_businesses l [] c) as [[l0 c0] s] eqn:S.
    inversion H; subst.
    destruct (StoreFacts.store_businesses_outcome _ _ S) as [_ [_ Hh]].
    apply StoreFacts.store_businesses_held.
    unfold businesses_held in *. apply Forall_forall. intros b Hb.
    rewrite Forall_forall in Hh. apply Hh, Hi, Hb.
  - intros l l' acc acc' l1 c c1 H Hi.
    rewrite CrawlFacts.store_reviews_acc in H.
    destruct (store_reviews l [] c) as [[l0 c0] s] eqn:S.
    inversion H; subst.
    destruct (StoreFacts.store_reviews_outcome _ _ S) as [_ [_ Hh]].
    apply StoreFacts.store_reviews_held.
    unfold reviews_held in *. apply Forall_forall. intros r' Hr'.
    destruct (Hi r' Hr') as (r & Hr & E). rewrite E.
    rewrite Forall_forall in Hh. apply Hh, Hr.
  - intros w ps self start fuel Hl Hs Hok Hf.
    assert (X : exists l self1,
               get_and_store_businesses fuel w self start = Some (Ok l, self1)).
    { destruct ps as [|[u p] rest]; [inversion Hl|].
      cbn in Hs. inversion Hs; subst u.
      unfold get_and_store_businesses, Selenium.get.
      rewrite (CrawlFacts.linked_head Hl).
      destruct (ReplayFacts.businesses_loop_linked_returns Hl Hok []
                  (Selenium.page_source (web_driver self))
                  (Selenium.visited (web_driver self) ++ [start])
                  (trip_advisor_mongo_client self) Hf) as (l & s' & L).
      cbn [hd snd] in L. rewrite L. now exists l, s'. }
    destruct X as (l & self1 & H1).
    destruct (ReplayFacts.get_and_store_businesses_replay _ _ _ _ H1)
      as (self2 & H2 & E).
    now exists l, self1, self2.
  - intros fuel w self self1 start l H.
    exact (ReplayFacts.get_and_store_businesses_replay _ _ _ _ H).
Qed.

Lemma stored_again_writes_nothing_witness :
  exists (l : list Business) (self1 self2 : scrapper),
    get_and_store_businesses 2 Sample.listing_site Sample.fresh
      Sample.listing_url = Some (Ok l, self1)
    /\ get_and_store_businesses 2 Sample.listing_site self1
         Sample.listing_url = Some (Ok l, self2)
    /\ trip_advisor_mongo_client self2 = trip_advisor_mongo_client self1.
Proof.
  apply (proj1 (proj2 (proj2 stored_again_writes_nothing)) Sample.listing_site
           Sample.listing_pages Sample.fresh Sample.listing_url 2
           CrawlFacts.listing_pages_linked eq_refl eq_refl).
  cbn [List.length Sample.listing_pages]. lia.
Defined.

(* ------------------------------------------------------------------ *)
(** ** Listing pages *)

Module ListingFacts.
Import More.

Lemma for_each_raise {A B : Type} (f : A -> res B) (pre : list A) (x : A)
  (post : list A) (e : exn) :
  forallb (fun y => is_ok (f y)) pre = true ->
  f x = Raise e ->
  for_each f (pre ++ x :: post) = Raise e.
Proof.
  intros Hp Hx. induction pre as [|y pre IH]; cbn [app for_each].
  - now rewrite Hx.
  - cbn [forallb] in Hp. apply andb_true_iff in Hp as [Hy Hp].
    destruct (f y); [|discriminate]. cbn [bind]. now rewrite (IH Hp).
Qed.

Lemma for_each_ok {A B : Type} (f : A -> res B) (l : list A) (out : list B) :
  for_each f l = Ok out -> Forall2 (fun x y => f x = Ok y) l out.
Proof.
  revert out; induction l as [|x l IH]; intros out; cbn [for_each].
  - intros H; inversion H. constructor.
  - destruct (f x) as [y|] eqn:Fx; [|discriminate]. cbn [bind].
    destruct (for_each f l) as [ys|]; [|discriminate]. cbn [bind].
    intros H; inversion H; subst. constructor; [assumption|now apply IH].
Qed.

Lemma lstrip_head (s : str) (c : N) :
  hd_error (Str.lstrip s) = Some c -> Str.isspace c = false.
Proof.
  induction s as [|x s IH]; cbn [Str.lstrip]; [discriminate|].
  destruct (Str.isspace x) eqn:E; [exact IH|].
  cbn. intros H; inversion H; now subst.
Qed.

Lemma lstrip_suffix (s : str) : exists p, s = p ++ Str.lstrip s.
Proof.
  induction s as [|x s [p IH]]; [now exists []|].
  cbn [Str.lstrip]. destruct (Str.isspace x).
  - exists (x :: p). cbn. now rewrite <- IH.
  - now exists [].
Qed.

Lemma lstrip_last (s : str) :
  Str.lstrip s <> [] -> hd_error (rev (Str.lstrip s)) = hd_error (rev s).
Proof.
  intros H. destruct (lstrip_suffix s) as [p E].
  rewrite E at 2. rewrite rev_app_distr.
  destruct (rev (Str.lstrip s)) as [|y t] eqn:R; [|reflexivity].
  exfalso. apply H. apply (f_equal (@rev N)) in R.
  now rewrite rev_involutive in R.
Qed.

Lemma lstrip_fixed (s : str) :
  (forall c, hd_error s = Some c -> Str.isspace c = false) -> Str.lstrip s = s.
Proof.
  destruct s as [|x s]; [reflexivity|]. intros H. cbn [Str.lstrip].
  now rewrite (H x eq_refl).
Qed.

Lemma strip_stripped (s : str) : stripped (Str.strip s).
Proof.
  unfold stripped, Str.strip.
  set (t := Str.lstrip s). set (u := Str.lstrip (rev t)).
  split; intros c.
  - destruct u as [|y u'] eqn:U; [discriminate|].
    assert (Hu : Str.lstrip (rev t) <> []) by (fold u; rewrite U; discriminate).
    rewrite <- U. unfold u. rewrite (@lstrip_last _ Hu), rev_involutive.
    apply lstrip_head.
  - rewrite rev_involutive. apply lstrip_head.
Qed.

Lemma strip_fixed (s : str) : stripped s -> Str.strip s = s.
Proof.
  intros [H1 H2]. unfold Str.strip.
  rewrite (@lstrip_fixed _ H1), (@lstrip_fixed _ H2). apply rev_involutive.
Qed.

Lemma after_first_dot (rank name : str) :
  forallb (fun c => negb (N.eqb c 46)) rank = true ->
  Str.after_first (py ".") (rank ++ py "." ++ name) = Some name.
Proof.
  induction rank as [|c rank IH]; intros H.
  - reflexivity.
  - cbn [forallb] in H. apply andb_true_iff in H as [Hc Hr].
    apply negb_true_iff in Hc.
    cbn [app Str.after_first].
    replace (Str.starts_with (py ".") (c :: rank ++ py "." ++ name)) with false.
    + now apply IH.
    + cbn. rewrite N.eqb_sym in Hc. cbn in Hc. now rewrite Hc.
Qed.

Lemma after_first_none (s : str) :
  forallb (fun c => negb (N.eqb c 46)) s = true ->
  Str.after_first (py ".") s = None.
Proof.
  induction s as [|c s IH]; intros H; [reflexivity|].
  cbn [forallb] in H. apply andb_true_iff in H as [Hc Hr].
  apply negb_true_iff in Hc.
  cbn [Str.after_first].
  replace (Str.starts_with (py ".") (c :: s)) with false.
  - now apply IH.
  - cbn. rewrite N.eqb_sym in Hc. cbn in Hc. now rewrite Hc.
Qed.

End ListingFacts.

(** X5: one business card that cannot be read, on a listing page whose
    earlier cards can, makes the extraction of the whole page raise: the
    turn of the loop appends and stores nothing, not even the cards before
    it, and the crawl ends there with the list it had. *)
Theorem unreadable_card_ends_listing_crawl (w : Selenium.site)
  (businesses : list Business) (self : scrapper) (pre : list node)
  (card : node) (post : list node) (e : exn) :
  business_cards (Selenium.page_source (web_driver self)) = pre ++ card :: post ->
  forallb (fun c => is_ok (business_of_element c)) pre = true ->
  business_of_element card = Raise e ->
  get_all_business_in_page (Selenium.page_source (web_driver self)) = Raise e
  /\ businesses_turn w businesses self = (businesses, self, Except e)
  /\ forall fuel : nat,
      businesses_loop (S fuel) w businesses self = Some (businesses, self).
Proof.
  intros Hc Hp He.
  assert (G : get_all_business_in_page (Selenium.page_source (web_driver self))
              = Raise e).
  { unfold get_all_business_in_page. fold (business_cards
      (Selenium.page_source (web_driver self))). rewrite Hc.
    now apply ListingFacts.for_each_raise. }
  assert (T : businesses_turn w businesses self = (businesses, self, Except e)).
  { unfold businesses_turn. now rewrite G. }
  split; [exact G|]. split; [exact T|].
  intros fuel. cbn [businesses_loop]. now rewrite T.
Qed.

(** A page of three cards, the second without a link: the crawl returns
    without the first card's business. *)
Lemma unreadable_card_ends_listing_crawl_witness :
  get_all_business_in_page Sample2.broken_listing = Raise AttributeError
  /\ businesses_turn Sample.listing_site [] Sample2.on_broken_listing
     = ([], Sample2.on_broken_listing, Except AttributeError)
  /\ forall fuel : nat,
      businesses_loop (S fuel) Sample.listing_site [] Sample2.on_broken_listing
      = Some ([], Sample2.on_broken_listing).
Proof.
  apply (@unreadable_card_ends_listing_crawl Sample.listing_site []
           Sample2.on_broken_listing
           [Sample.business_card (py "1. Cafe Uno") (py "/cafe-uno")]
           Sample2.card_without_link
           [Sample.business_card (py "3. Osteria Tre") (py "/osteria-tre")]
           AttributeError); vm_compute; reflexivity.
Defined.

(** X6: the name of the business that a card gives is what follows the
    first dot of the card's caption, the text of the first [div] inside
    its first [div], without the white space around it; it is the whole
    caption, likewise, when the caption has no dot.  So a name never
    starts or ends with white space. *)
Theorem business_name_of_caption :
  (forall (element d1 d2 a : node) (href rank name : str),
      child (py "div") element = Some d1 ->
      child (py "div") d1 = Some d2 ->
      child (py "a") element = Some a ->
      Bs4.get (py "href") a = Some href ->
      text d2 = rank ++ py "." ++ name ->
      forallb (fun c => negb (N.eqb c 46)) rank = true ->
      business_of_element element
      = Ok (mkBusiness (Str.strip name) (TRIP_ADVISOR_URL ++ href)))
  /\ (forall (element d1 d2 a : node) (href : str),
      child (py "div") element = Some d1 ->
      child (py "div") d1 = Some d2 ->
      child (py "a") element = Some a ->
      Bs4.get (py "href") a = Some href ->
      forallb (fun c => negb (N.eqb c 46)) (text d2) = true ->
      business_of_element element
      = Ok (mkBusiness (Str.strip (text d2)) (TRIP_ADVISOR_URL ++ href)))
  /\ (forall (element : node) (b : Business),
      business_of_element element = Ok b -> stripped (business_name b)).
Proof.
  split; [|split].
  - intros element d1 d2 a href rank name H1 H2 Ha Hh Ht Hr.
    unfold business_of_element. rewrite H1. cbn [not_none bind].
    rewrite H2. cbn [not_none bind]. rewrite Ha. cbn [not_none bind].
    rewrite Hh, Ht. unfold Str.split1_last.
    now rewrite (ListingFacts.after_first_dot _ name Hr).
  - intros element d1 d2 a href H1 H2 Ha Hh Hr.
    unfold business_of_element. rewrite H1. cbn [not_none bind].
    rewrite H2. cbn [not_none bind]. rewrite Ha. cbn [not_none bind].
    rewrite Hh. unfold Str.split1_last.
    now rewrite (ListingFacts.after_first_none _ Hr).
  - intros element b. unfold business_of_element.
    destruct (not_none (child (py "div") element)) as [d1|]; [|discriminate].
    cbn [bind].
    destruct (not_none (child (py "div") d1)) as [d2|]; [|discriminate].
    cbn [bind].
    destruct (not_none (child (py "a") element)) as [a|]; [|discriminate].
    cbn [bind].
    destruct (Bs4.get (py "href") a); [|discriminate].
    intros H; inversion H; subst. cbn [business_name].
    apply ListingFacts.strip_stripped.
Qed.

(** Only the first dot of a caption ends the rank. *)
Lemma business_name_of_caption_witness :
  business_of_element (Sample.business_card (py "12. St. John ") (py "/st-john"))
  = Ok (mkBusiness (py "St. John") (py "https://www.tripadvisor.com/st-john")).
Proof.
  apply (proj1 business_name_of_caption
           (Sample.business_card (py "12. St. John ") (py "/st-john"))
           (Sample.el "div" []
              [Sample.el "div" [] [Bs4.Text (py "12. St. John ")]])
           (Sample.el "div" [] [Bs4.Text (py "12. St. John ")])
           (Sample.el "a" [(py "href", py "/st-john")] [])
           (py "/st-john") (py "12") (py " St. John ")); reflexivity.
Defined.

(** X7: when the extraction of a listing page returns, it returns one
    business for every business card, in the order of the cards, and the
    address of each is the site's address followed by the [href] of the
    first link in its card. *)
Theorem one_business_per_card (page : node) (found : list Business) :
  get_all_business_in_page page = Ok found ->
  List.length found = List.length (business_cards page)
  /\ Forall2 (fun card b =>
                business_of_element card = Ok b
                /\ exists a href,
                    child (py "a") card = Some a
                    /\ Bs4.get (py "href") a = Some href
                    /\ business_url b = TRIP_ADVISOR_URL ++ href)
             (business_cards page) found.
Proof.
  unfold get_all_business_in_page. fold (business_cards page). intros H.
  apply ListingFacts.for_each_ok in H.
  split; [symmetry; eapply Forall2_length; exact H|].
  eapply Forall2_impl; [|exact H].
  intros card b Hb. split; [exact Hb|].
  unfold business_of_element in Hb.
  destruct (not_none (child (py "div") card)) as [d1|]; [|discriminate].
  cbn [bind] in Hb.
  destruct (not_none (child (py "div") d1)) as [d2|]; [|discriminate].
  cbn [bind] in Hb.
  destruct (child (py "a") card) as [a|]; [|discriminate].
  cbn [not_none bind] in Hb.
  destruct (Bs4.get (py "href") a) as [href|] eqn:Hh; [|discriminate].
  inversion Hb; subst. exists a, href. repeat split; assumption.
Qed.

Lemma one_business_per_card_witness :
  List.length [mkBusiness (py "Osteria Tre") (py "https://www.tripadvisor.com/osteria-tre");
               mkBusiness (py "Da Quattro") (py "https://www.tripadvisor.com/da-quattro")]
  = List.length (business_cards Sample.listing_2).
Proof.
  apply (@one_business_per_card Sample.listing_2
           [mkBusiness (py "Osteria Tre") (py "https://www.tripadvisor.com/osteria-tre");
            mkBusiness (py "Da Quattro") (py "https://www.tripadvisor.com/da-quattro")]).
  vm_compute. reflexivity.
Defined.

(* ------------------------------------------------------------------ *)
(** ** The next-page link *)

Module ArrowFacts.
Import More.

Lemma label_cases (a : node) :
  (is_next a = true /\ has_label a = true /\ is_other a = false)
  \/ (is_other a = true /\ has_label a = true /\ is_next a = false)
  \/ (has_label a = false /\ is_next a = false /\ is_other a = false).
Proof.
  unfold is_next, is_other, has_label.
  destruct (Bs4.get (py "aria-label") a) as [l|]; [|tauto].
  destruct (Str.eqb l (py "Next page")); cbn; tauto.
Qed.

Lemma first_next_page_next (pre : list node) (a : node) (post : list node) :
  forallb is_other pre = true -> is_next a = true ->
  first_next_page (pre ++ a :: post) = Ok (Some a).
Proof.
  intros Hp Ha. induction pre as [|x pre IH]; cbn [app first_next_page].
  - unfold is_next, Bs4.get in Ha. unfold Bs4.item, getitem.
    destruct (lookup (py "aria-label") (attrs_of a)) as [l|]; [|discriminate].
    cbn [bind]. now rewrite Ha.
  - cbn [forallb] in Hp. apply andb_true_iff in Hp as [Hx Hp].
    unfold is_other, Bs4.get in Hx. unfold Bs4.item, getitem.
    destruct (lookup (py "aria-label") (attrs_of x)) as [l|]; [|discriminate].
    cbn [bind]. apply negb_true_iff in Hx. rewrite Hx. now apply IH.
Qed.

Lemma first_next_page_none (l : list node) :
  forallb is_other l = true -> first_next_page l = Ok None.
Proof.
  induction l as [|x l IH]; [reflexivity|].
  cbn [forallb first_next_page]. intros Hp.
  apply andb_true_iff in Hp as [Hx Hp].
  unfold is_other, Bs4.get in Hx. unfold Bs4.item, getitem.
  destruct (lookup (py "aria-label") (attrs_of x)) as [lbl|]; [|discriminate].
  cbn [bind]. apply negb_true_iff in Hx. rewrite Hx. now apply IH.
Qed.

Lemma first_next_page_raise (pre : list node) (a : node) (post : list node) :
  forallb is_other pre = true -> has_label a = false ->
  first_next_page (pre ++ a :: post) = Raise KeyError.
Proof.
  intros Hp Ha. induction pre as [|x pre IH]; cbn [app first_next_page].
  - unfold has_label, Bs4.get in Ha. unfold Bs4.item, getitem.
    destruct (lookup (py "aria-label") (attrs_of a)) as [l|]; [discriminate|].
    reflexivity.
  - cbn [forallb] in Hp. apply andb_true_iff in Hp as [Hx Hp].
    unfold is_other, Bs4.get in Hx. unfold Bs4.item, getitem.
    destruct (lookup (py "aria-label") (attrs_of x)) as [l|]; [|discriminate].
    cbn [bind]. apply negb_true_iff in Hx. rewrite Hx. now apply IH.
Qed.

(** Every list of arrows has one of the three shapes. *)
Lemma arrows_shape (l : list node) :
  forallb is_other l = true
  \/ exists pre a post,
      l = pre ++ a :: post /\ forallb is_other pre = true
      /\ (is_next a = true \/ has_label a = false).
Proof.
  induction l as [|x l [IH|(pre & a & post & E & Hp & Ha)]].
  - now left.
  - destruct (label_cases x) as [(N & _)|[(O & _)|(L & _)]].
    + right. exists [], x, l. cbn. tauto.
    + left. cbn. now rewrite O.
    + right. exists [], x, l. cbn. tauto.
  - destruct (label_cases x) as [(N & _)|[(O & _)|(L & _)]].
    + right. exists [], x, l. cbn. tauto.
    + right. exists (x :: pre), a, post. cbn. rewrite O, E. tauto.
    + right. exists [], x, l. cbn. tauto.
Qed.

End ArrowFacts.

(** X8: [find_next_page_arrow] goes through the arrows of the page in
    order.  It returns the first arrow labelled ["Next page"] when all the
    arrows before it carry another label; it returns [None] when every
    arrow carries another label; and it raises [KeyError] when an arrow
    without a label comes before any arrow labelled ["Next page"], also
    when such an arrow follows.  It does nothing else. *)
Theorem find_next_page_arrow_cases (p : node) :
  (forall a : node,
      find_next_page_arrow p = Ok (Some a)
      <-> exists pre post,
          arrows p = pre ++ a :: post
          /\ forallb More.is_other pre = true /\ is_next a = true)
  /\ (find_next_page_arrow p = Ok None
      <-> forallb More.is_other (arrows p) = true)
  /\ (forall e : exn,
      find_next_page_arrow p = Raise e
      <-> e = KeyError
          /\ exists pre a post,
              arrows p = pre ++ a :: post
              /\ forallb More.is_other pre = true /\ has_label a = false).
Proof.
  unfold find_next_page_arrow. fold (arrows p).
  assert (S := ArrowFacts.arrows_shape (arrows p)).
  split; [|split].
  - intros a. split.
    + intros H.
      destruct S as [O|(pre & x & post & E & Hp & [Hx|Hx])].
      * rewrite (@ArrowFacts.first_next_page_none _ O) in H. discriminate.
      * rewrite E, (@ArrowFacts.first_next_page_next pre x post Hp Hx) in H.
        inversion H; subst. exists pre, post. rewrite <- E. tauto.
      * rewrite E, (@ArrowFacts.first_next_page_raise pre x post Hp Hx) in H.
        discriminate.
    + intros (pre & post & E & Hp & Ha). rewrite E.
      now apply ArrowFacts.first_next_page_next.
  - split.
    + intros H.
      destruct S as [O|(pre & x & post & E & Hp & [Hx|Hx])]; [exact O| |].
      * rewrite E, (@ArrowFacts.first_next_page_next pre x post Hp Hx) in H.
        discriminate.
      * rewrite E, (@ArrowFacts.first_next_page_raise pre x post Hp Hx) in H.
        discriminate.
    + apply ArrowFacts.first_next_page_none.
  - intros e. split.
    + intros H.
      destruct S as [O|(pre & x & post & E & Hp & [Hx|Hx])].
      * rewrite (@ArrowFacts.first_next_page_none _ O) in H. discriminate.
      * rewrite E, (@ArrowFacts.first_next_page_next pre x post Hp Hx) in H.
        discriminate.
      * rewrite E, (@ArrowFacts.first_next_page_raise pre x post Hp Hx) in H.
        inversion H; subst. split; [reflexivity|].
        exists pre, x, post. rewrite <- E. tauto.
    + intros (-> & pre & a & post & E & Hp & Ha). rewrite E.
      now apply ArrowFacts.first_next_page_raise.
Qed.

(** On the page with an arrow that has no label the finder raises. *)
Lemma find_next_page_arrow_cases_witness :
  find_next_page_arrow Sample.unlabelled_page = Raise KeyError.
Proof.
  apply (proj2 (proj2 (find_next_page_arrow_cases Sample.unlabelled_page))).
  split; [reflexivity|].
  exists [], (Sample.el "a"
                [(py "class", TripAdvisorWebScrapper.next_page_arrow_class);
                 (py "href", py "/cafe-uno-p2")] []), [].
  split; [vm_compute; reflexivity|]. split; reflexivity.
Defined.

(* ------------------------------------------------------------------ *)
(** ** Sites whose pages never run out *)

Module EndlessFacts.
Import More.

Lemma businesses_loop_endless (w : Selenium.site) (s : node -> Prop) :
  endless w s ->
  forall (fuel : nat) (acc : list Business) (p : node) (vis : list str)
         (c : collection),
    s p ->
    businesses_loop fuel w acc (Scrapper (Selenium.WebDriver p vis) c) = None.
Proof.
  intros E. induction fuel as [|fuel IH]; intros acc p vis c Hp; [reflexivity|].
  destruct (E p Hp) as (Hok & Hst & a & h & p' & Ha & Hh & Hw & Hp').
  unfold listing_ok in Hok. apply andb_true_iff in Hok as [Hb Hlab].
  unfold businesses_storable, businesses_on in Hst.
  cbn [businesses_loop]. unfold businesses_turn.
  cbn [web_driver Selenium.page_source trip_advisor_mongo_client].
  destruct (get_all_business_in_page p) as [found|]; [|discriminate].
  rewrite (@CrawlFacts.store_businesses_storable _ Hst).
  rewrite (CrawlFacts.find_next_page_arrow_labelled _ Hlab), Ha.
  unfold Bs4.item, getitem. unfold Bs4.get in Hh. rewrite Hh.
  unfold Selenium.get. rewrite Hw.
  cbn [web_driver Selenium.visited trip_advisor_mongo_client].
  now apply IH.
Qed.

End EndlessFacts.

(** X9: the listing crawl keeps no record of the pages it has seen: on a
    site where the pages never run out, as when a next-page link leads
    back to an earlier page, and no page raises while it is processed, the
    loop never ends, whatever the bound on its turns. *)
Theorem endless_listing_never_returns (w : Selenium.site) (s : node -> Prop)
  (start : str) (p : node) :
  More.endless w s ->
  w start = Some p ->
  s p ->
  forall (fuel : nat) (self : scrapper),
    get_and_store_businesses fuel w self start = None.
Proof.
  intros E Hw Hp fuel self.
  unfold get_and_store_businesses, Selenium.get. rewrite Hw.
  now rewrite (@EndlessFacts.businesses_loop_endless w s E fuel [] p _ _ Hp).
Qed.

(** A page whose next-page link is its own address. *)
Lemma endless_listing_never_returns_witness :
  get_and_store_businesses 1000 Sample2.looping_site Sample.fresh
    Sample.listing_url = None.
Proof.
  apply (@endless_listing_never_returns Sample2.looping_site
           (fun p => p = Sample2.looping_listing) Sample.listing_url
           Sample2.looping_listing).
  - intros p ->. split; [vm_compute; reflexivity|].
    split; [vm_compute; reflexivity|].
    exists (Sample.arrow (py "Next page") (py "/Restaurants")),
           (py "/Restaurants"), Sample2.looping_listing.
    split; [vm_compute; reflexivity|].
    split; [reflexivity|]. split; reflexivity.
  - reflexivity.
  - reflexivity.
Defined.

(* ------------------------------------------------------------------ *)
(** ** What an extracted review carries *)

Module ReviewFacts.
Import More.

Lemma in_seq {A B : Type} (m : Match.matcher A) (k : A -> Match.matcher B)
  (s : str) (x : B * str) :
  In x (Match.seq m k s) ->
  exists a r, In (a, r) (m s) /\ In x (k a r).
Proof.
  unfold Match.seq. intros H. apply in_flat_map in H as ([a r] & H1 & H2).
  exists a, r. split; assumption.
Qed.

Lemma make_date_valid (y m d : N) (dt : date) :
  Strptime.make_date y m d = Ok dt -> dt = Date y m d /\ valid_date dt.
Proof.
  unfold Strptime.make_date.
  destruct (_ && _)%bool eqn:E; [|discriminate].
  intros H; inversion H; subst. split; [reflexivity|].
  repeat (apply andb_true_iff in E; destruct E as [E ?]).
  unfold valid_date. cbn [year month day].
  repeat match goal with H : (_ <=? _)%N = true |- _ => apply N.leb_le in H end.
  lia.
Qed.

Lemma finish_valid (r : option (N * N * N * str)) (dt : date) :
  Strptime.finish r = Ok dt ->
  valid_date dt
  /\ exists y m d, r = Some ((y, m, d), []) /\ dt = Date y m d.
Proof.
  unfold Strptime.finish.
  destruct r as [[[[y m] d] [|c rest]]|]; try discriminate.
  intros H. apply make_date_valid in H as [-> V].
  split; [exact V|]. exists y, m, d. split; reflexivity.
Qed.

Lemma month_year_first (s : str) (dt : date) :
  Strptime.month_year s = Ok dt -> valid_date dt /\ day dt = 1%N.
Proof.
  unfold Strptime.month_year. intros H.
  apply finish_valid in H as (V & y & m & d & F & ->).
  split; [exact V|]. cbn [day].
  unfold Match.first in F.
  match type of F with
  | hd_error ?l = _ =>
      assert (I : In ((y, m, d), []) l)
        by (destruct l; [discriminate|inversion F; now left])
  end.
  apply in_seq in I as (m0 & r1 & _ & I).
  apply in_seq in I as (sp & r2 & _ & I).
  apply in_seq in I as (y0 & r3 & _ & I).
  unfold Match.ret in I. destruct I as [I|[]]. now inversion I.
Qed.

Lemma month_day_year_valid (s : str) (dt : date) :
  Strptime.month_day_year s = Ok dt -> valid_date dt.
Proof.
  unfold Strptime.month_day_year. intros H.
  now apply finish_valid in H as (V & _).
Qed.

Lemma int_of_float_nonneg (n k : N) (z : Z) :
  Num.int_of_float n k = Ok z -> (0 <= z)%Z.
Proof.
  unfold Num.int_of_float. cbv zeta.
  repeat match goal with
         | |- context [if ?b then _ else _] => destruct b
         end;
    intros H; inversion H; subst;
    first [apply N2Z.is_nonneg | apply Z.le_refl].
Qed.

Lemma rating_of_label_nonneg (l : option str) (z : Z) :
  rating_of_label l = Ok z -> (0 <= z)%Z.
Proof.
  unfold rating_of_label. destruct l as [lbl|]; [|discriminate].
  destruct (not_none (Match.search rating_re lbl)) as [g|]; [|discriminate].
  cbn [bind]. unfold Num.int_float.
  destruct (Num.decimal g) as [[n k]|]; [|discriminate].
  apply int_of_float_nonneg.
Qed.

Lemma read_card_complete (dict : list (str * str)) (name url : str)
  (card : node) (f : card_fields) :
  lookup (py "business_name") dict = Some name ->
  lookup (py "business_url") dict = Some url ->
  read_card card = Ok f ->
  complete_review dict (review_of name url f).
Proof.
  intros Hn Hu. rewrite CardFacts.read_card_fields.
  destruct (reviewer_of card) as [u|]; [|discriminate]. cbn [bind].
  destruct (review_date_of card) as [d|] eqn:D; [|discriminate]. cbn [bind].
  destruct (title_of card) as [t|] eqn:T; [|discriminate]. cbn [bind].
  destruct (body_of card) as [x|] eqn:X; [|discriminate]. cbn [bind].
  destruct (rating_of card) as [g|] eqn:G; [|discriminate]. cbn [bind].
  destruct (visit_date_of card) as [v|] eqn:V; [|discriminate]. cbn [bind].
  intros H; inversion H; subst. unfold complete_review, review_of.
  cbn [review_date visit_data review_rating review_title review_text business
       business_name business_url cf_date cf_visit_date cf_rating cf_title
       cf_text cf_username].
  repeat split; try assumption.
  - exists d. split; [reflexivity|].
    unfold review_date_of in D.
    destruct (region "div" "RpeCd" card); [|discriminate].
    cbn [bind] in D. now apply month_year_first in D.
  - exists v. split; [reflexivity|].
    unfold visit_date_of in V.
    destruct (region "div" "TreSq" card) as [o|]; [|discriminate].
    cbn [bind] in V.
    destruct (region "div" "biGQs _P pZUbB ncFvv osNWb" o); [|discriminate].
    cbn [bind] in V. now apply month_day_year_valid in V.
  - unfold rating_of in G.
    destruct (region "svg" "UctUV d H0" card); [|discriminate].
    cbn [bind] in G. now apply rating_of_label_nonneg in G.
  - unfold title_of in T.
    destruct (region "div" "biGQs _P fiohW qWPrE ncFvv fOtGX" card); [|discriminate].
    cbn [bind] in T. inversion T. apply ListingFacts.strip_stripped.
  - unfold title_of in T.
    destruct (region "div" "biGQs _P fiohW qWPrE ncFvv fOtGX" card); [|discriminate].
    cbn [bind] in T. inversion T. apply ListingFacts.strip_stripped.
  - unfold body_of in X.
    destruct (region "div" "biGQs _P pZUbB KxBGd" card); [|discriminate].
    cbn [bind] in X. inversion X. apply ListingFacts.strip_stripped.
  - unfold body_of in X.
    destruct (region "div" "biGQs _P pZUbB KxBGd" card); [|discriminate].
    cbn [bind] in X. inversion X. apply ListingFacts.strip_stripped.
Qed.

Lemma reviews_of_cards_complete (cards : list node) (dict : list (str * str))
  (acc out : list Review) :
  Forall (complete_review dict) acc ->
  reviews_of_cards cards dict acc = Ok out ->
  Forall (complete_review dict) out.
Proof.
  revert acc; induction cards as [|card rest IH]; intros acc Ha;
    cbn [reviews_of_cards].
  - intros H; inversion H; now subst.
  - destruct (read_card card) as [f|] eqn:R; [|now apply IH].
    unfold getitem.
    destruct (lookup (py "business_name") dict) as [name|] eqn:Hn; [|discriminate].
    destruct (lookup (py "business_url") dict) as [url|] eqn:Hu; [|discriminate].
    cbn [bind]. apply IH. apply Forall_app. split; [exact Ha|].
    constructor; [|constructor].
    exact (@read_card_complete dict name url card f Hn Hu R).
Qed.

End ReviewFacts.

(** X10: every review that the extraction of a page returns has a review
    date and a visit date, both dates of the calendar and the review date
    on the first of its month; a rating that is not negative, so never the
    constructor's default of -1; a title and a text without white space
    around them; and the name and the address of the business dict. *)
Theorem extracted_reviews_are_complete (page : node)
  (business : list (str * str)) (reviews : list Review) :
  get_all_reviews_in_page page business = Ok reviews ->
  Forall (More.complete_review business) reviews.
Proof.
  unfold get_all_reviews_in_page.
  apply ReviewFacts.reviews_of_cards_complete. constructor.
Qed.

Lemma extracted_reviews_are_complete_witness :
  exists reviews : list Review,
    get_all_reviews_in_page Sample.reviews_page Sample.cafe_dict = Ok reviews
    /\ List.length reviews = 2
    /\ Forall (More.complete_review Sample.cafe_dict) reviews.
Proof.
  eexists. split; [vm_compute; reflexivity|]. split; [reflexivity|].
  apply (@extracted_reviews_are_complete Sample.reviews_page Sample.cafe_dict).
  vm_compute. reflexivity.
Defined.

(* ------------------------------------------------------------------ *)
(** ** The shape of an identity hash and of the text that is hashed *)

Module DigestFacts.
Import More.
Local Open Scope N_scope.

Lemma hex_length (n : nat) (x : N) : List.length (SHA256.hex n x) = n.
Proof. unfold SHA256.hex. now rewrite length_map, length_rev, length_seq. Qed.

Lemma hex_digit_is_hex (d : N) : d < 16 -> is_hex (SHA256.hex_digit d) = true.
Proof.
  intros H. unfold SHA256.hex_digit, is_hex.
  destruct (d <? 10) eqn:E.
  - apply N.ltb_lt in E. apply orb_true_iff. left.
    apply andb_true_iff. split; apply N.leb_le; lia.
  - apply N.ltb_ge in E. apply orb_true_iff. right.
    apply andb_true_iff. split; apply N.leb_le; lia.
Qed.

Lemma hex_is_hex (n : nat) (x : N) : forallb is_hex (SHA256.hex n x) = true.
Proof.
  unfold SHA256.hex. apply forallb_forall. intros c H.
  apply in_map_iff in H as (i & <- & _).
  apply hex_digit_is_hex. apply N.mod_lt. discriminate.
Qed.

Lemma hexdigest_shape (msg : bytes) :
  List.length (SHA256.hexdigest msg) = 64%nat
  /\ forallb is_hex (SHA256.hexdigest msg) = true.
Proof.
  unfold SHA256.hexdigest, SHA256.digest_words. cbv zeta.
  set (r := SHA256.blocks _ _ _). cbn [flat_map].
  split.
  - rewrite !length_app, !hex_length. reflexivity.
  - rewrite !forallb_app, !hex_is_hex. reflexivity.
Qed.

Lemma is_hex_printable (c : N) : is_hex c = true -> printable c = true.
Proof.
  unfold is_hex, printable. intros H.
  apply orb_true_iff in H as [H|H]; apply andb_true_iff in H as [H1 H2];
    apply N.leb_le in H1, H2; apply andb_true_iff; split; apply N.leb_le; lia.
Qed.

Lemma hex_printable (n : nat) (x : N) : forallb printable (SHA256.hex n x) = true.
Proof.
  apply forallb_forall. intros c H. apply is_hex_printable.
  pose proof (hex_is_hex n x) as F. rewrite forallb_forall in F. now apply F.
Qed.

Lemma escape_char_printable (c : N) :
  forallb printable (Json.escape_char c) = true.
Proof.
  unfold Json.escape_char.
  repeat match goal with
         | |- context [if ?b then _ else _] =>
             let E := fresh "E" in destruct b eqn:E; [try reflexivity|]
         end.
  - cbn [forallb]. unfold printable. now rewrite E6.
  - rewrite forallb_app, hex_printable. reflexivity.
  - cbv zeta. rewrite !forallb_app, !hex_printable. reflexivity.
Qed.

Lemma flat_map_printable {A : Type} (f : A -> str) (l : list A) :
  (forall x, forallb printable (f x) = true) ->
  forallb printable (flat_map f l) = true.
Proof.
  intros H. induction l as [|x l IH]; [reflexivity|].
  cbn [flat_map]. now rewrite forallb_app, H, IH.
Qed.

Lemma dumps_str_printable (s : str) : forallb printable (Json.dumps_str s) = true.
Proof.
  unfold Json.dumps_str. rewrite !forallb_app.
  rewrite (flat_map_printable _ s escape_char_printable). reflexivity.
Qed.

Lemma uint_printable (d : Decimal.uint) :
  forallb printable (py (NilEmpty.string_of_uint d)) = true.
Proof.
  induction d; cbn [NilEmpty.string_of_uint]; try reflexivity;
    unfold py in *; cbn [list_ascii_of_string map forallb];
    rewrite IHd; reflexivity.
Qed.

Lemma dumps_int_printable (z : Z) : forallb printable (Json.dumps_int z) = true.
Proof.
  unfold Json.dumps_int, NilZero.string_of_int, NilZero.string_of_uint.
  destruct (Z.to_int z) as [d|d]; destruct d; try reflexivity;
    try apply uint_printable;
    unfold py; cbn [list_ascii_of_string map forallb];
    try (rewrite andb_true_iff; split; [reflexivity|]);
    apply (uint_printable (_ d)).
Qed.

Lemma join_printable (sep : str) (l : list str) :
  forallb printable sep = true ->
  Forall (fun s => forallb printable s = true) l ->
  forallb printable (Str.join sep l) = true.
Proof.
  intros Hs. induction 1 as [|x l Hx Hl IH]; [reflexivity|].
  cbn [Str.join]. destruct l as [|y l]; [exact Hx|].
  now rewrite !forallb_app, Hx, Hs, IH.
Qed.

Lemma dumps_printable (d : Json.dict) : forallb printable (Json.dumps d) = true.
Proof.
  unfold Json.dumps. rewrite !forallb_app.
  rewrite join_printable; [reflexivity|reflexivity|].
  apply Forall_forall. intros s H. apply in_map_iff in H as ([k v] & <- & _).
  unfold Json.dumps_item. cbn [fst snd]. rewrite !forallb_app, dumps_str_printable.
  destruct v; cbn [Json.dumps_value];
    [rewrite dumps_str_printable|rewrite dumps_int_printable]; reflexivity.
Qed.

Lemma encode_printable (s : str) : forallb printable s = true -> encode s = s.
Proof.
  unfold encode. induction s as [|c s IH]; [reflexivity|].
  cbn [forallb flat_map]. intros H. apply andb_true_iff in H as [Hc Hs].
  unfold printable in Hc. apply andb_true_iff in Hc as [_ Hc].
  apply N.leb_le in Hc.
  assert (E : (c <? 128) = true) by (apply N.ltb_lt; lia).
  rewrite E. cbn [app]. now rewrite (IH Hs).
Qed.

End DigestFacts.

(** X11: an identity hash, of a business or of a review, is 64 lower-case
    hexadecimal digits, whatever the record holds. *)
Theorem identity_hash_shape :
  (forall b : Business,
      List.length (BusinessM.get_object_hash b) = 64
      /\ forallb More.is_hex (BusinessM.get_object_hash b) = true)
  /\ (forall r : Review,
      List.length (ReviewM.get_object_hash r) = 64
      /\ forallb More.is_hex (ReviewM.get_object_hash r) = true).
Proof.
  split; intros x; apply DigestFacts.hexdigest_shape.
Qed.

(** X12: the text that is hashed is printable ASCII, whatever characters
    the fields of the record hold, so that its encoding is the text itself,
    byte for character, and never meets a character it cannot encode. *)
Theorem hashed_text_is_ascii :
  (forall d : Json.dict,
      forallb More.printable (Json.dumps d) = true
      /\ encode (Json.dumps d) = Json.dumps d)
  /\ (forall b : Business,
      BusinessM.get_object_hash b
      = SHA256.hexdigest (Json.dumps (BusinessM.__dict__ b)))
  /\ (forall r : Review,
      ReviewM.get_object_hash r
      = SHA256.hexdigest (Json.dumps (ReviewM.hash_data r))).
Proof.
  assert (E : forall d, encode (Json.dumps d) = Json.dumps d)
    by (intros d; apply DigestFacts.encode_printable, DigestFacts.dumps_printable).
  split; [|split].
  - intros d. split; [apply DigestFacts.dumps_printable|apply E].
  - intros b. unfold BusinessM.get_object_hash. cbv zeta. now rewrite E.
  - intros r. unfold ReviewM.get_object_hash. cbv zeta. now rewrite E.
Qed.
(* ------------------------------------------------------------------ *)
(** ** What a crawl returns is in the store *)

Module ReturnedFacts.
Import More.

Lemma held_extends (c c' : collection) (l : list Business) :
  extends c c' -> businesses_held c l -> businesses_held c' l.
Proof.
  intros E H. unfold businesses_held in *. eapply Forall_impl; [|exact H].
  intros b. apply (StoreFacts.holds_extends E).
Qed.

Lemma reviews_held_extends (c c' : collection) (l : list Review) :
  extends c c' -> reviews_held c l -> reviews_held c' l.
Proof.
  intros E H. unfold reviews_held in *. eapply Forall_impl; [|exact H].
  intros r. apply (StoreFacts.holds_extends E).
Qed.

Lemma businesses_turn_held (w : Selenium.site) (acc l : list Business)
  (self self' : scrapper) (s : signal) :
  businesses_turn w acc self = (l, self', s) ->
  businesses_held (trip_advisor_mongo_client self) acc ->
  match s with
  | Except _ => all_but_unstored (trip_advisor_mongo_client self') l
  | _ => businesses_held (trip_advisor_mongo_client self') l
  end.
Proof.
  unfold businesses_turn.
  destruct (get_all_business_in_page _) as [found|e].
  2:{ intros H Ha; inversion H; subst. now left. }
  rewrite (CrawlFacts.store_businesses_acc found acc).
  destruct (store_businesses found [] _) as [[l1 c1] s1] eqn:S.
  destruct (StoreFacts.store_businesses_outcome _ _ S) as [E M].
  destruct s1 as [e|].
  { destruct M as (pre & b & post & Hf & Hl1 & Hh & Hr).
    intros H Ha; inversion H; subst. cbn [trip_advisor_mongo_client].
    right. exists (acc ++ pre), b, e.
    split; [now rewrite app_assoc|]. split; [|exact Hr].
    apply Forall_app. split; [exact (held_extends E Ha)|exact Hh]. }
  destruct M as [Hl1 Hh]. subst l1.
  assert (A : businesses_held (trip_advisor_mongo_client self) acc ->
              businesses_held c1 (acc ++ found)).
  { intros Ha. apply Forall_app. split; [exact (held_extends E Ha)|exact Hh]. }
  destruct (find_next_page_arrow _) as [[a|]|e];
    try (intros H Ha; inversion H; subst; cbn [trip_advisor_mongo_client];
         first [left; now apply A | now apply A]).
  destruct (Bs4.item a _) as [href|e];
    try (intros H Ha; inversion H; subst; cbn [trip_advisor_mongo_client];
         left; now apply A).
  cbn [web_driver].
  destruct (Selenium.get _ _ _) as [d|e];
    intros H Ha; inversion H; subst; cbn [trip_advisor_mongo_client];
    first [left; now apply A | now apply A].
Qed.

Lemma businesses_loop_held (fuel : nat) (w : Selenium.site)
  (acc l : list Business) (self self' : scrapper) :
  businesses_loop fuel w acc self = Some (l, self') ->
  businesses_held (trip_advisor_mongo_client self) acc ->
  all_but_unstored (trip_advisor_mongo_client self') l.
Proof.
  revert acc self; induction fuel as [|fuel IH]; intros acc self; [discriminate|].
  cbn [businesses_loop].
  destruct (businesses_turn w acc self) as [[l1 s1] sg] eqn:T.
  intros H Ha. pose proof (@businesses_turn_held _ _ _ _ _ _ T Ha) as H1.
  destruct sg.
  - eapply IH; [exact H|exact H1].
  - inversion H; subst. now left.
  - inversion H; subst. exact H1.
Qed.

Lemma reviews_turn_held (w : Selenium.site) (business : list (str * str))
  (acc l : list Review) (self self' : scrapper) (s : signal) :
  reviews_turn w business acc self = (l, self', s) ->
  reviews_held (trip_advisor_mongo_client self) acc ->
  reviews_held (trip_advisor_mongo_client self') l.
Proof.
  unfold reviews_turn.
  destruct (get_all_reviews_in_page _ _) as [found|e].
  2:{ intros H Ha; inversion H; subst. exact Ha. }
  rewrite (CrawlFacts.store_reviews_acc found acc).
  destruct (store_reviews found [] _) as [[l1 c1] s1] eqn:S.
  destruct (StoreFacts.store_reviews_outcome _ _ S) as [E M].
  destruct s1 as [e|].
  { destruct M as (pre & r & post & Hf & Hl1 & Hh & Hr).
    intros H Ha; inversion H; subst. cbn [trip_advisor_mongo_client].
    apply Forall_app. split; [exact (reviews_held_extends E Ha)|exact Hh]. }
  destruct M as [Hl1 Hh]. subst l1.
  assert (A : reviews_held (trip_advisor_mongo_client self) acc ->
              reviews_held c1 (acc ++ found)).
  { intros Ha. apply Forall_app.
    split; [exact (reviews_held_extends E Ha)|exact Hh]. }
  destruct (find_next_page_arrow _) as [[a|]|e];
    try (intros H Ha; inversion H; subst; cbn [trip_advisor_mongo_client];
         now apply A).
  destruct (Bs4.item a _) as [href|e];
    try (intros H Ha; inversion H; subst; cbn [trip_advisor_mongo_client];
         now apply A).
  cbn [web_driver].
  destruct (Selenium.get _ _ _) as [d|e];
    intros H Ha; inversion H; subst; cbn [trip_advisor_mongo_client];
    now apply A.
Qed.

Lemma reviews_loop_held (fuel : nat) (w : Selenium.site)
  (business : list (str * str)) (acc l : list Review) (self self' : scrapper) :
  reviews_loop fuel w business acc self = Some (Ok l, self') ->
  reviews_held (trip_advisor_mongo_client self) acc ->
  reviews_held (trip_advisor_mongo_client self') l.
Proof.
  revert acc self; induction fuel as [|fuel IH]; intros acc self; [discriminate|].
  cbn [reviews_loop].
  destruct (reviews_turn w business acc self) as [[l1 s1] sg] eqn:T.
  intros H Ha. pose proof (@reviews_turn_held _ _ _ _ _ _ _ T Ha) as H1.
  destruct sg.
  - eapply IH; [exact H|exact H1].
  - inversion H; subst. exact H1.
  - discriminate.
Qed.

Lemma reviews_of_businesses_held (fuel : nat) (w : Selenium.site)
  (businesses : list (list (str * str))) (acc l : list Review)
  (self self' : scrapper) :
  reviews_of_businesses fuel w businesses acc self = Some (Ok l, self') ->
  reviews_held (trip_advisor_mongo_client self) acc ->
  reviews_held (trip_advisor_mongo_client self') l.
Proof.
  revert acc self; induction businesses as [|b bs IH]; intros acc self.
  - cbn [reviews_of_businesses]. intros H; inversion H; subst. trivial.
  - cbn [reviews_of_businesses].
    destruct (getitem b _) as [url|e]; [|discriminate].
    destruct (Selenium.get w url (web_driver self)) as [d|e]; [|discriminate].
    destruct (reviews_loop _ _ _ _ _) as [[[l1|e] s]|] eqn:L;
      [|discriminate|discriminate].
    intros H Ha. eapply IH; [exact H|].
    eapply reviews_loop_held; [exact L|exact Ha].
Qed.

End ReturnedFacts.

(** X13: when the review crawl returns a list, the collection holds a
    document with the identity hash of every review of the list.  When the
    listing crawl returns a list, on any site and however its loop ended,
    the collection holds a document with the identity hash of every
    business of the list, but for the last when the loop ended at an
    insert that raised: that business was appended before its insert, and
    is in the list and not in the collection. *)
Theorem returned_records_are_stored :
  (forall (fuel : nat) (w : Selenium.site) (self self' : scrapper)
          (start : str) (l : list Business),
      get_and_store_businesses fuel w self start = Some (Ok l, self') ->
      Forall (fun b => More.holds (BusinessM.get_object_hash b)
                                  (trip_advisor_mongo_client self')) l
      \/ exists (l0 : list Business) (b : Business) (e : exn),
          l = l0 ++ [b]
          /\ Forall (fun b => More.holds (BusinessM.get_object_hash b)
                                         (trip_advisor_mongo_client self')) l0
          /\ insert_business b (trip_advisor_mongo_client self')
             = (Raise e, trip_advisor_mongo_client self'))
  /\ (forall (fuel : nat) (w : Selenium.site) (self self' : scrapper)
             (businesses : list (list (str * str))) (l : list Review),
      get_and_store_reviews fuel w self businesses = Some (Ok l, self') ->
      Forall (fun r => More.holds (ReviewM.get_object_hash r)
                                  (trip_advisor_mongo_client self')) l).
Proof.
  split.
  - intros fuel w self self' start l. unfold get_and_store_businesses.
    destruct (Selenium.get w start (web_driver self)) as [d|e]; [|discriminate].
    destruct (businesses_loop _ _ _ _) as [[l1 s]|] eqn:L; [|discriminate].
    intros H; inversion H; subst.
    apply (@ReturnedFacts.businesses_loop_held _ _ _ _ _ _ L). constructor.
  - intros fuel w self self' businesses l H.
    apply (@ReturnedFacts.reviews_of_businesses_held _ _ _ _ _ _ _ H). constructor.
Qed.

(** A listing of three cards, the second with a name that holds a
    surrogate: the crawl returns two businesses and has stored one. *)
Lemma returned_records_are_stored_witness :
  exists (l : list Business) (self' : scrapper),
    get_and_store_businesses 2 Sample2.surrogate_site Sample.fresh
      Sample.listing_url = Some (Ok l, self')
    /\ List.length l = 2
    /\ List.length (documents (trip_advisor_mongo_client self')) = 1
    /\ (Forall (fun b => More.holds (BusinessM.get_object_hash b)
                                    (trip_advisor_mongo_client self')) l
        \/ exists (l0 : list Business) (b : Business) (e : exn),
            l = l0 ++ [b]
            /\ Forall (fun b => More.holds (BusinessM.get_object_hash b)
                                           (trip_advisor_mongo_client self')) l0
            /\ insert_business b (trip_advisor_mongo_client self')
               = (Raise e, trip_advisor_mongo_client self')).
Proof.
  eexists. eexists. split; [vm_compute; reflexivity|]. split; [reflexivity|].
  split; [reflexivity|].
  eapply (proj1 returned_records_are_stored 2 Sample2.surrogate_site
            Sample.fresh _ Sample.listing_url).
  vm_compute. reflexivity.
Defined.

(** X14: a business and a review are never hashed from the same text: the
    text of a business starts with the key [business_name] and that of a
    review with the key [business].  So a business and a review can share
    an identity hash only if SHA-256 collides. *)
Theorem business_and_review_texts_differ (b : Business) (r : Review) :
  Str.eqb (Json.dumps (BusinessM.__dict__ b)) (Json.dumps (ReviewM.hash_data r))
  = false.
Proof.
  apply StrFacts.eqb_neq. intros H.
  apply (f_equal (fun s => nth 10 s 0%N)) in H.
  lazy in H. discriminate.
Qed.
(* ------------------------------------------------------------------ *)
(** ** The text that is hashed determines the identity fields *)

Module UnescapeFacts.
Import Unescape.
Local Open Scope N_scope.

Lemma unhex_hex_digit (d : N) : d < 16 -> unhex_digit (SHA256.hex_digit d) = d.
Proof.
  intros H. unfold SHA256.hex_digit, unhex_digit.
  destruct (d <? 10) eqn:E.
  - apply N.ltb_lt in E.
    assert (F : (48 + d <? 58) = true) by (apply N.ltb_lt; lia).
    rewrite F. lia.
  - apply N.ltb_ge in E.
    assert (F : (87 + d <? 58) = false) by (apply N.ltb_ge; lia).
    rewrite F. lia.
Qed.

Lemma hex4 (c : N) :
  SHA256.hex 4 c
  = [SHA256.hex_digit ((c / 4096) mod 16); SHA256.hex_digit ((c / 256) mod 16);
     SHA256.hex_digit ((c / 16) mod 16); SHA256.hex_digit (c mod 16)].
Proof.
  unfold SHA256.hex. cbn [seq rev app map].
  change (4 * N.of_nat 3) with 12. change (4 * N.of_nat 2) with 8.
  change (4 * N.of_nat 1) with 4. change (4 * N.of_nat 0) with 0.
  rewrite !N.shiftr_div_pow2.
  change (2 ^ 12) with 4096. change (2 ^ 8) with 256.
  change (2 ^ 4) with 16. change (2 ^ 0) with 1.
  now rewrite N.div_1_r.
Qed.

Lemma unhex4_hex (c : N) (t : str) :
  c < 65536 -> unhex4 (SHA256.hex 4 c ++ t) = Some (c, t).
Proof.
  intros H. rewrite hex4. cbn [app unhex4].
  rewrite !unhex_hex_digit by (apply N.mod_lt; discriminate).
  f_equal. f_equal. zify. Z.to_euclidean_division_equations. lia.
Qed.

Lemma unescape_u (t : str) :
  unescape_char (92 :: 117 :: t)
  = match unhex4 t with
    | None => None
    | Some (v, t2) =>
        if (0xD800 <=? v) && (v <=? 0xDBFF) then
          match t2 with
          | _ :: _ :: t3 =>
              match unhex4 t3 with
              | Some (v2, t4) =>
                  Some (0x10000 + (v - 0xD800) * 1024 + (v2 - 0xDC00), t4)
              | None => None
              end
          | _ => None
          end
        else Some (v, t2)
    end.
Proof. reflexivity. Qed.

(** Below [1024] the bits of a number and those of a surrogate base do
    not meet, so that [lor] adds. *)
Lemma lor_base (y : N) :
  y < 1024 -> N.lor 0xd800 y = 0xd800 + y /\ N.lor 0xdc00 y = 0xdc00 + y.
Proof.
  intros H.
  assert (F : forallb (fun y => (N.lor 0xd800 y =? 0xd800 + y)
                                && (N.lor 0xdc00 y =? 0xdc00 + y))
                      (map N.of_nat (seq 0 1024)) = true)
    by (vm_compute; reflexivity).
  rewrite forallb_forall in F.
  specialize (F y). rewrite andb_true_iff, !N.eqb_eq in F. apply F.
  rewrite <- (N2Nat.id y). apply in_map. apply in_seq. lia.
Qed.

Lemma surrogates (c : N) :
  0x10000 <= c < 0x110000 ->
  N.lor 0xd800 (N.land (N.shiftr (c - 0x10000) 10) 0x3ff)
  = 0xd800 + (c - 0x10000) / 1024
  /\ N.lor 0xdc00 (N.land (c - 0x10000) 0x3ff)
     = 0xdc00 + (c - 0x10000) mod 1024.
Proof.
  intros H. change 0x3ff with (N.ones 10).
  rewrite !N.land_ones, N.shiftr_div_pow2. change (2 ^ 10) with 1024.
  assert (D : (c - 0x10000) / 1024 < 1024)
    by (zify; Z.to_euclidean_division_equations; lia).
  rewrite (N.mod_small _ _ D).
  split.
  - apply (lor_base D).
  - apply lor_base. apply N.mod_lt. discriminate.
Qed.

(** What [Json.escape_char] writes for a character is read back as that
    character. *)
Lemma unescape_escape (c : N) (t : str) :
  scalar c = true ->
  unescape_char (Json.escape_char c ++ t) = Some (c, t).
Proof.
  intros S. unfold Json.escape_char.
  destruct (c =? 34) eqn:E1; [apply N.eqb_eq in E1; subst; reflexivity|].
  destruct (c =? 92) eqn:E2; [apply N.eqb_eq in E2; subst; reflexivity|].
  destruct (c =? 8) eqn:E3; [apply N.eqb_eq in E3; subst; reflexivity|].
  destruct (c =? 12) eqn:E4; [apply N.eqb_eq in E4; subst; reflexivity|].
  destruct (c =? 10) eqn:E5; [apply N.eqb_eq in E5; subst; reflexivity|].
  destruct (c =? 13) eqn:E6; [apply N.eqb_eq in E6; subst; reflexivity|].
  destruct (c =? 9) eqn:E7; [apply N.eqb_eq in E7; subst; reflexivity|].
  destruct ((32 <=? c) && (c <=? 126)) eqn:E8.
  { cbn [app unescape_char]. now rewrite E1, E2. }
  unfold scalar in S.
  destruct (c <? 0x10000) eqn:E9.
  - apply N.ltb_lt in E9.
    change (py "\u") with [92; 117]. cbn [app].
    rewrite unescape_u, unhex4_hex by exact E9.
    assert (F : (0xD800 <=? c) && (c <=? 0xDBFF) = false).
    { apply andb_false_iff.
      apply orb_true_iff in S as [S|S].
      - left. apply N.ltb_lt in S. apply N.leb_gt. exact S.
      - right. apply andb_true_iff in S as [S _]. apply N.ltb_lt in S.
        apply N.leb_gt. lia. }
    now rewrite F.
  - apply N.ltb_ge in E9.
    assert (B : 0x10000 <= c < 0x110000).
    { split; [exact E9|].
      apply orb_true_iff in S as [S|S].
      - apply N.ltb_lt in S. lia.
      - apply andb_true_iff in S as [_ S]. now apply N.ltb_lt in S. }
    cbv zeta. destruct (surrogates B) as [-> ->].
    remember (c - 0x10000) as n eqn:En.
    assert (N' : c = 0x10000 + n /\ n < 1048576) by lia. clear En.
    assert (D : n / 1024 < 1024)
      by (zify; Z.to_euclidean_division_equations; lia).
    assert (M : n mod 1024 < 1024) by (apply N.mod_lt; discriminate).
    remember (n / 1024) as q eqn:Eq. remember (n mod 1024) as m eqn:Em.
    change (py "\u") with [92; 117]. cbn [app]. rewrite <- app_assoc.
    rewrite unescape_u, unhex4_hex by lia.
    assert (F : (0xD800 <=? 0xd800 + q) && (0xd800 + q <=? 0xDBFF) = true).
    { apply andb_true_iff. split; apply N.leb_le; lia. }
    rewrite F. cbn [app]. rewrite unhex4_hex by lia.
    f_equal. f_equal. subst q m. zify. Z.to_euclidean_division_equations. lia.
Qed.

(** A string literal is read back up to its closing quote. *)
Lemma escape_inj (s1 : str) :
  forall (s2 r1 r2 : str),
    scalars s1 -> scalars s2 ->
    flat_map Json.escape_char s1 ++ 34 :: r1
    = flat_map Json.escape_char s2 ++ 34 :: r2 ->
    s1 = s2 /\ r1 = r2.
Proof.
  unfold scalars.
  induction s1 as [|c1 s1 IH]; intros [|c2 s2] r1 r2 S1 S2 H;
    cbn [flat_map forallb] in *.
  - cbn [app] in H. injection H as H. now split.
  - apply andb_true_iff in S2 as [C2 _].
    apply (f_equal unescape_char) in H.
    rewrite <- app_assoc, (@unescape_escape _ _ C2) in H. discriminate.
  - apply andb_true_iff in S1 as [C1 _].
    apply (f_equal unescape_char) in H.
    rewrite <- app_assoc, (@unescape_escape _ _ C1) in H. discriminate.
  - apply andb_true_iff in S1 as [C1 S1]. apply andb_true_iff in S2 as [C2 S2].
    apply (f_equal unescape_char) in H.
    rewrite <- !app_assoc, (@unescape_escape _ _ C1), (@unescape_escape _ _ C2) in H.
    injection H as Hc H. subst c2.
    destruct (@IH _ _ _ S1 S2 H) as [-> ->]. now split.
Qed.

(** Two texts without a separator, each followed by it, are equal when
    the whole is. *)
Lemma until_sep (sep : N) (a1 : str) :
  forall (a2 r1 r2 : str),
    forallb (fun c => negb (c =? sep)) a1 = true ->
    forallb (fun c => negb (c =? sep)) a2 = true ->
    a1 ++ sep :: r1 = a2 ++ sep :: r2 ->
    a1 = a2 /\ r1 = r2.
Proof.
  induction a1 as [|x a1 IH]; intros [|y a2] r1 r2 F1 F2 H;
    cbn [app forallb] in *.
  - injection H as H. now split.
  - injection H as Hx _. subst y. now rewrite N.eqb_refl in F2.
  - injection H as Hx _. subst x. now rewrite N.eqb_refl in F1.
  - apply andb_true_iff in F1 as [_ F1]. apply andb_true_iff in F2 as [_ F2].
    injection H as Hx H. subst y.
    destruct (@IH _ _ _ F1 F2 H) as [-> ->]. now split.
Qed.

Lemma py_inj (s1 s2 : string) : py s1 = py s2 -> s1 = s2.
Proof.
  unfold py. intros H.
  rewrite <- (string_of_list_ascii_of_string s1),
          <- (string_of_list_ascii_of_string s2).
  f_equal.
  revert H. generalize (list_ascii_of_string s1) (list_ascii_of_string s2).
  induction l as [|a l IH]; intros [|b l'] H; cbn [map] in H;
    try discriminate; [reflexivity|].
  injection H as Ha H. f_equal; [|now apply IH].
  now rewrite <- (ascii_N_embedding a), <- (ascii_N_embedding b), Ha.
Qed.

Lemma to_uint_not_nil (p : positive) : Pos.to_uint p <> Decimal.Nil.
Proof.
  intros H. pose proof (DecimalPos.Unsigned.of_to p) as E.
  rewrite H in E. discriminate.
Qed.

Lemma dumps_int_inj (z1 z2 : Z) : Json.dumps_int z1 = Json.dumps_int z2 -> z1 = z2.
Proof.
  unfold Json.dumps_int. intros H. apply py_inj in H.
  assert (R : forall z, NilZero.int_of_string (NilZero.string_of_int (Z.to_int z))
                        = Some (Z.to_int z)).
  { intros z. apply NilZero.isi; destruct z; cbn; try discriminate;
      intros E; injection E as E; exact (to_uint_not_nil _ E). }
  apply (f_equal NilZero.int_of_string) in H. rewrite !R in H.
  injection H as H. apply (f_equal Z.of_int) in H.
  now rewrite !DecimalZ.of_to in H.
Qed.

Lemma uint_no_comma (d : Decimal.uint) :
  forallb (fun c => negb (c =? 44)) (py (NilEmpty.string_of_uint d)) = true.
Proof.
  induction d; cbn [NilEmpty.string_of_uint]; try reflexivity;
    unfold py in *; cbn [list_ascii_of_string map forallb];
    rewrite IHd; reflexivity.
Qed.

Lemma dumps_int_no_comma (z : Z) :
  forallb (fun c => negb (c =? 44)) (Json.dumps_int z) = true.
Proof.
  unfold Json.dumps_int, NilZero.string_of_int, NilZero.string_of_uint.
  destruct (Z.to_int z) as [d|d]; destruct d; try reflexivity;
    try apply uint_no_comma;
    unfold py; cbn [list_ascii_of_string map forallb];
    try (rewrite andb_true_iff; split; [reflexivity|]);
    apply (uint_no_comma (_ d)).
Qed.

(** The text of a business, piece by piece. *)
Lemma business_text (b : Business) :
  Json.dumps (BusinessM.__dict__ b)
  = py "{" ++ [34] ++ py "business_name" ++ [34] ++ py ": " ++ [34]
    ++ flat_map Json.escape_char (business_name b) ++ [34]
    ++ py ", " ++ [34] ++ py "business_url" ++ [34] ++ py ": " ++ [34]
    ++ flat_map Json.escape_char (business_url b) ++ [34] ++ py "}".
Proof.
  unfold Json.dumps, BusinessM.__dict__.
  change (Json.sort_items _)
    with [(py "business_name", Json.JStr (business_name b));
          (py "business_url", Json.JStr (business_url b))].
  cbn [map Str.join]. unfold Json.dumps_item. cbn [fst snd Json.dumps_value].
  unfold Json.dumps_str.
  change (flat_map Json.escape_char (py "business_name"))
    with (py "business_name").
  change (flat_map Json.escape_char (py "business_url"))
    with (py "business_url").
  now rewrite <- !app_assoc.
Qed.

(** The text of a review, piece by piece. *)
Lemma review_text_pieces (r : Review) :
  Json.dumps (ReviewM.hash_data r)
  = py "{" ++ [34] ++ py "business" ++ [34] ++ py ": " ++ [34]
    ++ flat_map Json.escape_char (business_name (business r)) ++ [34]
    ++ py ", " ++ [34] ++ py "review_rating" ++ [34] ++ py ": "
    ++ Json.dumps_int (review_rating r)
    ++ py ", " ++ [34] ++ py "review_text" ++ [34] ++ py ": " ++ [34]
    ++ flat_map Json.escape_char (review_text r) ++ [34]
    ++ py ", " ++ [34] ++ py "review_title" ++ [34] ++ py ": " ++ [34]
    ++ flat_map Json.escape_char (review_title r) ++ [34]
    ++ py ", " ++ [34] ++ py "reviewer" ++ [34] ++ py ": " ++ [34]
    ++ flat_map Json.escape_char (reviewer r) ++ [34] ++ py "}".
Proof.
  unfold Json.dumps, ReviewM.hash_data.
  change (Json.sort_items _)
    with [(py "business", Json.JStr (business_name (business r)));
          (py "review_rating", Json.JInt (review_rating r));
          (py "review_text", Json.JStr (review_text r));
          (py "review_title", Json.JStr (review_title r));
          (py "reviewer", Json.JStr (reviewer r))].
  cbn [map Str.join]. unfold Json.dumps_item. cbn [fst snd Json.dumps_value].
  unfold Json.dumps_str.
  change (flat_map Json.escape_char (py "business")) with (py "business").
  change (flat_map Json.escape_char (py "review_rating"))
    with (py "review_rating").
  change (flat_map Json.escape_char (py "review_text")) with (py "review_text").
  change (flat_map Json.escape_char (py "review_title"))
    with (py "review_title").
  change (flat_map Json.escape_char (py "reviewer")) with (py "reviewer").
  now rewrite <- !app_assoc.
Qed.

Lemma business_text_inj (b1 b2 : Business) :
  scalar_business b1 -> scalar_business b2 ->
  Json.dumps (BusinessM.__dict__ b1) = Json.dumps (BusinessM.__dict__ b2) ->
  b1 = b2.
Proof.
  intros [N1 U1] [N2 U2] H. rewrite !business_text in H.
  repeat first [apply app_inv_head in H | progress (injection H as H)].
  apply (@escape_inj _ _ _ _ N1 N2) in H as [En H].
  repeat first [apply app_inv_head in H | progress (injection H as H)].
  apply (@escape_inj _ _ _ _ U1 U2) in H as [Eu _].
  destruct b1, b2. cbn in En, Eu. now subst.
Qed.

Lemma review_text_inj (r1 r2 : Review) :
  scalar_review r1 -> scalar_review r2 ->
  Json.dumps (ReviewM.hash_data r1) = Json.dumps (ReviewM.hash_data r2) ->
  business_name (business r1) = business_name (business r2)
  /\ reviewer r1 = reviewer r2
  /\ review_title r1 = review_title r2
  /\ review_text r1 = review_text r2
  /\ review_rating r1 = review_rating r2.
Proof.
  intros (B1 & R1 & T1 & X1) (B2 & R2 & T2 & X2) H.
  rewrite !review_text_pieces in H.
  repeat first [apply app_inv_head in H | progress (injection H as H)].
  apply (@escape_inj _ _ _ _ B1 B2) in H as [Eb H].
  repeat first [apply app_inv_head in H | progress (injection H as H)].
  apply (@until_sep 44 _ _ _ _ (dumps_int_no_comma _) (dumps_int_no_comma _))
    in H as [Ez H].
  apply dumps_int_inj in Ez.
  repeat first [apply app_inv_head in H | progress (injection H as H)].
  apply (@escape_inj _ _ _ _ X1 X2) in H as [Ex H].
  repeat first [apply app_inv_head in H | progress (injection H as H)].
  apply (@escape_inj _ _ _ _ T1 T2) in H as [Et H].
  repeat first [apply app_inv_head in H | progress (injection H as H)].
  apply (@escape_inj _ _ _ _ R1 R2) in H as [Er _].
  now repeat split.
Qed.

End UnescapeFacts.


(* ------------------------------------------------------------------ *)
(** ** The review crawl over a list of businesses, in parts *)

Module PartsFacts.
Import Parts.

Lemma continued_app {A : Type} (a b : list A)
  (o : option (res (list A) * scrapper)) :
  continued a (continued b o) = continued (a ++ b) o.
Proof.
  destruct o as [[[l|e] s]|]; cbn [continued]; try reflexivity.
  now rewrite app_assoc.
Qed.

Lemma reviews_turn_acc (w : Selenium.site) (business : list (str * str))
  (acc : list Review) (self : scrapper) :
  reviews_turn w business acc self
  = let '(l, s, sg) := reviews_turn w business [] self in (acc ++ l, s, sg).
Proof.
  unfold reviews_turn.
  destruct (get_all_reviews_in_page _ _) as [found|e];
    [|now rewrite app_nil_r].
  rewrite (CrawlFacts.store_reviews_acc found acc).
  destruct (store_reviews found [] _) as [[l1 c1] [e|]]; [reflexivity|].
  destruct (find_next_page_arrow _) as [[a|]|e]; try reflexivity.
  destruct (Bs4.item a _) as [href|e]; try reflexivity.
  destruct (Selenium.get _ _ _) as [d|e]; reflexivity.
Qed.

Lemma reviews_loop_acc (fuel : nat) (w : Selenium.site)
  (business : list (str * str)) :
  forall (acc : list Review) (self : scrapper),
    reviews_loop fuel w business acc self
    = continued acc (reviews_loop fuel w business [] self).
Proof.
  induction fuel as [|fuel IH]; intros acc self; [reflexivity|].
  cbn [reviews_loop]. rewrite (reviews_turn_acc w business acc self).
  destruct (reviews_turn w business [] self) as [[l s] sg].
  destruct sg; cbn [continued]; try reflexivity.
  rewrite (IH (acc ++ l) s), (IH l s). now rewrite continued_app.
Qed.

Lemma reviews_of_businesses_acc (fuel : nat) (w : Selenium.site)
  (businesses : list (list (str * str))) :
  forall (acc : list Review) (self : scrapper),
    reviews_of_businesses fuel w businesses acc self
    = continued acc (reviews_of_businesses fuel w businesses [] self).
Proof.
  induction businesses as [|b bs IH]; intros acc self.
  - cbn [reviews_of_businesses continued]. now rewrite app_nil_r.
  - cbn [reviews_of_businesses].
    destruct (getitem b _) as [url|e]; [|reflexivity].
    destruct (Selenium.get w url (web_driver self)) as [d|e]; [|reflexivity].
    rewrite (reviews_loop_acc fuel w b acc).
    destruct (reviews_loop fuel w b [] _) as [[[l|e] s]|];
      cbn [continued]; try reflexivity.
    rewrite (IH (acc ++ l) s), (IH l s). now rewrite continued_app.
Qed.

Lemma reviews_of_businesses_app (fuel : nat) (w : Selenium.site)
  (bs1 bs2 : list (list (str * str))) :
  forall (acc : list Review) (self : scrapper),
    reviews_of_businesses fuel w (bs1 ++ bs2) acc self
    = match reviews_of_businesses fuel w bs1 acc self with
      | Some (Ok l, s) => reviews_of_businesses fuel w bs2 l s
      | other => other
      end.
Proof.
  induction bs1 as [|b bs1 IH]; intros acc self; [reflexivity|].
  cbn [app reviews_of_businesses].
  destruct (getitem b _) as [url|e]; [|reflexivity].
  destruct (Selenium.get w url (web_driver self)) as [d|e]; [|reflexivity].
  destruct (reviews_loop fuel w b acc _) as [[[l|e] s]|]; try reflexivity.
  apply IH.
Qed.

End PartsFacts.

(* ------------------------------------------------------------------ *)
(** ** The addresses a crawl loads *)

Module SiteFacts.
Import Parts.

Lemma loaded_refl (d : Selenium.webdriver) : loaded d d [].
Proof. unfold loaded. now rewrite app_nil_r. Qed.

Lemma loaded_trans (d1 d2 d3 : Selenium.webdriver) (a b : list str) :
  loaded d1 d2 a -> loaded d2 d3 b -> loaded d1 d3 (a ++ b).
Proof. unfold loaded. intros H1 H2. now rewrite H2, H1, app_assoc. Qed.

Lemma get_loaded (w : Selenium.site) (u : str) (d d' : Selenium.webdriver) :
  Selenium.get w u d = Ok d' -> loaded d d' [u].
Proof.
  unfold Selenium.get, loaded. destruct (w u); [|discriminate].
  intros H; inversion H; reflexivity.
Qed.

Lemma business_of_element_on_site (card : node) (b : Business) :
  business_of_element card = Ok b -> on_site (business_url b).
Proof.
  unfold business_of_element.
  destruct (child (py "div") card) as [d1|]; [|discriminate]. cbn [not_none bind].
  destruct (child (py "div") d1) as [d2|]; [|discriminate]. cbn [not_none bind].
  destruct (child (py "a") card) as [a|]; [|discriminate]. cbn [not_none bind].
  destruct (Bs4.get (py "href") a) as [href|]; [|discriminate].
  intros H; inversion H; subst. now exists href.
Qed.

Lemma page_businesses_on_site (p : node) (found : list Business) :
  get_all_business_in_page p = Ok found ->
  Forall (fun b => on_site (business_url b)) found.
Proof.
  unfold get_all_business_in_page. intros H.
  apply ListingFacts.for_each_ok in H.
  induction H as [|card b cards bs Hb _ IH]; constructor; [|exact IH].
  now apply (business_of_element_on_site card).
Qed.

(** What the loop over the businesses of a page appends are businesses
    of the page. *)
Lemma store_businesses_on_site (found acc l : list Business)
  (c c1 : collection) (s : option exn) :
  store_businesses found acc c = (l, c1, s) ->
  Forall (fun b => on_site (business_url b)) found ->
  Forall (fun b => on_site (business_url b)) acc ->
  Forall (fun b => on_site (business_url b)) l.
Proof.
  rewrite CrawlFacts.store_businesses_acc. intros H Hf Ha.
  destruct (CrawlFacts.store_businesses_appended found c)
    as [[c' E]|(pre & b & post & e & c' & Hl & E)];
    rewrite E in H; inversion H; subst; apply Forall_app; split; trivial.
  apply Forall_app in Hf as [Hp Hb]. apply Forall_app. split; [exact Hp|].
  inversion Hb; subst. constructor; [assumption|constructor].
Qed.

(** One turn of either loop loads nothing, or one address of the site. *)
Lemma businesses_turn_loaded (w : Selenium.site) (acc l : list Business)
  (self self' : scrapper) (sg : signal) :
  businesses_turn w acc self = (l, self', sg) ->
  (exists urls, loaded (web_driver self) (web_driver self') urls
                /\ Forall on_site urls)
  /\ (Forall (fun b => on_site (business_url b)) acc ->
      Forall (fun b => on_site (business_url b)) l).
Proof.
  unfold businesses_turn.
  destruct (get_all_business_in_page _) as [found|e] eqn:G.
  2:{ intros H; inversion H; subst. split; [|trivial].
      exists []. split; [apply loaded_refl|constructor]. }
  pose proof (page_businesses_on_site _ G) as Hf.
  destruct (store_businesses found acc _) as [[l1 c1] s] eqn:S.
  pose proof (fun Ha => @store_businesses_on_site _ _ _ _ _ _ S Hf Ha) as A.
  destruct s as [e|].
  { intros H; inversion H; subst; cbn [web_driver]; split; [|exact A].
    exists []; split; [apply loaded_refl|constructor]. }
  destruct (find_next_page_arrow _) as [[a|]|e];
    try (intros H; inversion H; subst; cbn [web_driver]; split; [|exact A];
         exists []; split; [apply loaded_refl|constructor]).
  destruct (Bs4.item a _) as [href|e];
    try (intros H; inversion H; subst; cbn [web_driver]; split; [|exact A];
         exists []; split; [apply loaded_refl|constructor]).
  cbn [web_driver].
  destruct (Selenium.get _ _ _) as [d|e] eqn:L;
    intros H; inversion H; subst; cbn [web_driver]; (split; [|exact A]).
  - exists [TRIP_ADVISOR_URL ++ href]. split; [exact (get_loaded _ _ _ L)|].
    constructor; [now exists href|constructor].
  - exists []. split; [apply loaded_refl|constructor].
Qed.

Lemma businesses_loop_loaded (fuel : nat) (w : Selenium.site) :
  forall (acc l : list Business) (self self' : scrapper),
    businesses_loop fuel w acc self = Some (l, self') ->
    (exists urls, loaded (web_driver self) (web_driver self') urls
                  /\ Forall on_site urls)
    /\ (Forall (fun b => on_site (business_url b)) acc ->
        Forall (fun b => on_site (business_url b)) l).
Proof.
  induction fuel as [|fuel IH]; intros acc l self self'; [discriminate|].
  cbn [businesses_loop].
  destruct (businesses_turn w acc self) as [[l1 s1] sg] eqn:T.
  destruct (businesses_turn_loaded _ _ _ T) as [(u1 & L1 & F1) A1].
  destruct sg; intros H.
  - destruct (IH _ _ _ _ H) as [(u2 & L2 & F2) A2]. split; [|auto].
    exists (u1 ++ u2). split; [exact (loaded_trans L1 L2)|].
    apply Forall_app. now split.
  - inversion H; subst. split; [|exact A1]. now exists u1.
  - inversion H; subst. split; [|exact A1]. now exists u1.
Qed.

Lemma reviews_turn_loaded (w : Selenium.site) (business : list (str * str))
  (acc l : list Review) (self self' : scrapper) (sg : signal) :
  reviews_turn w business acc self = (l, self', sg) ->
  exists urls, loaded (web_driver self) (web_driver self') urls
               /\ Forall on_site urls.
Proof.
  unfold reviews_turn.
  destruct (get_all_reviews_in_page _ _) as [found|e].
  2:{ intros H; inversion H; subst.
      exists []. split; [apply loaded_refl|constructor]. }
  destruct (store_reviews found acc _) as [[l1 c1] [e|]].
  { intros H; inversion H; subst; cbn [web_driver].
    exists []; split; [apply loaded_refl|constructor]. }
  destruct (find_next_page_arrow _) as [[a|]|e];
    try (intros H; inversion H; subst; cbn [web_driver];
         exists []; split; [apply loaded_refl|constructor]).
  destruct (Bs4.item a _) as [href|e];
    try (intros H; inversion H; subst; cbn [web_driver];
         exists []; split; [apply loaded_refl|constructor]).
  cbn [web_driver].
  destruct (Selenium.get _ _ _) as [d|e] eqn:L;
    intros H; inversion H; subst; cbn [web_driver].
  - exists [TRIP_ADVISOR_URL ++ href]. split; [exact (get_loaded _ _ _ L)|].
    constructor; [now exists href|constructor].
  - exists []. split; [apply loaded_refl|constructor].
Qed.

Lemma reviews_loop_loaded (fuel : nat) (w : Selenium.site)
  (business : list (str * str)) :
  forall (acc : list Review) (self self' : scrapper) (r : res (list Review)),
    reviews_loop fuel w business acc self = Some (r, self') ->
    exists urls, loaded (web_driver self) (web_driver self') urls
                 /\ Forall on_site urls.
Proof.
  induction fuel as [|fuel IH]; intros acc self self' r; [discriminate|].
  cbn [reviews_loop].
  destruct (reviews_turn w business acc self) as [[l1 s1] sg] eqn:T.
  destruct (reviews_turn_loaded _ _ _ _ T) as (u1 & L1 & F1).
  destruct sg; intros H.
  - destruct (IH _ _ _ _ H) as (u2 & L2 & F2).
    exists (u1 ++ u2). split; [exact (loaded_trans L1 L2)|].
    apply Forall_app. now split.
  - inversion H; subst. now exists u1.
  - inversion H; subst. now exists u1.
Qed.

Lemma address_of_cons (b : list (str * str)) (bs : list (list (str * str)))
  (u : str) :
  on_site u \/ address_of bs u -> on_site u \/ address_of (b :: bs) u.
Proof.
  intros [H|(x & Hx & Hu)]; [now left|right].
  exists x. split; [now right|exact Hu].
Qed.

Lemma reviews_of_businesses_loaded (fuel : nat) (w : Selenium.site)
  (businesses : list (list (str * str))) :
  forall (acc : list Review) (self self' : scrapper) (r : res (list Review)),
    reviews_of_businesses fuel w businesses acc self = Some (r, self') ->
    exists urls, loaded (web_driver self) (web_driver self') urls
                 /\ Forall (fun u => on_site u \/ address_of businesses u) urls.
Proof.
  induction businesses as [|b bs IH]; intros acc self self' r;
    cbn [reviews_of_businesses].
  - intros H; inversion H; subst.
    exists []. split; [apply loaded_refl|constructor].
  - unfold getitem.
    destruct (lookup (py "business_url") b) as [url|] eqn:U.
    2:{ intros H; inversion H; subst.
        exists []. split; [apply loaded_refl|constructor]. }
    destruct (Selenium.get w url (web_driver self)) as [d|e] eqn:G.
    2:{ intros H; inversion H; subst.
        exists []. split; [apply loaded_refl|constructor]. }
    pose proof (get_loaded _ _ _ G) as L0.
    assert (A0 : on_site url \/ address_of (b :: bs) url)
      by (right; exists b; split; [now left|exact U]).
    destruct (reviews_loop _ _ _ _ _) as [[[l|e] s]|] eqn:L; [| |discriminate].
    + intros H.
      destruct (reviews_loop_loaded _ _ _ _ _ L) as (u1 & L1 & F1).
      cbn [web_driver] in L1.
      destruct (IH _ _ _ _ H) as (u2 & L2 & F2).
      exists ([url] ++ u1 ++ u2).
      split; [exact (loaded_trans L0 (loaded_trans L1 L2))|].
      apply Forall_app. split; [constructor; [exact A0|constructor]|].
      apply Forall_app. split.
      * eapply Forall_impl; [|exact F1]. intros u Hu. now left.
      * eapply Forall_impl; [|exact F2]. intros u. apply address_of_cons.
    + intros H; inversion H; subst.
      destruct (reviews_loop_loaded _ _ _ _ _ L) as (u1 & L1 & F1).
      cbn [web_driver] in L1.
      exists ([url] ++ u1). split; [exact (loaded_trans L0 L1)|].
      apply Forall_app. split; [constructor; [exact A0|constructor]|].
      eapply Forall_impl; [|exact F1]. intros u Hu. now left.
Qed.

End SiteFacts.


(* ------------------------------------------------------------------ *)
(** ** A business dict without its name or its address *)

Module KeyFacts.

Lemma reviews_of_cards_keyless (business : list (str * str)) (cards : list node) :
  lookup (py "business_name") business = None
  \/ lookup (py "business_url") business = None ->
  forall acc : list Review,
    reviews_of_cards cards business acc
    = if existsb well_formed cards then Raise KeyError else Ok acc.
Proof.
  intros K. induction cards as [|card rest IH]; intros acc; [reflexivity|].
  cbn [reviews_of_cards existsb].
  destruct (well_formed card) eqn:W.
  - destruct (CardFacts.read_card_ok card W) as [f ->]. cbn [orb].
    unfold getitem.
    destruct (lookup (py "business_name") business) as [name|];
      [|reflexivity].
    destruct K as [K|K]; [discriminate|]. now rewrite K.
  - destruct (CardFacts.read_card_raise card W) as [e ->]. cbn [orb].
    apply IH.
Qed.

End KeyFacts.


(* ------------------------------------------------------------------ *)
(** ** What the listings return after a list of records is stored *)

Module FirstsFacts.
Import More Firsts.

Lemma seen_in (h : str) (seen : list str) :
  existsb (Str.eqb h) seen = true <-> In h seen.
Proof.
  rewrite existsb_exists. split.
  - intros (x & Hx & E). apply StrFacts.eqb_eq in E. now subst.
  - intros H. exists h. split; [exact H|apply StrFacts.eqb_refl].
Qed.

Lemma hashes_of_empty (n : N) : hashes_of (Collection [] n) [].
Proof. intros h. unfold holds. cbn. tauto. Qed.

Lemma hashes_of_appended (d : document) (c : collection) (h : str)
  (seen : list str) :
  Mongo.get (py "unique_id") ((py "_id", VObjectId (next_id c)) :: d)
  = Some (VStr h) ->
  hashes_of c seen -> hashes_of (appended d c) (h :: seen).
Proof.
  intros Hh S h'. unfold holds. rewrite StoreFacts.find_appended.
  specialize (S h'). unfold holds in S. cbn [In].
  destruct (matches (by_hash h') _) eqn:M.
  - apply MongoFacts.matches_by_hash in M. rewrite Hh in M.
    inversion M; subst h'. split; [now left|].
    intros _ E. now apply app_eq_nil in E as [_ E].
  - rewrite app_nil_r. split.
    + intros H. right. now apply S.
    + intros [E|H]; [|now apply S]. subst h'. exfalso.
      assert (T : matches (by_hash h) ((py "_id", VObjectId (next_id c)) :: d)
                  = true) by now apply MongoFacts.matches_by_hash.
      now rewrite T in M.
Qed.

Lemma listings_appended_business (b : Business) (c : collection) :
  get_businesses (appended (BusinessM.to_mongo_document b) c)
  = get_businesses c ++ [listed_business b]
  /\ get_reviews (appended (BusinessM.to_mongo_document b) c) = get_reviews c.
Proof.
  unfold get_businesses, get_reviews. rewrite !StoreFacts.find_appended.
  replace (matches [(py "type", VStr MongoDocumentType.BUSINESS)] _)
    with true by reflexivity.
  replace (matches [(py "type", VStr MongoDocumentType.REVIEW)] _)
    with false by reflexivity.
  rewrite map_app, app_nil_r. split; reflexivity.
Qed.

Lemma listings_appended_review (r : Review) (c : collection) :
  get_reviews (appended (ReviewM.to_mongo_document r) c)
  = get_reviews c ++ [listed_review r]
  /\ get_businesses (appended (ReviewM.to_mongo_document r) c) = get_businesses c.
Proof.
  unfold get_businesses, get_reviews. rewrite !StoreFacts.find_appended.
  replace (matches [(py "type", VStr MongoDocumentType.BUSINESS)] _)
    with false by reflexivity.
  replace (matches [(py "type", VStr MongoDocumentType.REVIEW)] _)
    with true by reflexivity.
  rewrite map_app, app_nil_r. split; reflexivity.
Qed.

Lemma absent_when_unseen (h : str) (c : collection) (seen : list str) :
  hashes_of c seen ->
  existsb (Str.eqb h) seen = false ->
  Mongo.find (by_hash h) c = [].
Proof.
  intros S E. destruct (Mongo.find (by_hash h) c) eqn:F; [reflexivity|].
  assert (H : holds h c) by (unfold holds; rewrite F; discriminate).
  apply S, seen_in in H. now rewrite H in E.
Qed.

Lemma stored_businesses_listed (l : list Business) :
  forall (acc l1 : list Business) (c c1 : collection) (seen : list str),
    hashes_of c seen ->
    store_businesses l acc c = (l1, c1, None) ->
    get_businesses c1
    = get_businesses c
      ++ map listed_business (first_of_each BusinessM.get_object_hash seen l)
    /\ get_reviews c1 = get_reviews c.
Proof.
  induction l as [|b l IH]; intros acc l1 c c1 seen S H.
  - inversion H; subst. cbn [first_of_each map]. rewrite app_nil_r.
    split; reflexivity.
  - rewrite CrawlFacts.store_businesses_cons in H. cbn [first_of_each].
    destruct (existsb (Str.eqb (BusinessM.get_object_hash b)) seen) eqn:E.
    + apply seen_in, S in E.
      rewrite (StoreFacts.insert_business_held E) in H.
      exact (IH _ _ _ _ _ S H).
    + pose proof (absent_when_unseen _ S E) as F.
      rewrite MongoFacts.insert_business_by_hash, F in H.
      destruct (encode_document (BusinessM.to_mongo_document b));
        [|discriminate].
      destruct (IH _ _ _ _ _
                  (@hashes_of_appended (BusinessM.to_mongo_document b) c
                     (BusinessM.get_object_hash b) seen
                     (MongoFacts.business_document_hash b
                        (VObjectId (next_id c))) S) H)
        as [Hb Hr].
      destruct (listings_appended_business b c) as [Ab Ar].
      rewrite Hb, Hr, Ab, Ar. cbn [map]. rewrite <- app_assoc.
      split; reflexivity.
Qed.

Lemma stored_reviews_listed (l : list Review) :
  forall (acc l1 : list Review) (c c1 : collection) (seen : list str),
    hashes_of c seen ->
    store_reviews l acc c = (l1, c1, None) ->
    get_reviews c1
    = get_reviews c
      ++ map listed_review (first_of_each ReviewM.get_object_hash seen l)
    /\ get_businesses c1 = get_businesses c.
Proof.
  induction l as [|r l IH]; intros acc l1 c c1 seen S H.
  - inversion H; subst. cbn [first_of_each map]. rewrite app_nil_r.
    split; reflexivity.
  - rewrite CrawlFacts.store_reviews_cons in H. cbn [first_of_each].
    destruct (existsb (Str.eqb (ReviewM.get_object_hash r)) seen) eqn:E.
    + apply seen_in, S in E.
      rewrite (StoreFacts.insert_review_held E) in H.
      exact (IH _ _ _ _ _ S H).
    + pose proof (absent_when_unseen _ S E) as F.
      rewrite MongoFacts.insert_review_by_hash, F in H.
      destruct (encode_document (ReviewM.to_mongo_document r));
        [|discriminate].
      destruct (IH _ _ _ _ _
                  (@hashes_of_appended (ReviewM.to_mongo_document r) c
                     (ReviewM.get_object_hash r) seen
                     (MongoFacts.review_document_hash r
                        (VObjectId (next_id c))) S) H)
        as [Hr Hb].
      destruct (listings_appended_review r c) as [Ar Ab].
      rewrite Hr, Hb, Ar, Ab. cbn [map]. rewrite <- app_assoc.
      split; reflexivity.
Qed.

End FirstsFacts.


